(** * knoxAutoPolicy: flow conversion, policy synthesis and deduplication

    A shallow embedding of [src/plugin/cilium.go] and
    [src/core/deduplicator.go], and the properties of the specification
    that concern them.

    Conventions of the embedding.
    - A Go slice or map that the code tests against [nil], or that
      [cmp.Equal] compares, is an [option]: [None] is [nil], [Some []] is
      the empty, allocated value.
    - A pointer to a message that may be absent is an [option]; reading a
      field through a nil pointer is the outcome [Panic].
    - A [map[string]string] is a [gmap string string]; a missing key reads
      as the empty string, as in Go. *)

From Stdlib Require Import ZArith String Ascii List Lia.
From stdpp Require Import base option list strings pretty gmap fin_maps.

Open Scope string_scope.
Open Scope list_scope.
Open Scope Z_scope.

(** ** Outcomes of a Go call *)

(** A call returns, panics (nil dereference, index out of range), or, for
    the one loop of the code that has no bound, exhausts the fuel of the
    model. *)
Inductive outcome (A : Type) : Type :=
| Ret (a : A)
| Panic
| OutOfFuel.
Arguments Ret {A} a.
Arguments Panic {A}.
Arguments OutOfFuel {A}.

Definition obind {A B} (m : outcome A) (k : A -> outcome B) : outcome B :=
  match m with
  | Ret a => k a
  | Panic => Panic
  | OutOfFuel => OutOfFuel
  end.

(** [deref p]: read through a pointer. *)
Definition deref {A} (p : option A) : outcome A :=
  match p with
  | Some a => Ret a
  | None => Panic
  end.

(** [index0 s]: the Go expression [s[0]]. *)
Definition index0 {A} (s : option (list A)) : outcome A :=
  match s with
  | Some (x :: _) => Ret x
  | _ => Panic
  end.

(** A loop whose body may panic. *)
Fixpoint foldM {A B} (f : B -> A -> outcome B) (l : list A) (b : B) : outcome B :=
  match l with
  | [] => Ret b
  | x :: l' => obind (f b x) (foldM f l')
  end.

(** ** Slices *)

Abbreviation slice A := (option (list A)) (only parsing).

(** The elements a [range] visits; [nil] has none. *)
Definition elems {A} (s : slice A) : list A := default [] s.

Definition len {A} (s : slice A) : nat := length (elems s).

(** [append(s, x)]: the result is allocated even when [s] is nil. *)
Definition append {A} (s : slice A) (x : A) : slice A := Some (elems s ++ [x]).

(** [s[0] = f(s[0])]: a write to a field of the first element. *)
Definition update0 {A} (s : slice A) (f : A -> A) : outcome (slice A) :=
  match s with
  | Some (x :: rest) => Ret (Some (f x :: rest))
  | _ => Panic
  end.

(** [m[k]] on a [map[string]string]. *)
Definition mget (m : gmap string string) (k : string) : string :=
  default "" (m !! k).

(** ** The functions of Go's [strings] that the code calls *)

Module strings.

Fixpoint HasPrefix (s prefix : string) {struct prefix} : bool :=
  match prefix, s with
  | EmptyString, _ => true
  | String _ _, EmptyString => false
  | String c p, String d s' => Ascii.eqb c d && HasPrefix s' p
  end.

Fixpoint Contains (s substr : string) : bool :=
  HasPrefix s substr ||
  match s with
  | EmptyString => false
  | String _ s' => Contains s' substr
  end.

Fixpoint HasSuffix (s suffix : string) : bool :=
  String.eqb s suffix ||
  match s with
  | EmptyString => false
  | String _ s' => HasSuffix s' suffix
  end.

Definition TrimSuffix (s suffix : string) : string :=
  if HasSuffix s suffix
  then String.substring 0 (String.length s - String.length suffix) s
  else s.

Fixpoint drop (n : nat) (s : string) : string :=
  match n, s with
  | O, _ => s
  | S _, EmptyString => EmptyString
  | S n', String _ s' => drop n' s'
  end.

(** [Replace(s, old, new, 1)] for a non-empty [old]: the first occurrence. *)
Fixpoint ReplaceFirst (s old new : string) : string :=
  if HasPrefix s old then String.append new (drop (String.length old) s)
  else match s with
       | EmptyString => EmptyString
       | String c s' => String c (ReplaceFirst s' old new)
       end.

(** [Split(s, sep)[0]] for a one-byte separator. *)
Fixpoint SplitHead (s : string) (sep : ascii) : string :=
  match s with
  | EmptyString => EmptyString
  | String c s' => if Ascii.eqb c sep then EmptyString else String c (SplitHead s' sep)
  end.

(** [ToUpper] on the ASCII letters; other bytes are kept. *)
Definition upper (c : ascii) : ascii :=
  let n := nat_of_ascii c in
  if (Nat.leb 97 n && Nat.leb n 122)%bool then ascii_of_nat (n - 32) else c.

Fixpoint ToUpper (s : string) : string :=
  match s with
  | EmptyString => EmptyString
  | String c s' => String (upper c) (ToUpper s')
  end.

End strings.

(** ** The flow messages of the Hubble API ([cilium/api/v1/flow])

    The generated Go types are outside the repository; the fields are those
    the code reads.  Message-typed fields are pointers, hence optional. *)

Module Endpoint.
Record t := mk { Namespace : string; Labels : list string; PodName : string }.
End Endpoint.

Module IP.
Record t := mk { Source : string; Destination : string }.
End IP.

Module TCPFlags.
Record t := mk { SYN : bool; ACK : bool }.
End TCPFlags.

Module TCP.
Record t := mk { SourcePort : Z; DestinationPort : Z; Flags : option TCPFlags.t }.
End TCP.

Module UDP.
Record t := mk { SourcePort : Z; DestinationPort : Z }.
End UDP.

Module ICMPv4.
Record t := mk { Type_ : Z; Code : Z }.
End ICMPv4.

(** The [protocol] oneof of [Layer4]; a variant holding a nil message reads
    like [L4Unset] through the getters. *)
Inductive Layer4 : Type :=
| L4TCP (tcp : TCP.t)
| L4UDP (udp : UDP.t)
| L4ICMPv4 (icmp : ICMPv4.t)
| L4ICMPv6
| L4Unset.

Definition GetTCP (l4 : Layer4) : option TCP.t :=
  match l4 with L4TCP x => Some x | _ => None end.
Definition GetUDP (l4 : Layer4) : option UDP.t :=
  match l4 with L4UDP x => Some x | _ => None end.
Definition GetICMPv4 (l4 : Layer4) : option ICMPv4.t :=
  match l4 with L4ICMPv4 x => Some x | _ => None end.

Module HTTP.
Record t := mk { Method : string; Url : string }.
End HTTP.

Module DNS.
Record t := mk { Query : string; Ips : list string }.
End DNS.

Inductive L7Record : Type :=
| L7Dns (dns : DNS.t)
| L7Http (http : HTTP.t)
| L7Kafka
| L7Unset.

Module Layer7.
(** [Type_]: 1 is REQUEST, 2 is RESPONSE. *)
Record t := mk { Type_ : Z; Record_ : L7Record }.
Definition GetHttp (l7 : t) : option HTTP.t :=
  match Record_ l7 with L7Http x => Some x | _ => None end.
Definition GetDns (l7 : t) : option DNS.t :=
  match Record_ l7 with L7Dns x => Some x | _ => None end.
End Layer7.

Inductive TrafficDirection : Type :=
| TRAFFIC_DIRECTION_UNKNOWN
| INGRESS
| EGRESS.

Definition TrafficDirection_String (d : TrafficDirection) : string :=
  match d with
  | TRAFFIC_DIRECTION_UNKNOWN => "TRAFFIC_DIRECTION_UNKNOWN"
  | INGRESS => "INGRESS"
  | EGRESS => "EGRESS"
  end.

Definition Verdict_DROPPED : Z := 2.

Module Flow.
(** [Time] holds the seconds of the timestamp message. *)
Record t := mk {
  Time : option Z;
  Verdict : Z;
  DropReason : Z;
  GetTrafficDirection : TrafficDirection;
  Source : option Endpoint.t;
  Destination : option Endpoint.t;
  IP : option IP.t;
  L4 : option Layer4;
  L7 : option Layer7.t
}.
End Flow.

(** ** [types.KnoxNetworkLog] *)

Module KnoxNetworkLog.
Record t := mk {
  FlowID : Z;
  ClusterName : string;
  SrcNamespace : string;
  SrcPodName : string;
  DstNamespace : string;
  DstPodName : string;
  Protocol : Z;
  SrcIP : string;
  DstIP : string;
  SrcPort : Z;
  DstPort : Z;
  SynFlag : bool;
  HTTPMethod : string;
  HTTPPath : string;
  DNSRes : string;
  DNSResIPs : slice string;
  Direction : string;
  Action : string
}.

(** The zero value, [types.KnoxNetworkLog{}]. *)
Definition zero : t :=
  mk 0 "" "" "" "" "" 0 "" "" 0 0 false "" "" "" None "" "".

Definition setAction (l : t) (v : string) : t :=
  mk (FlowID l) (ClusterName l) (SrcNamespace l) (SrcPodName l) (DstNamespace l)
     (DstPodName l) (Protocol l) (SrcIP l) (DstIP l) (SrcPort l) (DstPort l)
     (SynFlag l) (HTTPMethod l) (HTTPPath l) (DNSRes l) (DNSResIPs l) (Direction l) v.
Definition setDirection (l : t) (v : string) : t :=
  mk (FlowID l) (ClusterName l) (SrcNamespace l) (SrcPodName l) (DstNamespace l)
     (DstPodName l) (Protocol l) (SrcIP l) (DstIP l) (SrcPort l) (DstPort l)
     (SynFlag l) (HTTPMethod l) (HTTPPath l) (DNSRes l) (DNSResIPs l) v (Action l).
Definition setSrcNamespace (l : t) (v : string) : t :=
  mk (FlowID l) (ClusterName l) v (SrcPodName l) (DstNamespace l)
     (DstPodName l) (Protocol l) (SrcIP l) (DstIP l) (SrcPort l) (DstPort l)
     (SynFlag l) (HTTPMethod l) (HTTPPath l) (DNSRes l) (DNSResIPs l) (Direction l) (Action l).
Definition setDstNamespace (l : t) (v : string) : t :=
  mk (FlowID l) (ClusterName l) (SrcNamespace l) (SrcPodName l) v
     (DstPodName l) (Protocol l) (SrcIP l) (DstIP l) (SrcPort l) (DstPort l)
     (SynFlag l) (HTTPMethod l) (HTTPPath l) (DNSRes l) (DNSResIPs l) (Direction l) (Action l).
Definition setSrcPodName (l : t) (v : string) : t :=
  mk (FlowID l) (ClusterName l) (SrcNamespace l) v (DstNamespace l)
     (DstPodName l) (Protocol l) (SrcIP l) (DstIP l) (SrcPort l) (DstPort l)
     (SynFlag l) (HTTPMethod l) (HTTPPath l) (DNSRes l) (DNSResIPs l) (Direction l) (Action l).
Definition setDstPodName (l : t) (v : string) : t :=
  mk (FlowID l) (ClusterName l) (SrcNamespace l) (SrcPodName l) (DstNamespace l)
     v (Protocol l) (SrcIP l) (DstIP l) (SrcPort l) (DstPort l)
     (SynFlag l) (HTTPMethod l) (HTTPPath l) (DNSRes l) (DNSResIPs l) (Direction l) (Action l).
Definition setIPs (l : t) (src dst : string) : t :=
  mk (FlowID l) (ClusterName l) (SrcNamespace l) (SrcPodName l) (DstNamespace l)
     (DstPodName l) (Protocol l) src dst (SrcPort l) (DstPort l)
     (SynFlag l) (HTTPMethod l) (HTTPPath l) (DNSRes l) (DNSResIPs l) (Direction l) (Action l).
Definition setProtocol (l : t) (v : Z) : t :=
  mk (FlowID l) (ClusterName l) (SrcNamespace l) (SrcPodName l) (DstNamespace l)
     (DstPodName l) v (SrcIP l) (DstIP l) (SrcPort l) (DstPort l)
     (SynFlag l) (HTTPMethod l) (HTTPPath l) (DNSRes l) (DNSResIPs l) (Direction l) (Action l).
Definition setSynFlag (l : t) (v : bool) : t :=
  mk (FlowID l) (ClusterName l) (SrcNamespace l) (SrcPodName l) (DstNamespace l)
     (DstPodName l) (Protocol l) (SrcIP l) (DstIP l) (SrcPort l) (DstPort l)
     v (HTTPMethod l) (HTTPPath l) (DNSRes l) (DNSResIPs l) (Direction l) (Action l).
Definition setPorts (l : t) (src dst : Z) : t :=
  mk (FlowID l) (ClusterName l) (SrcNamespace l) (SrcPodName l) (DstNamespace l)
     (DstPodName l) (Protocol l) (SrcIP l) (DstIP l) src dst
     (SynFlag l) (HTTPMethod l) (HTTPPath l) (DNSRes l) (DNSResIPs l) (Direction l) (Action l).
Definition setHTTP (l : t) (method path : string) : t :=
  mk (FlowID l) (ClusterName l) (SrcNamespace l) (SrcPodName l) (DstNamespace l)
     (DstPodName l) (Protocol l) (SrcIP l) (DstIP l) (SrcPort l) (DstPort l)
     (SynFlag l) method path (DNSRes l) (DNSResIPs l) (Direction l) (Action l).
Definition setDNS (l : t) (query : string) (ips : slice string) : t :=
  mk (FlowID l) (ClusterName l) (SrcNamespace l) (SrcPodName l) (DstNamespace l)
     (DstPodName l) (Protocol l) (SrcIP l) (DstIP l) (SrcPort l) (DstPort l)
     (SynFlag l) (HTTPMethod l) (HTTPPath l) query ips (Direction l) (Action l).
End KnoxNetworkLog.

(** ** Sequencing of outcomes *)

#[global] Instance outcome_ret : MRet outcome := @Ret.
#[global] Instance outcome_bind : MBind outcome := fun A B k m => obind m k.

(** ** The policy types of [src/types]

    The package is outside the sources at hand; each struct has the fields
    that [cilium.go] and [deduplicator.go] read or write.  Equality of
    these records is what [cmp.Equal] and [reflect.DeepEqual] decide: a nil
    slice or map differs from an empty one. *)

Module Selector.
Record t := mk { MatchLabels : option (gmap string string) }.
#[global] Instance eq_dec : EqDecision t.
Proof. solve_decision. Defined.
End Selector.

Module SpecPort.
Record t := mk { Port : string; Protocol : string }.
#[global] Instance eq_dec : EqDecision t.
Proof. solve_decision. Defined.
End SpecPort.

Module SpecCIDR.
Record t := mk { CIDRs : slice string }.
#[global] Instance eq_dec : EqDecision t.
Proof. solve_decision. Defined.
End SpecCIDR.

Module SpecService.
Record t := mk { ServiceName : string; Namespace : string }.
#[global] Instance eq_dec : EqDecision t.
Proof. solve_decision. Defined.
End SpecService.

Module SpecFQDN.
Record t := mk { MatchNames : slice string }.
#[global] Instance eq_dec : EqDecision t.
Proof. solve_decision. Defined.
End SpecFQDN.

Module SpecHTTP.
Record t := mk { Method : string; Path : string }.
#[global] Instance eq_dec : EqDecision t.
Proof. solve_decision. Defined.
End SpecHTTP.

Module Egress.
Record t := mk {
  MatchLabels : option (gmap string string);
  ToPorts : slice SpecPort.t;
  ToCIDRs : slice SpecCIDR.t;
  ToEndtities : slice string;
  ToServices : slice SpecService.t;
  ToFQDNs : slice SpecFQDN.t;
  ToHTTPs : slice SpecHTTP.t
}.
#[global] Instance eq_dec : EqDecision t.
Proof. solve_decision. Defined.
Definition setToPorts (e : t) (v : slice SpecPort.t) : t :=
  mk (MatchLabels e) v (ToCIDRs e) (ToEndtities e) (ToServices e) (ToFQDNs e) (ToHTTPs e).
End Egress.

Module Ingress.
Record t := mk {
  MatchLabels : option (gmap string string);
  ToPorts : slice SpecPort.t;
  ToHTTPs : slice SpecHTTP.t;
  FromCIDRs : slice SpecCIDR.t;
  FromEntities : slice string
}.
#[global] Instance eq_dec : EqDecision t.
Proof. solve_decision. Defined.
End Ingress.

Module Spec.
Record t := mk {
  Selector : Selector.t;
  Egress : slice Egress.t;
  Ingress : slice Ingress.t
}.
#[global] Instance eq_dec : EqDecision t.
Proof. solve_decision. Defined.
End Spec.

Module KnoxNetworkPolicy.
Record t := mk {
  Metadata : option (gmap string string);
  Spec : Spec.t
}.
#[global] Instance eq_dec : EqDecision t.
Proof. solve_decision. Defined.

(** [p.Metadata[k]]; reading a nil map gives the zero value. *)
Definition meta (p : t) (k : string) : string :=
  mget (default ∅ (Metadata p)) k.

(** The zero value, [types.KnoxNetworkPolicy{}]. *)
Definition zero : t := mk None (Spec.mk (Selector.mk None) None None).
End KnoxNetworkPolicy.

Module Service.
Record t := mk {
  Namespace : string;
  ServiceName : string;
  ServicePort : Z;
  Protocol : string
}.
End Service.

Module CiliumPort.
Record t := mk { Port : string; Protocol : string }.
End CiliumPort.

(** [SubRule] and [CiliumFQDN] are [map[string]string]. *)
Module CiliumPortList.
Record t := mk {
  Ports : slice CiliumPort.t;
  Rules : option (gmap string (slice (gmap string string)))
}.
End CiliumPortList.

Module CiliumEndpoint.
Record t := mk { MatchLabels : option (gmap string string) }.
End CiliumEndpoint.

Module CiliumK8sService.
Record t := mk { ServiceName : string; Namespace : string }.
End CiliumK8sService.

Module CiliumService.
Record t := mk { K8sService : CiliumK8sService.t }.
End CiliumService.

Module CiliumEgress.
Record t := mk {
  ToEndpoints : slice CiliumEndpoint.t;
  ToPorts : slice CiliumPortList.t;
  ToCIDRs : slice string;
  ToEntities : slice string;
  ToServices : slice CiliumService.t;
  ToFQDNs : slice (gmap string string)
}.
Definition zero : t := mk None None None None None None.
End CiliumEgress.

Module CiliumIngress.
Record t := mk {
  FromEndpoints : slice CiliumEndpoint.t;
  ToPorts : slice CiliumPortList.t;
  FromCIDRs : slice string;
  FromEntities : slice string
}.
Definition zero : t := mk None None None None.
End CiliumIngress.

Module CiliumSpec.
Record t := mk {
  Selector : Selector.t;
  Egress : slice CiliumEgress.t;
  Ingress : slice CiliumIngress.t
}.
End CiliumSpec.

Module CiliumNetworkPolicy.
Record t := mk {
  APIVersion : string;
  Kind : string;
  Metadata : option (gmap string string);
  Spec : CiliumSpec.t
}.
End CiliumNetworkPolicy.

(** ** [src/plugin/cilium.go]: the flow convertor and the flow buffer *)

Module plugin.

Section Convertor.

(** [url.Parse] of Go's standard library, reduced to what [getHTTP] reads:
    the [Path] of the parsed URL, [None] when parsing fails and the
    returned pointer is nil. *)
Variable url_Parse : string -> option string.

Definition isSynFlagOnly (tcp : TCP.t) : bool :=
  match TCP.Flags tcp with
  | Some flags => TCPFlags.SYN flags && negb (TCPFlags.ACK flags)
  | None => false
  end.

Definition getL4Ports (l4 : Layer4) : Z * Z :=
  match GetTCP l4, GetUDP l4, GetICMPv4 l4 with
  | Some tcp, _, _ => (TCP.SourcePort tcp, TCP.DestinationPort tcp)
  | None, Some udp, _ => (UDP.SourcePort udp, UDP.DestinationPort udp)
  | None, None, Some icmp => (ICMPv4.Type_ icmp, ICMPv4.Code icmp)
  | None, None, None => (-1, -1)
  end.

Definition getProtocol (l4 : Layer4) : Z :=
  match GetTCP l4, GetUDP l4, GetICMPv4 l4 with
  | Some _, _, _ => 6
  | None, Some _, _ => 17
  | None, None, Some _ => 1
  | None, None, None => 0
  end.

Definition getProtocolStr (l4 : Layer4) : string :=
  match GetTCP l4, GetUDP l4, GetICMPv4 l4 with
  | Some _, _, _ => "tcp"
  | None, Some _, _ => "udp"
  | None, None, Some _ => "icmp"
  | None, None, None => "unknown"
  end.

Fixpoint getReservedLabelIfExist (labels : list string) : string :=
  match labels with
  | [] => ""
  | label :: rest =>
      if strings.HasPrefix label "reserved:" then label
      else getReservedLabelIfExist rest
  end.

Definition getHTTP (flow : Flow.t) : outcome (string * string) :=
  match Flow.L7 flow with
  | Some l7 =>
      match Layer7.GetHttp l7 with
      | Some http =>
          if Layer7.Type_ l7 =? 1 then
            let method := HTTP.Method http in
            path ← deref (url_Parse (HTTP.Url http));
            let path := if strings.HasPrefix path "//"
                        then strings.ReplaceFirst path "//" "/" else path in
            Ret (method, path)
          else Ret ("", "")
      | None => Ret ("", "")
      end
  | None => Ret ("", "")
  end.

(** The L7 part of the conversion, lines 224-252. *)
Definition convertL7 (ciliumFlow : Flow.t) (log : KnoxNetworkLog.t)
  : outcome (KnoxNetworkLog.t * bool) :=
  let l7http := Flow.L7 ciliumFlow ≫= Layer7.GetHttp in
  r ← match l7http with
      | Some _ =>
          '(method, path) ← getHTTP ciliumFlow;
          let log := KnoxNetworkLog.setHTTP log method path in
          Ret (log, negb (String.eqb method "" && String.eqb path ""))
      | None => Ret (log, true)
      end;
  let '(log, go) := r in
  if negb go then Ret (log, false) else
  match Flow.L7 ciliumFlow with
  | Some l7 =>
      match Layer7.GetDns l7 with
      | Some dns =>
          if (Layer7.Type_ l7 =? 2) && negb (Nat.eqb (length (DNS.Ips dns)) 0) then
            if strings.HasSuffix (DNS.Query dns) "svc.cluster.local." then Ret (log, false)
            else
              let query := strings.TrimSuffix (DNS.Query dns) "." in
              let ips := DNS.Ips dns in
              Ret (KnoxNetworkLog.setDNS log query
                     (fold_left append ips (Some [])), true)
          else Ret (log, true)
      | None => Ret (log, true)
      end
  | None => Ret (log, true)
  end.

Definition ConvertCiliumFlowToKnoxNetworkLog (ciliumFlow : Flow.t)
  : outcome (KnoxNetworkLog.t * bool) :=
  let log := KnoxNetworkLog.zero in
  if (Flow.Verdict ciliumFlow =? Verdict_DROPPED) && (Flow.DropReason ciliumFlow =? 181)
  then Ret (log, false)
  else
  (* set action *)
  let log := KnoxNetworkLog.setAction log
               (if Flow.Verdict ciliumFlow =? 2 then "deny" else "allow") in
  (* set EGRESS / INGRESS *)
  let log := KnoxNetworkLog.setDirection log
               (TrafficDirection_String (Flow.GetTrafficDirection ciliumFlow)) in
  (* set namespace *)
  source ← deref (Flow.Source ciliumFlow);
  let log := KnoxNetworkLog.setSrcNamespace log
               (if String.eqb (Endpoint.Namespace source) ""
                then getReservedLabelIfExist (Endpoint.Labels source)
                else Endpoint.Namespace source) in
  destination ← deref (Flow.Destination ciliumFlow);
  let log := KnoxNetworkLog.setDstNamespace log
               (if String.eqb (Endpoint.Namespace destination) ""
                then getReservedLabelIfExist (Endpoint.Labels destination)
                else Endpoint.Namespace destination) in
  (* set pod *)
  srcPod ← (if String.eqb (Endpoint.PodName source) ""
            then ip ← deref (Flow.IP ciliumFlow); Ret (IP.Source ip)
            else Ret (Endpoint.PodName source));
  let log := KnoxNetworkLog.setSrcPodName log srcPod in
  dstPod ← (if String.eqb (Endpoint.PodName destination) ""
            then ip ← deref (Flow.IP ciliumFlow); Ret (IP.Destination ip)
            else Ret (Endpoint.PodName destination));
  let log := KnoxNetworkLog.setDstPodName log dstPod in
  (* get L3 *)
  match Flow.IP ciliumFlow with
  | None => Ret (log, false)
  | Some ip =>
      let log := KnoxNetworkLog.setIPs log (IP.Source ip) (IP.Destination ip) in
      (* get L4 *)
      match Flow.L4 ciliumFlow with
      | None => Ret (log, false)
      | Some l4 =>
          let log := KnoxNetworkLog.setProtocol log (getProtocol l4) in
          let log := match GetTCP l4 with
                     | Some tcp =>
                         if KnoxNetworkLog.Protocol log =? 6
                         then KnoxNetworkLog.setSynFlag log (isSynFlagOnly tcp)
                         else log
                     | None => log
                     end in
          let '(sport, dport) := getL4Ports l4 in
          let log := KnoxNetworkLog.setPorts log sport dport in
          convertL7 ciliumFlow log
      end
  end.

End Convertor.

(** *** The flow buffer

    [CiliumFlows] is the global buffer; the mutex makes the body of
    [GetCiliumFlowsFromHubble] one step on it.  The result pairs the buffer
    the call leaves behind with what the call returns. *)

Definition GetCiliumFlowsFromHubble (trigger : Z) (CiliumFlows : list Flow.t)
  : list Flow.t * outcome (list Flow.t) :=
  let results := [] in
  if Nat.eqb (length CiliumFlows) 0 then (CiliumFlows, Ret results)
  else if Z.of_nat (length CiliumFlows) <? trigger then (CiliumFlows, Ret results)
  else
    let results := CiliumFlows in   (* copy *)
    let CiliumFlows := [] in        (* reset *)
    (CiliumFlows,
     fisrtDoc ← deref (head results);
     lastDoc ← deref (last results);
     (* id/time filter update *)
     startTime ← deref (Flow.Time fisrtDoc);
     endTime ← deref (Flow.Time lastDoc);
     Ret results).

(** [StartHubbleRelay] appends each received flow. *)
Definition ingest (flow : Flow.t) (CiliumFlows : list Flow.t) : list Flow.t :=
  CiliumFlows ++ [flow].

(** *** The policy convertor *)

(** [strconv.Itoa]. *)
Definition Itoa (n : Z) : string := pretty n.

Definition getCoreDNSEndpoint (services : list Service.t)
  : slice CiliumEndpoint.t * slice CiliumPortList.t :=
  let matchLabel : gmap string string :=
    <["k8s:io.kubernetes.pod.namespace" := "kube-system"]>
      (<["k8s-app" := "kube-dns"]> ∅) in
  let coreDNS := Some [CiliumEndpoint.mk (Some matchLabel)] in
  let ports : slice CiliumPort.t := Some [] in
  let ports :=
    if Nat.eqb (length services) 0 then (* add statically *)
      append ports (CiliumPort.mk (Itoa 53) (strings.ToUpper "UDP"))
    else (* search DNS *)
      fold_left (fun ports svc =>
                   if String.eqb (Service.Namespace svc) "kube-system"
                      && String.eqb (Service.ServiceName svc) "kube-dns"
                   then append ports
                          (CiliumPort.mk (Itoa (Service.ServicePort svc))
                                         (strings.ToUpper (Service.Protocol svc)))
                   else ports)
                services ports in
  (* matchPattern *)
  let dnsRules : slice (gmap string string) := Some [ {["matchPattern" := "*"]} ] in
  let toPorts := Some [CiliumPortList.mk ports (Some {["dns" := dnsRules]})] in
  (coreDNS, toPorts).

(** The body of [for k, v := range inPolicy.Metadata]. *)
Definition copyMeta (md : gmap string string) (kv : string * string)
  : gmap string string :=
  if String.eqb kv.1 "name" || String.eqb kv.1 "namespace"
  then <[kv.1 := kv.2]> md else md.

(** Go leaves the order in which [range] visits a map open: [order] is the
    order of this call, an enumeration of [inPolicy.Metadata]. *)
Definition buildNewCiliumNetworkPolicy (order : list (string * string))
    (inPolicy : KnoxNetworkPolicy.t) : CiliumNetworkPolicy.t :=
  CiliumNetworkPolicy.mk "cilium.io/v2" "CiliumNetworkPolicy"
    (Some (fold_left copyMeta order ∅))
    (CiliumSpec.mk
       (* update selector matchLabels *)
       (Selector.mk (Selector.MatchLabels (Spec.Selector (KnoxNetworkPolicy.Spec inPolicy))))
       None None).

(** [order] enumerates the entries of the map [md]. *)
Definition rangeOrder (md : option (gmap string string))
    (order : list (string * string)) : Prop :=
  order ≡ₚ map_to_list (default ∅ md).

Definition httpRules (https : slice SpecHTTP.t) : slice (gmap string string) :=
  fold_left (fun rules http =>
               append rules (<["method" := SpecHTTP.Method http]>
                               (<["path" := SpecHTTP.Path http]> ∅)))
            (elems https) (Some []).

Definition setRules (rules : option (gmap string (slice (gmap string string))))
    (pl : CiliumPortList.t) : CiliumPortList.t :=
  CiliumPortList.mk (CiliumPortList.Ports pl) rules.

Definition addPort (port : CiliumPort.t) (pl : CiliumPortList.t) : CiliumPortList.t :=
  CiliumPortList.mk (append (CiliumPortList.Ports pl) port) (CiliumPortList.Rules pl).

Definition toCiliumPort (toPort : SpecPort.t) : CiliumPort.t :=
  CiliumPort.mk (SpecPort.Port toPort) (strings.ToUpper (SpecPort.Protocol toPort)).

(** The allocation both label branches share: the port list with one
    entry and, when HTTP rules are declared, its ["http"] rules. *)
Definition allocWithHTTP (https : slice SpecHTTP.t) : outcome (slice CiliumPortList.t) :=
  let toPorts := append (Some []) (CiliumPortList.mk (Some []) None) in
  (* build HTTP rule *)
  if Nat.ltb 0 (len https) then
    toPorts ← update0 toPorts (setRules (Some ∅));
    update0 toPorts (setRules (Some {["http" := httpRules https]}))
  else Ret toPorts.

(** Lines 453-482: one iteration of the port loop of an egress label rule. *)
Definition egressLabelPort (knoxEgress : Egress.t) (toPorts : slice CiliumPortList.t)
    (toPort : SpecPort.t) : outcome (slice CiliumPortList.t) :=
  if String.eqb (SpecPort.Port toPort) "" then Ret toPorts (* port number is none, skip *)
  else
    toPorts ← match toPorts with
              | None => allocWithHTTP (Egress.ToHTTPs knoxEgress)
              | Some _ => Ret toPorts
              end;
    update0 toPorts (addPort (toCiliumPort toPort)).

(** Lines 495-509: one iteration of the port loop of an egress CIDR rule. *)
Definition egressCIDRPort (toPorts : slice CiliumPortList.t) (toPort : SpecPort.t)
  : outcome (slice CiliumPortList.t) :=
  if String.eqb (SpecPort.Port toPort) "" then Ret toPorts (* port number is none, skip *)
  else
    let toPorts := match toPorts with
                   | None => append (Some []) (CiliumPortList.mk (Some []) None)
                   | Some _ => toPorts
                   end in
    update0 toPorts (addPort (toCiliumPort toPort)).

(** Lines 559-569: one iteration of the port loop of an FQDN rule. *)
Definition egressFQDNPort (toPorts : slice CiliumPortList.t) (port : SpecPort.t)
  : outcome (slice CiliumPortList.t) :=
  let toPorts := match toPorts with
                 | None => append (Some []) (CiliumPortList.mk (Some []) None)
                 | Some _ => toPorts
                 end in
  update0 toPorts (addPort (toCiliumPort port)).

(** Lines 597-622: one iteration of the port loop of an ingress label rule. *)
Definition ingressLabelPort (knoxIngress : Ingress.t) (toPorts : slice CiliumPortList.t)
    (toPort : SpecPort.t) : outcome (slice CiliumPortList.t) :=
  toPorts ← match toPorts with
            | None => allocWithHTTP (Ingress.ToHTTPs knoxIngress)
            | Some _ => Ret toPorts
            end;
  update0 toPorts (addPort (toCiliumPort toPort)).

(** Lines 442-575: the body of the loop over [inPolicy.Spec.Egress];
    [egress] is [ciliumPolicy.Spec.Egress]. *)
Definition convertEgress (services : list Service.t)
    (egress : slice CiliumEgress.t) (knoxEgress : Egress.t)
  : outcome (slice CiliumEgress.t) :=
  match Egress.MatchLabels knoxEgress with
  | Some _ =>
      (* build label-based rule *)
      let toEndpoints := Some [CiliumEndpoint.mk (Egress.MatchLabels knoxEgress)] in
      (* build L4 toPorts *)
      toPorts ← foldM (egressLabelPort knoxEgress) (elems (Egress.ToPorts knoxEgress)) None;
      Ret (append egress (CiliumEgress.mk toEndpoints toPorts None None None None))
  | None =>
      if Nat.ltb 0 (len (Egress.ToCIDRs knoxEgress)) then
        (* build CIDR rule *)
        '(toCIDRs, toPorts) ←
          foldM (fun '(_, toPorts) toCIDR =>
                   let cidrs := fold_left append (elems (SpecCIDR.CIDRs toCIDR)) (Some []) in
                   (* update toPorts if exist *)
                   toPorts ← foldM egressCIDRPort (elems (Egress.ToPorts knoxEgress)) toPorts;
                   Ret (cidrs, toPorts))
                (elems (Egress.ToCIDRs knoxEgress)) (None, None);
        Ret (append egress (CiliumEgress.mk None toPorts toCIDRs None None None))
      else if Nat.ltb 0 (len (Egress.ToEndtities knoxEgress)) then
        (* build Entity rule *)
        let toEntities :=
          fold_left (fun toEntities entity =>
                       let toEntities := match toEntities with
                                         | None => Some []
                                         | Some _ => toEntities
                                         end in
                       append toEntities entity)
                    (elems (Egress.ToEndtities knoxEgress)) None in
        Ret (append egress (CiliumEgress.mk None None None toEntities None None))
      else if Nat.ltb 0 (len (Egress.ToServices knoxEgress)) then
        (* build Service rule *)
        let toServices :=
          fold_left (fun toServices service =>
                       let toServices := match toServices with
                                         | None => Some []
                                         | Some _ => toServices
                                         end in
                       append toServices
                         (CiliumService.mk
                            (CiliumK8sService.mk (SpecService.ServiceName service)
                                                 (SpecService.Namespace service))))
                    (elems (Egress.ToServices knoxEgress)) None in
        Ret (append egress (CiliumEgress.mk None None None None toServices None))
      else if Nat.ltb 0 (len (Egress.ToFQDNs knoxEgress)) then
        (* build FQDN rule *)
        '(ciliumEgress, egress) ←
          foldM (fun '(_, egress) fqdn =>
                   let '(toEndpoints, dnsPorts) := getCoreDNSEndpoint services in
                   let ciliumEgress := CiliumEgress.mk toEndpoints dnsPorts None None None None in
                   (* FQDN (+ToPorts) *)
                   let toFQDNs :=
                     fold_left (fun toFQDNs matchName =>
                                  append toFQDNs ({["matchName" := matchName]} : gmap string string))
                               (elems (SpecFQDN.MatchNames fqdn)) (Some []) in
                   toPorts ← foldM egressFQDNPort (elems (Egress.ToPorts knoxEgress)) None;
                   let egressFqdn := CiliumEgress.mk None toPorts None None None toFQDNs in
                   Ret (ciliumEgress, append egress egressFqdn))
                (elems (Egress.ToFQDNs knoxEgress)) (CiliumEgress.zero, egress);
        Ret (append egress ciliumEgress)
      else Ret (append egress CiliumEgress.zero)
  end.

(** Lines 586-644: the body of the loop over [inPolicy.Spec.Ingress]. *)
Definition convertIngress (ingress : slice CiliumIngress.t) (knoxIngress : Ingress.t)
  : outcome (slice CiliumIngress.t) :=
  '(fromEndpoints, toPorts) ←
    match Ingress.MatchLabels knoxIngress with
    | Some _ =>
        (* build label-based *)
        toPorts ← foldM (ingressLabelPort knoxIngress) (elems (Ingress.ToPorts knoxIngress)) None;
        Ret (Some [CiliumEndpoint.mk (Ingress.MatchLabels knoxIngress)], toPorts)
    | None => Ret (None, None)
    end;
  (* build CIDR rule *)
  let fromCIDRs :=
    fold_left (fun fromCIDRs fromCIDR =>
                 fold_left append (elems (SpecCIDR.CIDRs fromCIDR)) fromCIDRs)
              (elems (Ingress.FromCIDRs knoxIngress)) None in
  (* build Entity rule *)
  let fromEntities :=
    fold_left (fun fromEntities entity =>
                 let fromEntities := match fromEntities with
                                     | None => Some []
                                     | Some _ => fromEntities
                                     end in
                 append fromEntities entity)
              (elems (Ingress.FromEntities knoxIngress)) None in
  Ret (append ingress (CiliumIngress.mk fromEndpoints toPorts fromCIDRs fromEntities)).

Definition ConvertKnoxNetworkPolicyToCiliumPolicy (order : list (string * string))
    (services : list Service.t) (inPolicy : KnoxNetworkPolicy.t)
  : outcome CiliumNetworkPolicy.t :=
  let ciliumPolicy := buildNewCiliumNetworkPolicy order inPolicy in
  let spec := KnoxNetworkPolicy.Spec inPolicy in
  (* Egress *)
  egress ← (if Nat.ltb 0 (len (Spec.Egress spec))
            then foldM (convertEgress services) (elems (Spec.Egress spec)) (Some [])
            else Ret None);
  (* Ingress *)
  ingress ← (if Nat.ltb 0 (len (Spec.Ingress spec))
             then foldM convertIngress (elems (Spec.Ingress spec)) (Some [])
             else Ret None);
  Ret (CiliumNetworkPolicy.mk
         (CiliumNetworkPolicy.APIVersion ciliumPolicy)
         (CiliumNetworkPolicy.Kind ciliumPolicy)
         (CiliumNetworkPolicy.Metadata ciliumPolicy)
         (CiliumSpec.mk
            (CiliumSpec.Selector (CiliumNetworkPolicy.Spec ciliumPolicy))
            egress ingress)).

(** [ConvertKnoxPoliciesToCiliumPolicies], lines 652-661; [orders i] is the
    order in which the call for the i-th policy visits its metadata. *)
Fixpoint convertFrom (orders : nat -> list (string * string)) (services : list Service.t)
    (i : nat) (policies : list KnoxNetworkPolicy.t)
    (ciliumPolicies : list CiliumNetworkPolicy.t) : outcome (list CiliumNetworkPolicy.t) :=
  match policies with
  | [] => Ret ciliumPolicies
  | policy :: rest =>
      ciliumPolicy ← ConvertKnoxNetworkPolicyToCiliumPolicy (orders i) services policy;
      convertFrom orders services (S i) rest (ciliumPolicies ++ [ciliumPolicy])
  end.

Definition ConvertKnoxPoliciesToCiliumPolicies (orders : nat -> list (string * string))
    (services : list Service.t) (policies : list KnoxNetworkPolicy.t)
  : outcome (list CiliumNetworkPolicy.t) :=
  convertFrom orders services 0 policies [].

(** *** The enumeration tables, lines 26-83

    [TrafficDirectionTable], [TraceObservationPointTable] and [VerdictTable]
    list the entries of the maps [TrafficDirection], [TraceObservationPoint]
    and [Verdict]. *)









End plugin.

(** ** [src/libs]: what the deduplicator calls

    The package is outside the sources at hand.  [World] is what its calls
    act on: the source of randomness behind [RandSeq] and the record of the
    policies that [UpdateOutdatedLabel] has marked. *)

Module libs.

Record World := mkWorld {
  rand : nat -> string;             (* the result of the n-th call of RandSeq *)
  next : nat;                       (* the number of calls of RandSeq so far *)
  outdated : list (string * string) (* (outdated policy, latest policy), oldest first *)
}.

(** A call that acts on the world, and may panic or run out of fuel. *)
Definition M (A : Type) : Type := World -> outcome (A * World).

Definition ret {A} (a : A) : M A := fun w => Ret (a, w).

Definition bind {A B} (m : M A) (k : A -> M B) : M B :=
  fun w => match m w with
           | Ret (a, w') => k a w'
           | Panic => Panic
           | OutOfFuel => OutOfFuel
           end.

Definition lift {A} (o : outcome A) : M A :=
  fun w => match o with
           | Ret a => Ret (a, w)
           | Panic => Panic
           | OutOfFuel => OutOfFuel
           end.

(** Modelled from the spec: [libs.ContainsElement], membership "by value
    equality" of an element in a slice. *)
Definition ContainsElement {A} `{EqDecision A} (s : list A) (x : A) : bool :=
  bool_decide (x ∈ s).

(** Modelled from the spec: [libs.RandSeq], "a random suffix"; the
    requested length does not constrain the source of randomness. *)
Definition RandSeq (n : nat) : M string :=
  fun w => Ret (rand w (next w), mkWorld (rand w) (S (next w)) (outdated w)).

(** Modelled from the spec: [libs.UpdateOutdatedLabel] marks the policy
    named [outdatedPolicy] outdated, with a back-reference to the policy
    named [latestPolicy] that supersedes it. *)
Definition UpdateOutdatedLabel (outdatedPolicy latestPolicy : string) : M unit :=
  fun w => Ret (tt, mkWorld (rand w) (next w) (outdated w ++ [(outdatedPolicy, latestPolicy)])).

End libs.

Notation "'do' x <- c ; k" := (libs.bind c (fun x => k))
  (at level 10, x name, c at level 100, k at level 200).
Notation "'do' ' pat <- c ; k" := (libs.bind c (fun x => match x with pat => k end))
  (at level 10, pat pattern, c at level 100, k at level 200).
Notation "'exec' c ; k" := (libs.bind c (fun _ => k))
  (at level 10, c at level 100, k at level 200).

(** A loop over a slice whose body acts on the world. *)
Fixpoint forM {A B} (f : B -> A -> libs.M B) (l : list A) (b : B) : libs.M B :=
  match l with
  | [] => libs.ret b
  | x :: l' => do b' <- f b x; forM f l' b'
  end.

(** ** [src/core/deduplicator.go] *)

Module core.

Import KnoxNetworkPolicy.

(** The CIDR list check of [GetLatestCIDRs], lines 25-32: both loops
    range over the same list. *)
Definition selfIncluded (names : list string) : bool :=
  fold_left (fun included cidr =>
               fold_left (fun included existCidr =>
                            if negb (String.eqb cidr existCidr) then false else included)
                         names included)
            names true.

Fixpoint GetLatestCIDRs (existingPolicies : list t) (policy : t) : outcome (t * bool) :=
  match existingPolicies with
  | [] => Ret (zero, false)
  | exist_ :: rest =>
      let existStatus := meta exist_ "status" in
      let existPolicyType := meta exist_ "type" in
      let existRule := meta exist_ "rule" in
      if bool_decide (Spec.Selector (Spec exist_) = Spec.Selector (Spec policy))
         && String.eqb existPolicyType (meta policy "type")
         && strings.Contains existRule "toCIDRs"
         && String.eqb existStatus "latest"
      then
        (* check cidr list *)
        egress0 ← index0 (Spec.Egress (Spec policy));
        toCIDRs0 ← index0 (Egress.ToCIDRs egress0);
        if selfIncluded (elems (SpecCIDR.CIDRs toCIDRs0)) then Ret (exist_, true)
        else GetLatestCIDRs rest policy
      else GetLatestCIDRs rest policy
  end.

Fixpoint GetLastedFQDNs (existingPolicies : list t) (policy : t) : outcome (t * bool) :=
  match existingPolicies with
  | [] => Ret (zero, false)
  | exist_ :: rest =>
      let existStatus := meta exist_ "status" in
      let existPolicyType := meta exist_ "type" in
      let existRule := meta exist_ "rule" in
      if bool_decide (Spec.Selector (Spec exist_) = Spec.Selector (Spec policy))
         && String.eqb existPolicyType (meta policy "type")
         && strings.Contains existRule "toFQDNs"
         && String.eqb existStatus "latest"
      then
        egress0 ← index0 (Spec.Egress (Spec policy));
        toFQDNs0 ← index0 (Egress.ToFQDNs egress0);
        if selfIncluded (elems (SpecFQDN.MatchNames toFQDNs0)) then Ret (exist_, true)
        else GetLastedFQDNs rest policy
      else GetLastedFQDNs rest policy
  end.

(** Lines 89-94: the ports of [latest] that [toPorts] lacks are appended. *)
Definition mergePorts (toPorts latest : slice SpecPort.t) : slice SpecPort.t :=
  fold_left (fun toPorts toPort =>
               if negb (libs.ContainsElement (elems toPorts) toPort)
               then append toPorts toPort else toPorts)
            (elems latest) toPorts.

(** [policy.Spec.Egress[0].ToPorts = toPorts]. *)
Definition setEgress0ToPorts (policy : t) (toPorts : slice SpecPort.t) : outcome t :=
  egress ← update0 (Spec.Egress (Spec policy)) (fun e => Egress.setToPorts e toPorts);
  Ret (mk (Metadata policy)
          (Spec.mk (Spec.Selector (Spec policy)) egress (Spec.Ingress (Spec policy)))).

(** [UpdateCIDR] and [UpdateFQDN] differ in the lookup only. *)
Definition updateWith (lookup : list t -> t -> outcome (t * bool))
    (policy : t) (existingPolicies : list t) : libs.M (t * bool) :=
  if String.eqb (meta policy "type") "egress" then (* egress *)
    (* case 1: policy is new one *)
    do '(latest, found) <- libs.lift (lookup existingPolicies policy);
    if negb found then libs.ret (policy, true)
    else
      do policyEgress0 <- libs.lift (index0 (Spec.Egress (Spec policy)));
      do latestEgress0 <- libs.lift (index0 (Spec.Egress (Spec latest)));
      (* case 2: policy has no toPorts, latest has toPorts *)
      if Nat.eqb (len (Egress.ToPorts policyEgress0)) 0
         && Nat.ltb 0 (len (Egress.ToPorts latestEgress0))
      then libs.ret (policy, false)
      else
        (* case 3: policy has toPorts, latest has toPorts or no toPorts *)
        let toPorts := mergePorts (Egress.ToPorts policyEgress0)
                                  (Egress.ToPorts latestEgress0) in
        (* annotate the outdated policy *)
        exec libs.UpdateOutdatedLabel (meta latest "name") (meta policy "name");
        do policy <- libs.lift (setEgress0ToPorts policy toPorts);
        libs.ret (policy, true)
  else
    (* if ingress, don't need to care about *)
    libs.ret (policy, true).

Definition UpdateCIDR := updateWith GetLatestCIDRs.

Definition UpdateFQDN := updateWith GetLastedFQDNs.

Definition IsExistedPolicy (existingPolicies : list t) (inPolicy : t) : bool :=
  existsb (fun policy => bool_decide (Spec policy = Spec inPolicy)) existingPolicies.

(** Lines 182-188: the loop, [fuel] bounding the number of its rounds. *)
Fixpoint freshName (fuel : nat) (existNames : list string) (name : string) : libs.M string :=
  if libs.ContainsElement existNames name then
    match fuel with
    | O => fun _ => OutOfFuel
    | S fuel' =>
        do suffix <- libs.RandSeq 10;
        freshName fuel' existNames
          (if strings.HasPrefix name "autopol-egress"
           then String.append "autopol-egress" suffix
           else String.append "autopol-ingress" suffix)
    end
  else libs.ret name.

(** [policy.Metadata["name"] = name]; a write to a nil map panics. *)
Definition setName (policy : t) (name : string) : outcome t :=
  md ← deref (Metadata policy);
  Ret (mk (Some (<["name" := name]> md)) (Spec policy)).

Definition ReplaceDuplcatedName (fuel : nat) (existingPolicies : list t) (policy : t)
  : libs.M t :=
  let existNames := map (fun exist_ => meta exist_ "name") existingPolicies in
  let name := meta policy "name" in
  do name <- freshName fuel existNames name;
  libs.lift (setName policy name).

Definition getToFQDNsFromNewDiscoveredPolicies (policy : t) (newPolicies : list t) : list t :=
  fold_left
    (fun toFQDNs newPolicy =>
       if bool_decide (Spec.Selector (Spec policy) = Spec.Selector (Spec newPolicy)) then
         fold_left (fun toFQDNs egress =>
                      if Nat.ltb 0 (len (Egress.ToFQDNs egress))
                         && negb (libs.ContainsElement toFQDNs newPolicy)
                      then toFQDNs ++ [newPolicy] else toFQDNs)
                   (elems (Spec.Egress (Spec newPolicy))) toFQDNs
       else toFQDNs)
    newPolicies [].

(** [dnsToIPs] lists the entries of the Go map in the order in which the
    [range] of this call visits them. *)
Fixpoint getDomainNameFromMap (inIP : string) (dnsToIPs : list (string * list string))
  : string :=
  match dnsToIPs with
  | [] => ""
  | (domain, ips) :: rest =>
      if existsb (String.eqb inIP) ips then domain
      else getDomainNameFromMap inIP rest
  end.

Definition fqdnHasName (domainName : string) (policy : t) : bool :=
  existsb (fun egress =>
             existsb (fun fqdn =>
                        libs.ContainsElement (elems (SpecFQDN.MatchNames fqdn)) domainName)
                     (elems (Egress.ToFQDNs egress)))
          (elems (Spec.Egress (Spec policy))).

Fixpoint existDomainNameInFQDN (domainName : string) (fqdnPolicies : list t) : t * bool :=
  match fqdnPolicies with
  | [] => (zero, false)
  | policy :: rest =>
      if fqdnHasName domainName policy then (policy, true)
      else existDomainNameInFQDN domainName rest
  end.

(** Lines 275-279: every entry that bears the name of [fqdnPolicy] is
    overwritten with it. *)
Definition replaceByName (fqdnPolicy : t) (newPolicies : list t) : list t :=
  map (fun exist_ =>
         if String.eqb (meta fqdnPolicy "name") (meta exist_ "name")
         then fqdnPolicy else exist_)
      newPolicies.

(** Lines 251-284: the body of the loop over the CIDRs of one [toCidr]. *)
Definition promoteCIDR (existCIDR : t) (existEgress0 : Egress.t) (toFQDNs : list t)
    (dnsToIPs : list (string * list string)) (newPolicies : list t) (cidr : string)
  : libs.M (list t) :=
  let ip := strings.SplitHead cidr "/" in
  (* get domain name from the map *)
  let domainName := getDomainNameFromMap ip dnsToIPs in
  (* check domain name in fqdn *)
  let '(fqdnPolicy, matched) := existDomainNameInFQDN domainName toFQDNs in
  if matched then
    do '(fqdnPolicy, newPolicies) <-
      (if Nat.ltb 0 (len (Egress.ToPorts existEgress0)) then
         (* if cidr has toPorts also, check duplication as well *)
         let cidrToPorts := Egress.ToPorts existEgress0 in
         do fqdnEgress0 <- libs.lift (index0 (Spec.Egress (Spec fqdnPolicy)));
         let fqdnToPorts := match Egress.ToPorts fqdnEgress0 with
                            | None => Some []
                            | Some l => Some l
                            end in
         (* move cidr's toPorts -> fqdn's toPorts *)
         let fqdnToPorts := mergePorts fqdnToPorts cidrToPorts in
         (* updated fqdn -> newPolicies *)
         do fqdnPolicy <- libs.lift (setEgress0ToPorts fqdnPolicy fqdnToPorts);
         libs.ret (fqdnPolicy, replaceByName fqdnPolicy newPolicies)
       else libs.ret (fqdnPolicy, newPolicies));
    exec libs.UpdateOutdatedLabel (meta existCIDR "name") (meta fqdnPolicy "name");
    libs.ret newPolicies
  else libs.ret newPolicies.

(** Distinct policies of the arguments are taken not to share maps or
    backing arrays; [newPolicies] is returned as the call leaves it. *)
Definition updateExistCIDRtoNewFQDN (existingPolicies newPolicies : list t)
    (dnsToIPs : list (string * list string)) : libs.M (list t) :=
  forM (fun newPolicies existCIDR =>
          let policyType := meta existCIDR "type" in
          let rule := meta existCIDR "rule" in
          if String.eqb policyType "egress" && strings.Contains rule "toCIDRs" then
            do existEgress0 <- libs.lift (index0 (Spec.Egress (Spec existCIDR)));
            forM (fun newPolicies toCidr =>
                    (* get fqdns from same selector *)
                    let toFQDNs := getToFQDNsFromNewDiscoveredPolicies existCIDR newPolicies in
                    forM (promoteCIDR existCIDR existEgress0 toFQDNs dnsToIPs)
                         (elems (SpecCIDR.CIDRs toCidr)) newPolicies)
                 (elems (Egress.ToCIDRs existEgress0)) newPolicies
          else libs.ret newPolicies)
       existingPolicies newPolicies.

(** Lines 294-322: the body of the loop over the discovered policies. *)
Definition reconcileOne (fuel : nat) (existingPolicies : list t)
    (newPolicies : list t) (policy : t) : libs.M (list t) :=
  (* step 1: compare the total network policy spec *)
  if IsExistedPolicy existingPolicies policy then libs.ret newPolicies
  else
    (* step 2: compare the inside CIDR rules *)
    do '(policy, valid) <-
      (if strings.Contains (meta policy "rule") "toCIDRs"
       then UpdateCIDR policy existingPolicies
       else libs.ret (policy, true));
    if negb valid then libs.ret newPolicies
    else
      (* step 3: compare the inside FQDN rules *)
      do '(policy, valid) <-
        (if strings.Contains (meta policy "rule") "toFQDNs"
         then UpdateFQDN policy existingPolicies
         else libs.ret (policy, true));
      if negb valid then libs.ret newPolicies
      else
        (* step 3: check policy name confict *)
        do namedPolicy <- ReplaceDuplcatedName fuel existingPolicies policy;
        libs.ret (newPolicies ++ [namedPolicy]).

Definition DeduplicatePolicies (fuel : nat) (existingPolicies discoveredPolicies : list t)
    (dnsToIPs : list (string * list string)) : libs.M (list t) :=
  do newPolicies <- forM (reconcileOne fuel existingPolicies) discoveredPolicies [];
  (* step 4: check existed cidr -> new fqdn *)
  updateExistCIDRtoNewFQDN existingPolicies newPolicies dnsToIPs.

(** [GetSpecs], lines 141-156: both branches of the test on the type append
    the policy. *)
Definition GetSpecs (existingPolicies : list t) (policy : t) : list t :=
  fold_left (fun policies exist_ =>
               (* check selector *)
               if bool_decide (Spec.Selector (Spec exist_) = Spec.Selector (Spec policy)) then
                 if String.eqb (meta exist_ "type") "egress"
                 then policies ++ [exist_]   (* egress *)
                 else policies ++ [exist_]   (* ingress *)
               else policies)
            existingPolicies [].

End core.

(** ** Predicates of the statements *)

(** The metadata keys that reach the platform policy. *)
Definition propagated (k : string) : bool :=
  String.eqb k "name" || String.eqb k "namespace".

(** A port list, once allocated, has its first entry. *)
Definition allocated (toPorts : slice CiliumPortList.t) : Prop :=
  match toPorts with
  | Some [] => False
  | _ => True
  end.

(** The names of a list of policies. *)
Definition names (policies : list KnoxNetworkPolicy.t) : list string :=
  map (fun p => KnoxNetworkPolicy.meta p "name") policies.

(** No policy of a list bears the name of an existing policy. *)
Definition freshAgainst (existingPolicies policies : list KnoxNetworkPolicy.t) : Prop :=
  Forall (fun p => KnoxNetworkPolicy.meta p "name" ∉ names existingPolicies) policies.

(** The prefix that a round of the renaming loop gives to the next name. *)
Definition prefixOf (name : string) : string :=
  if strings.HasPrefix name "autopol-egress" then "autopol-egress" else "autopol-ingress".

(** A log with its L7 fields cleared. *)
Definition eraseL7 (log : KnoxNetworkLog.t) : KnoxNetworkLog.t :=
  KnoxNetworkLog.setDNS (KnoxNetworkLog.setHTTP log "" "") "" None.

(** The log that lines 168-219 build from the identities, the IP record and
    the L4 record of a flow. *)
Definition l34Log (ciliumFlow : Flow.t) (source destination : Endpoint.t)
    (ip : IP.t) (l4 : Layer4) : KnoxNetworkLog.t :=
  KnoxNetworkLog.mk 0 ""
    (if String.eqb (Endpoint.Namespace source) ""
     then plugin.getReservedLabelIfExist (Endpoint.Labels source)
     else Endpoint.Namespace source)
    (if String.eqb (Endpoint.PodName source) ""
     then IP.Source ip else Endpoint.PodName source)
    (if String.eqb (Endpoint.Namespace destination) ""
     then plugin.getReservedLabelIfExist (Endpoint.Labels destination)
     else Endpoint.Namespace destination)
    (if String.eqb (Endpoint.PodName destination) ""
     then IP.Destination ip else Endpoint.PodName destination)
    (plugin.getProtocol l4) (IP.Source ip) (IP.Destination ip)
    (plugin.getL4Ports l4).1 (plugin.getL4Ports l4).2
    (match GetTCP l4 with Some tcp => plugin.isSynFlagOnly tcp | None => false end)
    "" "" "" None
    (TrafficDirection_String (Flow.GetTrafficDirection ciliumFlow))
    (if Flow.Verdict ciliumFlow =? 2 then "deny" else "allow").

(** The flow is one that line 164 refuses. *)
Definition deniedByPolicy (ciliumFlow : Flow.t) : bool :=
  (Flow.Verdict ciliumFlow =? Verdict_DROPPED) && (Flow.DropReason ciliumFlow =? 181).

(** A port entry with a port number. *)
Definition hasPortNumber (toPort : SpecPort.t) : bool :=
  negb (String.eqb (SpecPort.Port toPort) "").

(** The platform port list for the port entries [toPorts]: nil when there
    are none, one entry with all of them and the rules [rules] otherwise. *)
Definition portList (rules : option (gmap string (slice (gmap string string))))
    (toPorts : list SpecPort.t) : slice CiliumPortList.t :=
  match toPorts with
  | [] => None
  | _ => Some [CiliumPortList.mk (Some (map plugin.toCiliumPort toPorts)) rules]
  end.

(** The rules of a label rule: the HTTP rules under ["http"] when some are
    declared, nil otherwise. *)
Definition httpRulesOf (https : slice SpecHTTP.t)
  : option (gmap string (slice (gmap string string))) :=
  if Nat.ltb 0 (len https)
  then Some {["http" := Some (map (fun http =>
                                     <["method" := SpecHTTP.Method http]>
                                       (<["path" := SpecHTTP.Path http]> ∅))
                                  (elems https))]}
  else None.


(** The number of platform egress entries that a canonical egress rule
    gives: one, and for a rule of the FQDN shape one more per FQDN entry. *)
Definition egressEntries (knoxEgress : Egress.t) : nat :=
  match Egress.MatchLabels knoxEgress with
  | Some _ => 1
  | None =>
      if Nat.ltb 0 (len (Egress.ToCIDRs knoxEgress)) then 1
      else if Nat.ltb 0 (len (Egress.ToEndtities knoxEgress)) then 1
      else if Nat.ltb 0 (len (Egress.ToServices knoxEgress)) then 1
      else S (len (Egress.ToFQDNs knoxEgress))
  end.



(** ** Inputs used in the examples *)

Module Samples.

(** An endpoint of pod [name] in namespace [default]. *)
Definition pod (name : string) : Endpoint.t := Endpoint.mk "default" [] name.

(** A forwarded TCP flow with every sub-record present. *)
Definition tcpFlow : Flow.t :=
  Flow.mk (Some 1600000000) 1 0 EGRESS (Some (pod "a")) (Some (pod ""))
          (Some (IP.mk "10.0.0.4" "10.0.0.5"))
          (Some (L4TCP (TCP.mk 40000 443 (Some (TCPFlags.mk true false)))))
          None.

(** A flow dropped by a deny policy. *)
Definition deniedFlow : Flow.t :=
  Flow.mk (Some 1600000000) Verdict_DROPPED 181 EGRESS (Some (pod "a")) (Some (pod "b"))
          (Some (IP.mk "10.0.0.4" "10.0.0.5")) None None.

(** A forwarded flow without a source identity. *)
Definition noSourceFlow : Flow.t :=
  Flow.mk (Some 1600000000) 1 0 EGRESS None (Some (pod "b"))
          (Some (IP.mk "10.0.0.4" "10.0.0.5")) None None.

(** A forwarded flow of unnamed pods without an IP record. *)
Definition noIPFlow : Flow.t :=
  Flow.mk (Some 1600000000) 1 0 EGRESS (Some (pod "")) (Some (pod "")) None None None.

(** A flow without a timestamp. *)
Definition noTimeFlow : Flow.t :=
  Flow.mk None 1 0 EGRESS (Some (pod "a")) (Some (pod "b"))
          (Some (IP.mk "10.0.0.4" "10.0.0.5")) None None.

(** A URL parser that accepts every URL and takes it as the path. *)
Definition pathOnly (url : string) : option string := Some url.

Definition selector (app : string) : Selector.t :=
  Selector.mk (Some {["app" := app]}).

Definition tcp80 : SpecPort.t := SpecPort.mk "80" "TCP".
Definition tcp443 : SpecPort.t := SpecPort.mk "443" "TCP".

(** An egress CIDR policy of the workload [app = a]. *)
Definition cidrPolicy (name status : string) (cidrs : list string)
    (ports : slice SpecPort.t) : KnoxNetworkPolicy.t :=
  KnoxNetworkPolicy.mk
    (Some (<["name" := name]> (<["namespace" := "default"]> (<["type" := "egress"]>
          (<["rule" := "toCIDRs"]> (<["status" := status]> ∅))))))
    (Spec.mk (selector "a")
       (Some [Egress.mk None ports (Some [SpecCIDR.mk (Some cidrs)]) None None None None])
       None).

(** A label policy with one ingress and one egress rule, each with one port
    entry that has no port number. *)
Definition emptyPortPolicy : KnoxNetworkPolicy.t :=
  KnoxNetworkPolicy.mk
    (Some (<["name" := "autopol-ingress-y"]> (<["namespace" := "default"]> ∅)))
    (Spec.mk (selector "a")
       (Some [Egress.mk (Some {["app" := "b"]}) (Some [SpecPort.mk "" "tcp"])
                        None None None None None])
       (Some [Ingress.mk (Some {["app" := "b"]}) (Some [SpecPort.mk "" "tcp"])
                         None None None])).

(** The same policy with lifecycle metadata added. *)
Definition emptyPortPolicyTagged : KnoxNetworkPolicy.t :=
  KnoxNetworkPolicy.mk
    (Some (<["status" := "latest"]> (<["rule" := "matchLabels"]>
          (<["name" := "autopol-ingress-y"]> (<["namespace" := "default"]> ∅)))))
    (KnoxNetworkPolicy.Spec emptyPortPolicy).

(** A source of randomness: the n-th suffix is the decimal form of n. *)
Definition world0 : libs.World := libs.mkWorld (fun n => pretty n) 0 [].

(** The names of the policies a reconciliation returns. *)
Definition namesOf (r : outcome (list KnoxNetworkPolicy.t * libs.World))
  : option (list string) :=
  match r with
  | Ret (l, _) => Some (map (fun p => KnoxNetworkPolicy.meta p "name") l)
  | _ => None
  end.

(** The port lists of the first egress rule of each returned policy. *)
Definition portsOf (r : outcome (list KnoxNetworkPolicy.t * libs.World))
  : option (list (list SpecPort.t)) :=
  match r with
  | Ret (l, _) =>
      Some (map (fun p => elems (default None (Egress.ToPorts <$>
                    head (elems (Spec.Egress (KnoxNetworkPolicy.Spec p)))))) l)
  | _ => None
  end.

(** The policies marked outdated by a reconciliation. *)
Definition outdatedOf (r : outcome (list KnoxNetworkPolicy.t * libs.World))
  : option (list (string * string)) :=
  match r with
  | Ret (_, w) => Some (libs.outdated w)
  | _ => None
  end.

(** [tcpFlow] with an L7 record. *)
Definition withL7 (l7 : Layer7.t) : Flow.t :=
  Flow.mk (Flow.Time tcpFlow) (Flow.Verdict tcpFlow) (Flow.DropReason tcpFlow)
          (Flow.GetTrafficDirection tcpFlow) (Flow.Source tcpFlow) (Flow.Destination tcpFlow)
          (Flow.IP tcpFlow) (Flow.L4 tcpFlow) (Some l7).

(** An HTTP request and an HTTP response. *)
Definition httpRequest : Layer7.t := Layer7.mk 1 (L7Http (HTTP.mk "GET" "//api/v1")).
Definition httpResponse : Layer7.t := Layer7.mk 2 (L7Http (HTTP.mk "GET" "/api/v1")).

(** A DNS response for an external and for a cluster-internal name. *)
Definition dnsExternal : Layer7.t :=
  Layer7.mk 2 (L7Dns (DNS.mk "example.com." ["93.184.216.34"])).
Definition dnsInternal : Layer7.t :=
  Layer7.mk 2 (L7Dns (DNS.mk "web.default.svc.cluster.local." ["10.96.0.12"])).

(** A source identity without namespace and pod name, as of the host. *)
Definition hostEndpoint : Endpoint.t := Endpoint.mk "" ["k8s:x"; "reserved:host"] "".

(** [tcpFlow] sent by the host. *)
Definition hostFlow : Flow.t :=
  Flow.mk (Flow.Time tcpFlow) 2 0 INGRESS (Some hostEndpoint) (Flow.Destination tcpFlow)
          (Flow.IP tcpFlow) (Flow.L4 tcpFlow) None.

(** A URL parser that rejects every URL. *)
Definition rejectAll (url : string) : option string := None.

(** The logs of [tcpFlow], of [hostFlow] and of the flows with an HTTP
    request and with a DNS response for an external name. *)
Definition logOf (r : outcome (KnoxNetworkLog.t * bool)) : KnoxNetworkLog.t :=
  match r with
  | Ret (log, _) => log
  | _ => KnoxNetworkLog.zero
  end.
Definition tcpLog : KnoxNetworkLog.t :=
  Eval vm_compute in logOf (plugin.ConvertCiliumFlowToKnoxNetworkLog pathOnly tcpFlow).
Definition hostLog : KnoxNetworkLog.t :=
  Eval vm_compute in logOf (plugin.ConvertCiliumFlowToKnoxNetworkLog pathOnly hostFlow).
Definition httpLog : KnoxNetworkLog.t :=
  Eval vm_compute in
    logOf (plugin.ConvertCiliumFlowToKnoxNetworkLog pathOnly (withL7 httpRequest)).
Definition dnsLog : KnoxNetworkLog.t :=
  Eval vm_compute in
    logOf (plugin.ConvertCiliumFlowToKnoxNetworkLog pathOnly (withL7 dnsExternal)).

(** Egress rules of the label, the CIDR and the FQDN shape. *)
Definition labelEgress : Egress.t :=
  Egress.mk (Some {["app" := "b"]})
            (Some [SpecPort.mk "80" "tcp"; SpecPort.mk "" "udp"; SpecPort.mk "443" "tcp"])
            (Some [SpecCIDR.mk (Some ["10.0.0.0/8"])]) None None None
            (Some [SpecHTTP.mk "GET" "/"]).
Definition cidrEgress : Egress.t :=
  Egress.mk None (Some [SpecPort.mk "53" "udp"])
            (Some [SpecCIDR.mk (Some ["10.0.0.0/8"]); SpecCIDR.mk (Some ["192.168.0.0/16"])])
            None None None None.

(** A service catalog with the DNS resolver, and one without. *)
Definition withKubeDNS : list Service.t :=
  [Service.mk "default" "web" 80 "tcp"; Service.mk "kube-system" "kube-dns" 53 "udp"].
Definition withoutKubeDNS : list Service.t :=
  [Service.mk "default" "web" 80 "tcp"].

(** The outcome of [UpdateCIDR] on the merge example of the properties. *)
Definition mergedPolicy : KnoxNetworkPolicy.t :=
  cidrPolicy "autopol-egress-new" "latest" ["10.0.0.5/32"] (Some [tcp443; tcp80]).
Definition markedWorld : libs.World :=
  libs.mkWorld (libs.rand world0) 0 [("autopol-egress-old", "autopol-egress-new")].

(** A policy whose name collides, and what [ReplaceDuplcatedName] makes of
    it in [world0]. *)
Definition collidingPolicy : KnoxNetworkPolicy.t :=
  cidrPolicy "autopol-egress-x" "latest" ["10.0.0.9/32"] None.
Definition renamedPolicy : KnoxNetworkPolicy.t :=
  cidrPolicy "autopol-egress0" "latest" ["10.0.0.9/32"] None.
Definition renamedWorld : libs.World := libs.mkWorld (libs.rand world0) 1 [].

(** A policy tagged as an egress CIDR policy that has no egress rule. *)
Definition noEgressPolicy : KnoxNetworkPolicy.t :=
  KnoxNetworkPolicy.mk
    (Some (<["name" := "autopol-egress-z"]> (<["type" := "egress"]>
          (<["rule" := "toCIDRs"]> (<["status" := "latest"]> ∅)))))
    (Spec.mk (selector "a") None None).

(** A map from domain names to addresses, in the order of one iteration. *)
Definition dnsMap : list (string * list string) :=
  [("example.com", ["93.184.216.34"; "93.184.216.35"]); ("example.org", ["93.184.216.34"])].

End Samples.

(** * Properties *)

(** ** The flow convertor *)

Section ConvertorProperties.

Variable url_Parse : string -> option string.

(** C7. A flow whose verdict is DROPPED and whose drop reason is 181 (denied
    by a deny policy) is refused: the convertor returns [ok = false], and
    the log it returns with it is the zero value. *)
Theorem C7_denied_flow_refused (ciliumFlow : Flow.t) :
  Flow.Verdict ciliumFlow = Verdict_DROPPED ->
  Flow.DropReason ciliumFlow = 181 ->
  plugin.ConvertCiliumFlowToKnoxNetworkLog url_Parse ciliumFlow
  = Ret (KnoxNetworkLog.zero, false).
Proof.
  intros Hv Hd. unfold plugin.ConvertCiliumFlowToKnoxNetworkLog.
  rewrite Hv, Hd. reflexivity.
Qed.

(** A flow without a source identity makes the convertor panic, whatever
    the other fields, unless it is a denied flow. *)
Lemma Convert_nil_source (ciliumFlow : Flow.t) :
  Flow.Source ciliumFlow = None ->
  (Flow.Verdict ciliumFlow =? Verdict_DROPPED) && (Flow.DropReason ciliumFlow =? 181) = false ->
  plugin.ConvertCiliumFlowToKnoxNetworkLog url_Parse ciliumFlow = Panic.
Proof.
  intros Hs Hd. unfold plugin.ConvertCiliumFlowToKnoxNetworkLog.
  rewrite Hd, Hs. reflexivity.
Qed.

(** When both identities are present and name their pods, the presence of
    the IP record is tested before it is read: the flow is refused. *)
Lemma Convert_nil_IP_named_pods (ciliumFlow : Flow.t) (source destination : Endpoint.t) :
  Flow.Source ciliumFlow = Some source ->
  Flow.Destination ciliumFlow = Some destination ->
  Endpoint.PodName source <> "" ->
  Endpoint.PodName destination <> "" ->
  Flow.IP ciliumFlow = None ->
  (Flow.Verdict ciliumFlow =? Verdict_DROPPED) && (Flow.DropReason ciliumFlow =? 181) = false ->
  exists log, plugin.ConvertCiliumFlowToKnoxNetworkLog url_Parse ciliumFlow = Ret (log, false).
Proof.
  intros Hs Hd Hps Hpd Hip Hden. unfold plugin.ConvertCiliumFlowToKnoxNetworkLog.
  rewrite Hden, Hs, Hd, Hip. cbn.
  apply String.eqb_neq in Hps, Hpd. rewrite Hps, Hpd. cbn. eauto.
Qed.

End ConvertorProperties.

(** C10. The convertor reads [Source.Namespace] without testing [Source]:
    on a forwarded flow that has no source identity it panics instead of
    returning a [(log, ok)] pair.  The same happens on a flow of unnamed pods
    that has no IP record: [IP.Source] is read at line 193, before the test
    of line 205. *)
Theorem C10_absent_record_panics :
  plugin.ConvertCiliumFlowToKnoxNetworkLog Samples.pathOnly Samples.noSourceFlow = Panic
  /\ plugin.ConvertCiliumFlowToKnoxNetworkLog Samples.pathOnly Samples.noIPFlow = Panic.
Proof. split; reflexivity. Qed.

Lemma C7_denied_flow_refused_witness :
  plugin.ConvertCiliumFlowToKnoxNetworkLog Samples.pathOnly Samples.deniedFlow
  = Ret (KnoxNetworkLog.zero, false).
Proof.
  apply (C7_denied_flow_refused Samples.pathOnly Samples.deniedFlow); reflexivity.
Defined.

(** The end-to-end example of the specification, on the flow side. *)
Example Convert_tcpFlow :
  exists log,
    plugin.ConvertCiliumFlowToKnoxNetworkLog Samples.pathOnly Samples.tcpFlow = Ret (log, true)
    /\ KnoxNetworkLog.Action log = "allow"
    /\ KnoxNetworkLog.Direction log = "EGRESS"
    /\ KnoxNetworkLog.DstIP log = "10.0.0.5"
    /\ KnoxNetworkLog.DstPodName log = "10.0.0.5"
    /\ KnoxNetworkLog.DstPort log = 443
    /\ KnoxNetworkLog.Protocol log = 6
    /\ KnoxNetworkLog.SynFlag log = true.
Proof. eexists. repeat split. Qed.

(** ** The flow buffer *)

(** Below the threshold, and on an empty buffer, nothing is consumed. *)
Lemma drain_below_threshold (trigger : Z) (CiliumFlows : list Flow.t) :
  Z.of_nat (length CiliumFlows) < trigger ->
  plugin.GetCiliumFlowsFromHubble trigger CiliumFlows = (CiliumFlows, Ret []).
Proof.
  intros Hlt. unfold plugin.GetCiliumFlowsFromHubble.
  destruct (Nat.eqb (length CiliumFlows) 0); [reflexivity|].
  apply Z.ltb_lt in Hlt. rewrite Hlt. reflexivity.
Qed.

(** At or above the threshold the buffer is reset whatever happens next. *)
Lemma drain_resets (trigger : Z) (CiliumFlows : list Flow.t) :
  trigger <= Z.of_nat (length CiliumFlows) ->
  (plugin.GetCiliumFlowsFromHubble trigger CiliumFlows).1 = [].
Proof.
  intros Hge. unfold plugin.GetCiliumFlowsFromHubble.
  destruct CiliumFlows as [|flow rest]; [reflexivity|].
  cbn [length Nat.eqb]. cbn [length] in Hge.
  apply Z.ltb_ge in Hge. rewrite Hge. reflexivity.
Qed.

(** At or above the threshold the whole buffer is returned, provided its
    first and its last flow carry a timestamp. *)
Lemma drain_at_threshold (trigger : Z) (CiliumFlows : list Flow.t) :
  trigger <= Z.of_nat (length CiliumFlows) ->
  (forall flow, head CiliumFlows = Some flow -> is_Some (Flow.Time flow)) ->
  (forall flow, last CiliumFlows = Some flow -> is_Some (Flow.Time flow)) ->
  plugin.GetCiliumFlowsFromHubble trigger CiliumFlows = ([], Ret CiliumFlows).
Proof.
  intros Hge Hhd Hlast. unfold plugin.GetCiliumFlowsFromHubble.
  destruct CiliumFlows as [|flow rest]; [reflexivity|].
  cbn [length Nat.eqb]. cbn [length] in Hge.
  apply Z.ltb_ge in Hge. rewrite Hge. f_equal.
  destruct (Hhd flow eq_refl) as [t Ht].
  destruct (last (flow :: rest)) as [lastDoc|] eqn:El.
  - destruct (Hlast lastDoc eq_refl) as [t' Ht'].
    change (head (flow :: rest)) with (Some flow).
    cbn [deref mbind outcome_bind obind]. rewrite Ht, Ht'. reflexivity.
  - apply last_None in El. discriminate.
Qed.

(** C3. With one buffered flow that carries no timestamp and threshold 1,
    the buffer is reset and the call panics on reading [Time.Seconds]
    (line 704): the buffered flow is returned to no one. *)
Theorem C3_drain_panics_without_timestamp :
  plugin.GetCiliumFlowsFromHubble 1 [Samples.noTimeFlow] = ([], Panic).
Proof. reflexivity. Qed.

Example drain_two_flows :
  plugin.GetCiliumFlowsFromHubble 2 [Samples.tcpFlow; Samples.deniedFlow]
  = ([], Ret [Samples.tcpFlow; Samples.deniedFlow])
  /\ plugin.GetCiliumFlowsFromHubble 3 [Samples.tcpFlow; Samples.deniedFlow]
     = ([Samples.tcpFlow; Samples.deniedFlow], Ret []).
Proof. split; reflexivity. Qed.

(** ** The policy convertor *)

(** *** The metadata copy *)

Lemma copyMeta_fold_lookup (order : list (string * string)) (acc : gmap string string)
    (k : string) :
  NoDup order.*1 ->
  fold_left plugin.copyMeta order acc !! k
  = if propagated k
    then match (list_to_map order : gmap string string) !! k with
         | Some v => Some v
         | None => acc !! k
         end
    else acc !! k.
Proof.
  revert acc. induction order as [|[k0 v0] order IH]; intros acc Hnd.
  - cbn. rewrite lookup_empty. by destruct (propagated k).
  - apply NoDup_cons in Hnd as [Hk0 Hnd]. cbn [fold_left].
    rewrite IH by done. cbn [list_to_map foldr].
    unfold plugin.copyMeta. cbn [fst snd]. fold (propagated k0).
    destruct (propagated k) eqn:Hk.
    + destruct (decide (k0 = k)) as [->|Hne].
      * rewrite Hk, lookup_insert_eq.
        by rewrite (not_elem_of_list_to_map_1 _ _ Hk0), lookup_insert_eq.
      * rewrite (lookup_insert_ne _ k0 k) by done.
        destruct (list_to_map order !! k); [done|].
        destruct (propagated k0); [by rewrite lookup_insert_ne|done].
    + destruct (propagated k0) eqn:Hk0'; [|done].
      rewrite lookup_insert_ne; [done|]. intros ->. congruence.
Qed.

(** Whatever the order in which the map is visited, the copy holds the
    entries under ["name"] and ["namespace"], and nothing else. *)
Lemma copyMeta_range_lookup (md : option (gmap string string))
    (order : list (string * string)) (k : string) :
  plugin.rangeOrder md order ->
  fold_left plugin.copyMeta order ∅ !! k
  = if propagated k then default ∅ md !! k else None.
Proof.
  unfold plugin.rangeOrder. intros Hperm.
  assert (Hnd : NoDup order.*1).
  { rewrite Hperm. apply NoDup_fst_map_to_list. }
  rewrite copyMeta_fold_lookup by done.
  rewrite (list_to_map_proper _ _ Hnd Hperm), list_to_map_to_list, lookup_empty.
  destruct (propagated k); [|done]. by destruct (default ∅ md !! k).
Qed.

Lemma propagated_spec (k : string) :
  propagated k = true <-> k = "name" \/ k = "namespace".
Proof.
  unfold propagated. rewrite orb_true_iff, !String.eqb_eq. tauto.
Qed.

(** *** The convertor always returns *)

(** A loop returns when its body does and keeps an invariant. *)
Lemma foldM_total {A B} (P : B -> Prop) (f : B -> A -> outcome B) (l : list A) (b : B) :
  (forall b x, P b -> exists b', f b x = Ret b' /\ P b') ->
  P b -> exists b', foldM f l b = Ret b' /\ P b'.
Proof.
  intros Hf. revert b. induction l as [|x l IH]; intros b Hb.
  - exists b. split; [reflexivity|done].
  - destruct (Hf b x Hb) as (b' & Hb' & HP). cbn. rewrite Hb'. cbn. by apply IH.
Qed.

Lemma allocWithHTTP_total (https : slice SpecHTTP.t) :
  exists pl, plugin.allocWithHTTP https = Ret (Some [pl]).
Proof.
  unfold plugin.allocWithHTTP. destruct (Nat.ltb 0 (len https)); cbn; eauto.
Qed.

Lemma egressLabelPort_total (knoxEgress : Egress.t) (toPorts : slice CiliumPortList.t)
    (toPort : SpecPort.t) :
  allocated toPorts ->
  exists toPorts', plugin.egressLabelPort knoxEgress toPorts toPort = Ret toPorts'
                   /\ allocated toPorts'.
Proof.
  intros Hal. unfold plugin.egressLabelPort.
  destruct (String.eqb (SpecPort.Port toPort) ""); [eauto|].
  destruct toPorts as [[|pl rest]|]; [done| |].
  - cbn. eauto.
  - destruct (allocWithHTTP_total (Egress.ToHTTPs knoxEgress)) as [pl ->]. cbn. eauto.
Qed.

Lemma egressCIDRPort_total (toPorts : slice CiliumPortList.t) (toPort : SpecPort.t) :
  allocated toPorts ->
  exists toPorts', plugin.egressCIDRPort toPorts toPort = Ret toPorts' /\ allocated toPorts'.
Proof.
  intros Hal. unfold plugin.egressCIDRPort.
  destruct (String.eqb (SpecPort.Port toPort) ""); [eauto|].
  destruct toPorts as [[|pl rest]|]; [done| |]; cbn; eauto.
Qed.

Lemma egressFQDNPort_total (toPorts : slice CiliumPortList.t) (port : SpecPort.t) :
  allocated toPorts ->
  exists toPorts', plugin.egressFQDNPort toPorts port = Ret toPorts' /\ allocated toPorts'.
Proof.
  intros Hal. unfold plugin.egressFQDNPort.
  destruct toPorts as [[|pl rest]|]; [done| |]; cbn; eauto.
Qed.

Lemma ingressLabelPort_total (knoxIngress : Ingress.t) (toPorts : slice CiliumPortList.t)
    (toPort : SpecPort.t) :
  allocated toPorts ->
  exists toPorts', plugin.ingressLabelPort knoxIngress toPorts toPort = Ret toPorts'
                   /\ allocated toPorts'.
Proof.
  intros Hal. unfold plugin.ingressLabelPort.
  destruct toPorts as [[|pl rest]|]; [done| |].
  - cbn. eauto.
  - destruct (allocWithHTTP_total (Ingress.ToHTTPs knoxIngress)) as [pl ->]. cbn. eauto.
Qed.

Lemma convertEgress_total (services : list Service.t) (egress : slice CiliumEgress.t)
    (knoxEgress : Egress.t) :
  exists egress', plugin.convertEgress services egress knoxEgress = Ret egress'.
Proof.
  unfold plugin.convertEgress.
  destruct (Egress.MatchLabels knoxEgress).
  { destruct (foldM_total allocated (plugin.egressLabelPort knoxEgress)
                (elems (Egress.ToPorts knoxEgress)) None) as (tp & -> & _);
      [apply egressLabelPort_total|done|cbn; eauto]. }
  destruct (Nat.ltb 0 (len (Egress.ToCIDRs knoxEgress))).
  { match goal with |- context [foldM ?f ?l ?b] =>
      destruct (foldM_total (fun st => allocated st.2) f l b) as ([c tp] & -> & _)
    end; [|done|cbn; eauto].
    intros [c tp] toCIDR Htp.
    destruct (foldM_total allocated plugin.egressCIDRPort
                (elems (Egress.ToPorts knoxEgress)) tp) as (tp' & -> & Htp');
      [apply egressCIDRPort_total|done|cbn; eauto]. }
  destruct (Nat.ltb 0 (len (Egress.ToEndtities knoxEgress))); [eauto|].
  destruct (Nat.ltb 0 (len (Egress.ToServices knoxEgress))); [eauto|].
  destruct (Nat.ltb 0 (len (Egress.ToFQDNs knoxEgress))); [|eauto].
  match goal with |- context [foldM ?f ?l ?b] =>
    destruct (foldM_total (fun _ => True) f l b) as ([c eg] & -> & _)
  end; [|done|cbn; eauto].
  intros [c eg] fqdn _.
  destruct (foldM_total allocated plugin.egressFQDNPort
              (elems (Egress.ToPorts knoxEgress)) None) as (tp' & Htp' & _);
    [apply egressFQDNPort_total|done|].
  cbn. rewrite Htp'. cbn. eauto.
Qed.

Lemma convertIngress_total (ingress : slice CiliumIngress.t) (knoxIngress : Ingress.t) :
  exists ingress', plugin.convertIngress ingress knoxIngress = Ret ingress'.
Proof.
  unfold plugin.convertIngress.
  destruct (Ingress.MatchLabels knoxIngress); [|cbn; eauto].
  destruct (foldM_total allocated (plugin.ingressLabelPort knoxIngress)
              (elems (Ingress.ToPorts knoxIngress)) None) as (tp & -> & _);
    [apply ingressLabelPort_total|done|cbn; eauto].
Qed.

Lemma Convert_total (order : list (string * string)) (services : list Service.t)
    (inPolicy : KnoxNetworkPolicy.t) :
  exists egress ingress,
    plugin.ConvertKnoxNetworkPolicyToCiliumPolicy order services inPolicy
    = Ret (CiliumNetworkPolicy.mk "cilium.io/v2" "CiliumNetworkPolicy"
             (Some (fold_left plugin.copyMeta order ∅))
             (CiliumSpec.mk
                (Selector.mk (Selector.MatchLabels
                                (Spec.Selector (KnoxNetworkPolicy.Spec inPolicy))))
                egress ingress))
    /\ (forall order' inPolicy',
          KnoxNetworkPolicy.Spec inPolicy' = KnoxNetworkPolicy.Spec inPolicy ->
          plugin.ConvertKnoxNetworkPolicyToCiliumPolicy order' services inPolicy'
          = Ret (CiliumNetworkPolicy.mk "cilium.io/v2" "CiliumNetworkPolicy"
                   (Some (fold_left plugin.copyMeta order' ∅))
                   (CiliumSpec.mk
                      (Selector.mk (Selector.MatchLabels
                                      (Spec.Selector (KnoxNetworkPolicy.Spec inPolicy))))
                      egress ingress))).
Proof.
  unfold plugin.ConvertKnoxNetworkPolicyToCiliumPolicy, plugin.buildNewCiliumNetworkPolicy.
  cbn [CiliumNetworkPolicy.APIVersion CiliumNetworkPolicy.Kind CiliumNetworkPolicy.Metadata
       CiliumNetworkPolicy.Spec CiliumSpec.Selector].
  set (spec := KnoxNetworkPolicy.Spec inPolicy).
  assert (He : exists egress,
             (if Nat.ltb 0 (len (Spec.Egress spec))
              then foldM (plugin.convertEgress services) (elems (Spec.Egress spec)) (Some [])
              else Ret None) = Ret egress).
  { destruct (Nat.ltb 0 (len (Spec.Egress spec))); [|eauto].
    destruct (foldM_total (fun _ => True) (plugin.convertEgress services)
                (elems (Spec.Egress spec)) (Some [])) as (eg & -> & _); [|done|eauto].
    intros b x _. destruct (convertEgress_total services b x) as [b' ->]. eauto. }
  assert (Hi : exists ingress,
             (if Nat.ltb 0 (len (Spec.Ingress spec))
              then foldM plugin.convertIngress (elems (Spec.Ingress spec)) (Some [])
              else Ret None) = Ret ingress).
  { destruct (Nat.ltb 0 (len (Spec.Ingress spec))); [|eauto].
    destruct (foldM_total (fun _ => True) plugin.convertIngress
                (elems (Spec.Ingress spec)) (Some [])) as (ig & -> & _); [|done|eauto].
    intros b x _. destruct (convertIngress_total b x) as [b' ->]. eauto. }
  destruct He as [egress He], Hi as [ingress Hi].
  exists egress, ingress. split.
  - rewrite He. cbn [mbind outcome_bind obind]. rewrite Hi. reflexivity.
  - intros order' inPolicy' ->. fold spec. rewrite He.
    cbn [mbind outcome_bind obind]. rewrite Hi. reflexivity.
Qed.

(** The platform policy does not depend on the order in which Go visits
    the metadata map, nor on metadata other than the name and the
    namespace. *)
Lemma Convert_agree (services : list Service.t) (p1 p2 : KnoxNetworkPolicy.t)
    (order1 order2 : list (string * string)) :
  plugin.rangeOrder (KnoxNetworkPolicy.Metadata p1) order1 ->
  plugin.rangeOrder (KnoxNetworkPolicy.Metadata p2) order2 ->
  KnoxNetworkPolicy.Spec p1 = KnoxNetworkPolicy.Spec p2 ->
  (forall k, propagated k = true ->
             default ∅ (KnoxNetworkPolicy.Metadata p1) !! k
             = default ∅ (KnoxNetworkPolicy.Metadata p2) !! k) ->
  exists out md,
    plugin.ConvertKnoxNetworkPolicyToCiliumPolicy order1 services p1 = Ret out
    /\ plugin.ConvertKnoxNetworkPolicyToCiliumPolicy order2 services p2 = Ret out
    /\ CiliumNetworkPolicy.Metadata out = Some md
    /\ forall k, md !! k = if propagated k
                           then default ∅ (KnoxNetworkPolicy.Metadata p1) !! k
                           else None.
Proof.
  intros Ho1 Ho2 Hspec Hmeta.
  destruct (Convert_total order1 services p1) as (egress & ingress & H1 & Hany).
  assert (Hmd : fold_left plugin.copyMeta order2 ∅ = fold_left plugin.copyMeta order1 ∅).
  { apply map_eq. intros k.
    rewrite (copyMeta_range_lookup _ _ k Ho1), (copyMeta_range_lookup _ _ k Ho2).
    destruct (propagated k) eqn:Hk; [|done]. symmetry. by apply Hmeta. }
  eexists _, _. split; [exact H1|]. split; [|split; [reflexivity|]].
  - rewrite (Hany order2 p2) by done. by rewrite Hmd.
  - intros k. by apply copyMeta_range_lookup.
Qed.

(** C8. Two canonical policies with the same spec and the same entries under
    ["name"] and ["namespace"] are converted to the same platform policy,
    whatever their other metadata and the order in which the maps are
    visited; the metadata of the platform policy has no key besides
    ["name"] and ["namespace"]. *)
Theorem C8_only_name_and_namespace_propagate (services : list Service.t)
    (p1 p2 : KnoxNetworkPolicy.t) (order1 order2 : list (string * string)) :
  plugin.rangeOrder (KnoxNetworkPolicy.Metadata p1) order1 ->
  plugin.rangeOrder (KnoxNetworkPolicy.Metadata p2) order2 ->
  KnoxNetworkPolicy.Spec p1 = KnoxNetworkPolicy.Spec p2 ->
  (forall k, k = "name" \/ k = "namespace" ->
             default ∅ (KnoxNetworkPolicy.Metadata p1) !! k
             = default ∅ (KnoxNetworkPolicy.Metadata p2) !! k) ->
  exists out md,
    plugin.ConvertKnoxNetworkPolicyToCiliumPolicy order1 services p1 = Ret out
    /\ plugin.ConvertKnoxNetworkPolicyToCiliumPolicy order2 services p2 = Ret out
    /\ CiliumNetworkPolicy.Metadata out = Some md
    /\ dom md ⊆ ({["name"; "namespace"]} : gset string).
Proof.
  intros Ho1 Ho2 Hspec Hmeta.
  destruct (Convert_agree services p1 p2 order1 order2 Ho1 Ho2 Hspec)
    as (out & md & H1 & H2 & Hmd & Hlookup).
  { intros k Hk. apply Hmeta. by apply propagated_spec. }
  exists out, md. repeat split; try done.
  intros k [v Hv]%elem_of_dom. rewrite Hlookup in Hv.
  destruct (propagated k) eqn:Hk; [|done].
  apply propagated_spec in Hk as [-> | ->]; set_solver.
Qed.

(** C9. Two conversions of the same canonical policy with the same service
    catalog return the same platform policy, also when Go visits the
    metadata map in two different orders. *)
Theorem C9_synthesis_deterministic (services : list Service.t)
    (inPolicy : KnoxNetworkPolicy.t) (order1 order2 : list (string * string)) :
  plugin.rangeOrder (KnoxNetworkPolicy.Metadata inPolicy) order1 ->
  plugin.rangeOrder (KnoxNetworkPolicy.Metadata inPolicy) order2 ->
  exists out,
    plugin.ConvertKnoxNetworkPolicyToCiliumPolicy order1 services inPolicy = Ret out
    /\ plugin.ConvertKnoxNetworkPolicyToCiliumPolicy order2 services inPolicy = Ret out.
Proof.
  intros Ho1 Ho2.
  destruct (Convert_agree services inPolicy inPolicy order1 order2 Ho1 Ho2 eq_refl)
    as (out & md & H1 & H2 & _); [done|].
  by exists out.
Qed.

Lemma C8_only_name_and_namespace_propagate_witness :
  exists out md,
    plugin.ConvertKnoxNetworkPolicyToCiliumPolicy
      [("name", "autopol-ingress-y"); ("namespace", "default")] [] Samples.emptyPortPolicy
    = Ret out
    /\ plugin.ConvertKnoxNetworkPolicyToCiliumPolicy
         [("status", "latest"); ("name", "autopol-ingress-y"); ("namespace", "default");
          ("rule", "matchLabels")] [] Samples.emptyPortPolicyTagged
       = Ret out
    /\ CiliumNetworkPolicy.Metadata out = Some md
    /\ dom md ⊆ ({["name"; "namespace"]} : gset string).
Proof.
  apply (C8_only_name_and_namespace_propagate [] Samples.emptyPortPolicy
           Samples.emptyPortPolicyTagged).
  - unfold plugin.rangeOrder. vm_compute map_to_list. apply Permutation_swap.
  - unfold plugin.rangeOrder. vm_compute map_to_list.
    apply Permutation_skip, Permutation_swap.
  - reflexivity.
  - intros k [-> | ->]; vm_compute; reflexivity.
Defined.

Lemma C9_synthesis_deterministic_witness :
  exists out,
    plugin.ConvertKnoxNetworkPolicyToCiliumPolicy
      [("name", "autopol-ingress-y"); ("namespace", "default")] [] Samples.emptyPortPolicy
    = Ret out
    /\ plugin.ConvertKnoxNetworkPolicyToCiliumPolicy
         [("namespace", "default"); ("name", "autopol-ingress-y")] [] Samples.emptyPortPolicy
       = Ret out.
Proof.
  apply (C9_synthesis_deterministic [] Samples.emptyPortPolicy).
  - unfold plugin.rangeOrder. vm_compute map_to_list. apply Permutation_swap.
  - unfold plugin.rangeOrder. vm_compute map_to_list. apply Permutation_refl.
Defined.

(** *** Port entries without a port number *)

(** The egress label rule skips a port entry that has no port number. *)
Lemma egressLabelPort_skips_empty (knoxEgress : Egress.t)
    (toPorts : slice CiliumPortList.t) (protocol : string) :
  plugin.egressLabelPort knoxEgress toPorts (SpecPort.mk "" protocol) = Ret toPorts.
Proof. reflexivity. Qed.

(** The ingress label rule does not: the entry makes it allocate the port
    list and is attached to it. *)
Lemma ingressLabelPort_keeps_empty (knoxIngress : Ingress.t) (protocol : string) :
  exists rules,
    plugin.ingressLabelPort knoxIngress None (SpecPort.mk "" protocol)
    = Ret (Some [CiliumPortList.mk
                   (Some [CiliumPort.mk "" (strings.ToUpper protocol)]) rules]).
Proof.
  unfold plugin.ingressLabelPort, plugin.allocWithHTTP.
  destruct (Nat.ltb 0 (len (Ingress.ToHTTPs knoxIngress))); cbn; eauto.
Qed.

(** C6. For a policy whose ingress and egress label rules each declare one
    port entry without a port number, the egress rule is emitted without a
    port list (the entry is skipped, line 454), whereas the ingress rule is
    emitted with a port list that holds the entry: the ingress loop has no
    such test. *)
Theorem C6_ingress_keeps_empty_port :
  exists out egress ingress,
    plugin.ConvertKnoxNetworkPolicyToCiliumPolicy
      [("name", "autopol-ingress-y"); ("namespace", "default")] [] Samples.emptyPortPolicy
    = Ret out
    /\ CiliumSpec.Egress (CiliumNetworkPolicy.Spec out) = Some [egress]
    /\ CiliumSpec.Ingress (CiliumNetworkPolicy.Spec out) = Some [ingress]
    /\ CiliumEgress.ToPorts egress = None
    /\ CiliumIngress.ToPorts ingress
       = Some [CiliumPortList.mk (Some [CiliumPort.mk "" "TCP"]) None].
Proof. eexists _, _, _. repeat split. Qed.

(** The end-to-end example of the specification, on the policy side. *)
Example Convert_cidrPolicy :
  exists out,
    plugin.ConvertKnoxNetworkPolicyToCiliumPolicy
      [("name", "autopol-egress-x"); ("namespace", "default"); ("type", "egress");
       ("rule", "toCIDRs"); ("status", "latest")] []
      (Samples.cidrPolicy "autopol-egress-x" "latest" ["10.0.0.5/32"] (Some [Samples.tcp443]))
    = Ret out
    /\ CiliumSpec.Egress (CiliumNetworkPolicy.Spec out)
       = Some [CiliumEgress.mk None
                 (Some [CiliumPortList.mk (Some [CiliumPort.mk "443" "TCP"]) None])
                 (Some ["10.0.0.5/32"]) None None None].
Proof. eexists. split; reflexivity. Qed.

(** ** The deduplicator *)

(** *** Reasoning on calls that act on the world *)

Lemma bind_Ret {A B} (m : libs.M A) (k : A -> libs.M B) (w : libs.World)
    (r : B * libs.World) :
  libs.bind m k w = Ret r -> exists a w1, m w = Ret (a, w1) /\ k a w1 = Ret r.
Proof.
  unfold libs.bind. destruct (m w) as [[a w1]| |]; [eauto|discriminate..].
Qed.

Lemma lift_Ret {A} (o : outcome A) (w w' : libs.World) (a : A) :
  libs.lift o w = Ret (a, w') -> o = Ret a /\ w' = w.
Proof.
  unfold libs.lift. destruct o; [|discriminate..]. intros [= -> ->]. done.
Qed.

Lemma ret_Ret {A} (a a' : A) (w w' : libs.World) :
  libs.ret a w = Ret (a', w') -> a' = a /\ w' = w.
Proof. intros [= -> ->]. done. Qed.

(** A property that every round of a loop keeps holds when the loop
    returns. *)
Lemma forM_invariant {A B} (P : B -> Prop) (f : B -> A -> libs.M B) (l : list A) :
  (forall b x w b' w', P b -> f b x w = Ret (b', w') -> P b') ->
  forall b w b' w', P b -> forM f l b w = Ret (b', w') -> P b'.
Proof.
  intros Hf. induction l as [|x l IH]; intros b w b' w' Hb Hrun.
  - apply ret_Ret in Hrun as [-> _]. done.
  - cbn in Hrun. apply bind_Ret in Hrun as (b1 & w1 & Hstep & Hrest).
    eapply IH; [|exact Hrest]. eapply Hf; eauto.
Qed.

(** *** Names *)

Lemma freshName_fresh (fuel : nat) (existNames : list string) (name : string)
    (w w' : libs.World) (n : string) :
  core.freshName fuel existNames name w = Ret (n, w') -> n ∉ existNames.
Proof.
  revert name w. induction fuel as [|fuel IH]; intros name w; cbn;
    unfold libs.ContainsElement; case_bool_decide as Hin.
  - discriminate.
  - intros [-> _]%ret_Ret. done.
  - intros (suffix & w1 & _ & Hrec)%bind_Ret. by apply IH in Hrec.
  - intros [-> _]%ret_Ret. done.
Qed.

(** A name that collides with no existing name is kept, without a call of
    [RandSeq] and whatever the fuel. *)
Lemma freshName_keeps (fuel : nat) (existNames : list string) (name : string)
    (w : libs.World) :
  name ∉ existNames -> core.freshName fuel existNames name w = Ret (name, w).
Proof.
  intros Hn. destruct fuel; cbn; unfold libs.ContainsElement;
    by rewrite bool_decide_eq_false_2.
Qed.

(** *** The renaming loop returns *)

Lemma prefixOf_append (name suffix : string) :
  prefixOf (String.append (prefixOf name) suffix) = prefixOf name.
Proof. unfold prefixOf. destruct (strings.HasPrefix name _); reflexivity. Qed.

Lemma append_inj (p a b : string) : String.append p a = String.append p b -> a = b.
Proof. induction p as [|c p IH]; cbn; [done|]. intros [= H]. auto. Qed.

(** One round of the loop, for a name that collides. *)
Lemma freshName_round (fuel : nat) (existNames : list string) (name : string)
    (w : libs.World) :
  name ∈ existNames ->
  core.freshName (S fuel) existNames name w
  = core.freshName fuel existNames
      (String.append (prefixOf name) (libs.rand w (libs.next w)))
      (libs.mkWorld (libs.rand w) (S (libs.next w)) (libs.outdated w)).
Proof.
  intros Hin. cbn [core.freshName].
  unfold libs.ContainsElement. rewrite bool_decide_eq_true_2 by done.
  unfold libs.bind, libs.RandSeq, prefixOf.
  destruct (strings.HasPrefix name _); reflexivity.
Qed.

(** [avail] lists the existing names that the coming candidates can still
    hit; each round that collides removes one of them. *)
Lemma freshName_returns_from (fuel : nat) :
  forall (avail existNames : list string) (name : string) (w : libs.World),
    (forall i j, libs.rand w i = libs.rand w j -> i = j) ->
    NoDup avail ->
    (length avail <= fuel)%nat ->
    (name ∈ existNames -> name ∈ avail) ->
    (forall j, (libs.next w <= j)%nat ->
               String.append (prefixOf name) (libs.rand w j) ∈ existNames ->
               String.append (prefixOf name) (libs.rand w j) ∈ avail) ->
    (forall j, (libs.next w <= j)%nat ->
               String.append (prefixOf name) (libs.rand w j) <> name) ->
    exists n w', core.freshName fuel existNames name w = Ret (n, w').
Proof.
  induction fuel as [|fuel IH]; intros avail existNames name w Hinj Hnd Hlen Hname Hnext Hne;
    destruct (decide (name ∈ existNames)) as [Hin|Hout];
    try (rewrite freshName_keeps by done; eauto).
  - apply Hname in Hin. destruct avail; [by apply elem_of_nil in Hin|cbn in Hlen; lia].
  - rewrite freshName_round by done.
    apply (IH (filter (fun x => x <> name) avail)); cbn [libs.rand libs.next].
    + exact Hinj.
    + by apply NoDup_filter.
    + pose proof (length_filter_lt (fun x => x <> name) avail name (Hname Hin)) as Hlt.
      assert (~ name <> name) as Hnn by (intros H; by apply H).
      specialize (Hlt Hnn). lia.
    + intros Hc. apply list_elem_of_filter. split; [by apply Hne|by apply Hnext].
    + intros j Hj. rewrite prefixOf_append. intros Hc.
      apply list_elem_of_filter. split; [apply Hne; lia|apply Hnext; [lia|done]].
    + intros j Hj. rewrite prefixOf_append. intros Heq%append_inj%Hinj. lia.
Qed.

Lemma remove_dups_length_le (l : list string) : (length (remove_dups l) <= length l)%nat.
Proof.
  induction l as [|x l IH]; cbn; [lia|].
  destruct (decide_rel elem_of x l); cbn; lia.
Qed.

(** When the source of randomness never repeats a suffix, the loop returns
    after at most one round more than there are existing names. *)
Lemma freshName_returns (existNames : list string) (name : string) (w : libs.World) :
  (forall i j, libs.rand w i = libs.rand w j -> i = j) ->
  exists n w', core.freshName (S (length existNames)) existNames name w = Ret (n, w').
Proof.
  intros Hinj. destruct (decide (name ∈ existNames)) as [Hin|Hout];
    [|rewrite freshName_keeps by done; eauto].
  rewrite freshName_round by done.
  apply (freshName_returns_from _ (remove_dups existNames)); cbn [libs.rand libs.next].
  - exact Hinj.
  - apply NoDup_remove_dups.
  - apply remove_dups_length_le.
  - by rewrite elem_of_remove_dups.
  - intros j _. by rewrite elem_of_remove_dups.
  - intros j Hj. rewrite prefixOf_append. intros Heq%append_inj%Hinj. lia.
Qed.

Lemma setName_meta (policy policy' : KnoxNetworkPolicy.t) (name : string) :
  core.setName policy name = Ret policy' -> KnoxNetworkPolicy.meta policy' "name" = name.
Proof.
  unfold core.setName. destruct (KnoxNetworkPolicy.Metadata policy) as [md|]; [|discriminate].
  intros [= <-]. unfold KnoxNetworkPolicy.meta, mget. cbn. by rewrite lookup_insert_eq.
Qed.

Lemma ReplaceDuplcatedName_fresh (fuel : nat) (existingPolicies : list KnoxNetworkPolicy.t)
    (policy policy' : KnoxNetworkPolicy.t) (w w' : libs.World) :
  core.ReplaceDuplcatedName fuel existingPolicies policy w = Ret (policy', w') ->
  KnoxNetworkPolicy.meta policy' "name" ∉ names existingPolicies.
Proof.
  unfold core.ReplaceDuplcatedName.
  intros (n & w1 & Hfresh & [Hset _]%lift_Ret)%bind_Ret.
  apply setName_meta in Hset as ->. by apply freshName_fresh in Hfresh.
Qed.

Lemma reconcileOne_fresh (fuel : nat) (existingPolicies newPolicies : list KnoxNetworkPolicy.t)
    (policy : KnoxNetworkPolicy.t) (w w' : libs.World)
    (newPolicies' : list KnoxNetworkPolicy.t) :
  freshAgainst existingPolicies newPolicies ->
  core.reconcileOne fuel existingPolicies newPolicies policy w = Ret (newPolicies', w') ->
  freshAgainst existingPolicies newPolicies'.
Proof.
  intros Hfresh. unfold core.reconcileOne.
  destruct (core.IsExistedPolicy existingPolicies policy).
  { intros [-> _]%ret_Ret. done. }
  intros ([policy1 valid1] & w1 & _ & Hrun)%bind_Ret.
  destruct valid1; cbn [negb] in Hrun; [|by apply ret_Ret in Hrun as [-> _]].
  apply bind_Ret in Hrun as ([policy2 valid2] & w2 & _ & Hrun).
  destruct valid2; cbn [negb] in Hrun; [|by apply ret_Ret in Hrun as [-> _]].
  apply bind_Ret in Hrun as (named & w3 & Hnamed & [-> _]%ret_Ret).
  apply Forall_app. split; [done|]. apply Forall_singleton.
  by apply ReplaceDuplcatedName_fresh in Hnamed.
Qed.

Lemma replaceByName_names (fqdnPolicy : KnoxNetworkPolicy.t)
    (newPolicies : list KnoxNetworkPolicy.t) :
  names (core.replaceByName fqdnPolicy newPolicies) = names newPolicies.
Proof.
  unfold names, core.replaceByName. rewrite map_map. apply map_ext. intros p.
  destruct (String.eqb_spec (KnoxNetworkPolicy.meta fqdnPolicy "name")
                            (KnoxNetworkPolicy.meta p "name")); done.
Qed.

Lemma promoteCIDR_names (existCIDR : KnoxNetworkPolicy.t) (existEgress0 : Egress.t)
    (toFQDNs : list KnoxNetworkPolicy.t) (dnsToIPs : list (string * list string))
    (newPolicies newPolicies' : list KnoxNetworkPolicy.t) (cidr : string)
    (w w' : libs.World) :
  core.promoteCIDR existCIDR existEgress0 toFQDNs dnsToIPs newPolicies cidr w
  = Ret (newPolicies', w') ->
  names newPolicies' = names newPolicies.
Proof.
  unfold core.promoteCIDR.
  destruct (core.existDomainNameInFQDN _ toFQDNs) as [fqdnPolicy matched].
  destruct matched; [|by intros [-> _]%ret_Ret].
  intros ([fqdnPolicy' l] & w1 & Hmerge & Hrest)%bind_Ret.
  apply bind_Ret in Hrest as (? & w2 & _ & [-> _]%ret_Ret).
  destruct (Nat.ltb 0 (len (Egress.ToPorts existEgress0))).
  - apply bind_Ret in Hmerge as (e0 & w3 & _ & Hmerge).
    apply bind_Ret in Hmerge as (f' & w4 & _ & [[= _ ->] _]%ret_Ret).
    apply replaceByName_names.
  - by apply ret_Ret in Hmerge as [[= _ ->] _].
Qed.

(** The promotion pass changes no name of the list it is given. *)
Lemma updateExistCIDRtoNewFQDN_names (existingPolicies newPolicies : list KnoxNetworkPolicy.t)
    (dnsToIPs : list (string * list string)) (w w' : libs.World)
    (newPolicies' : list KnoxNetworkPolicy.t) :
  core.updateExistCIDRtoNewFQDN existingPolicies newPolicies dnsToIPs w
  = Ret (newPolicies', w') ->
  names newPolicies' = names newPolicies.
Proof.
  unfold core.updateExistCIDRtoNewFQDN.
  apply (forM_invariant (fun l => names l = names newPolicies)); [|done].
  intros l existCIDR w0 l' w0' Hl.
  destruct (_ && _); [|by intros [-> _]%ret_Ret].
  intros (e0 & w1 & _ & Hrun)%bind_Ret. revert Hrun.
  apply (forM_invariant (fun l => names l = names newPolicies)); [|done].
  clear. intros l toCidr w0 l' w0' Hl.
  apply (forM_invariant (fun l => names l = names newPolicies)); [|done].
  intros l1 cidr w1 l1' w1' Hl1 Hrun.
  apply promoteCIDR_names in Hrun. congruence.
Qed.

Lemma freshAgainst_names (existingPolicies l l' : list KnoxNetworkPolicy.t) :
  names l' = names l -> freshAgainst existingPolicies l -> freshAgainst existingPolicies l'.
Proof.
  unfold freshAgainst, names. rewrite !Forall_forall. intros Hn Hl p Hp.
  set (name := fun p => KnoxNetworkPolicy.meta p "name") in *.
  assert (Hin : In (name p) (map name l)).
  { rewrite <- Hn. apply in_map. by apply list_elem_of_In. }
  apply in_map_iff in Hin as (q & Hq & Hinq).
  change (name p ∉ map name existingPolicies). rewrite <- Hq.
  by apply Hl, list_elem_of_In.
Qed.

(** C2 (as amended). Names are made unique against the existing policies
    only: when the reconciliation returns, no policy of its output bears
    the name of an existing policy. *)
Theorem C2_output_names_fresh_against_existing (fuel : nat)
    (existingPolicies discoveredPolicies : list KnoxNetworkPolicy.t)
    (dnsToIPs : list (string * list string)) (w w' : libs.World)
    (out : list KnoxNetworkPolicy.t) :
  core.DeduplicatePolicies fuel existingPolicies discoveredPolicies dnsToIPs w
  = Ret (out, w') ->
  forall p, p ∈ out -> KnoxNetworkPolicy.meta p "name" ∉ names existingPolicies.
Proof.
  unfold core.DeduplicatePolicies.
  intros (newPolicies & w1 & Hloop & Hpass)%bind_Ret.
  assert (Hfresh : freshAgainst existingPolicies newPolicies).
  { revert Hloop. apply forM_invariant; [|by apply Forall_nil].
    intros l policy w0 l' w0' Hl Hstep. by eapply reconcileOne_fresh. }
  apply updateExistCIDRtoNewFQDN_names in Hpass.
  apply (freshAgainst_names _ _ _ Hpass) in Hfresh.
  intros p Hp. by apply (proj1 (Forall_forall _ _) Hfresh).
Qed.

(** The discovered policy bears the name of an existing, outdated policy:
    it is renamed, with the first suffix of the source of randomness. *)
Lemma C2_output_names_fresh_against_existing_witness :
  Forall (fun p => KnoxNetworkPolicy.meta p "name"
                   ∉ names [Samples.cidrPolicy "autopol-egress-x" "outdated" ["10.0.0.5/32"]
                              (Some [Samples.tcp80])])
    [KnoxNetworkPolicy.mk
       (Some (<["name" := "autopol-egress0"]>
                (default ∅ (KnoxNetworkPolicy.Metadata
                   (Samples.cidrPolicy "autopol-egress-x" "latest" ["10.0.0.9/32"] None)))))
       (KnoxNetworkPolicy.Spec
          (Samples.cidrPolicy "autopol-egress-x" "latest" ["10.0.0.9/32"] None))].
Proof.
  apply Forall_forall.
  apply (C2_output_names_fresh_against_existing 1
           [Samples.cidrPolicy "autopol-egress-x" "outdated" ["10.0.0.5/32"]
              (Some [Samples.tcp80])]
           [Samples.cidrPolicy "autopol-egress-x" "latest" ["10.0.0.9/32"] None]
           [] Samples.world0
           (libs.mkWorld (libs.rand Samples.world0) 1 [])).
  vm_compute. reflexivity.
Defined.

(** C2 (as stated) fails: two discovered policies that carry the name
    ["autopol-egress-x"], with no existing policy, both keep it. *)
Lemma C2_counterexample :
  Samples.namesOf
    (core.DeduplicatePolicies 0 []
       [Samples.cidrPolicy "autopol-egress-x" "latest" ["10.0.0.5/32"] (Some [Samples.tcp443]);
        Samples.cidrPolicy "autopol-egress-x" "latest" ["10.0.0.9/32"] (Some [Samples.tcp443])]
       [] Samples.world0)
  = Some ["autopol-egress-x"; "autopol-egress-x"].
Proof. vm_compute. reflexivity. Qed.

(** *** The CIDR lookup *)

Lemma selfIncluded_inner (cidr : string) (l : list string) (included : bool) :
  fold_left (fun included existCidr =>
               if negb (String.eqb cidr existCidr) then false else included) l included
  = included && forallb (String.eqb cidr) l.
Proof.
  revert included. induction l as [|x l IH]; intros included; cbn.
  - by rewrite andb_true_r.
  - rewrite IH. destruct (String.eqb cidr x), included; cbn; try done.
Qed.

Lemma selfIncluded_outer (l l' : list string) (included : bool) :
  fold_left (fun included cidr =>
               fold_left (fun included existCidr =>
                            if negb (String.eqb cidr existCidr) then false else included)
                         l included) l' included
  = included && forallb (fun cidr => forallb (String.eqb cidr) l) l'.
Proof.
  revert included. induction l' as [|x l' IH]; intros included; cbn.
  - by rewrite andb_true_r.
  - rewrite IH, selfIncluded_inner. by rewrite andb_assoc.
Qed.

(** The check of lines 25-32 holds exactly when all entries of the
    discovered list are equal; the existing policy plays no part in it. *)
Lemma selfIncluded_spec (l : list string) :
  core.selfIncluded l = true <-> forall x y, x ∈ l -> y ∈ l -> x = y.
Proof.
  unfold core.selfIncluded. rewrite selfIncluded_outer. cbn [andb].
  rewrite forallb_forall. split.
  - intros H x y Hx Hy. apply list_elem_of_In in Hx, Hy.
    specialize (H x Hx). rewrite forallb_forall in H. by apply String.eqb_eq, H.
  - intros H x Hx. apply forallb_forall. intros y Hy.
    apply String.eqb_eq, H; by apply list_elem_of_In.
Qed.

(** An existing policy that passes the tests of lines 19-22 is returned
    for a discovered policy with one CIDR, whatever its own CIDRs are. *)
Lemma GetLatestCIDRs_one_CIDR (exist_ policy : KnoxNetworkPolicy.t)
    (rest : list KnoxNetworkPolicy.t) (egress0 : Egress.t) (egresses : list Egress.t)
    (toCIDRs : list SpecCIDR.t) (cidr : string) :
  Spec.Selector (KnoxNetworkPolicy.Spec exist_) = Spec.Selector (KnoxNetworkPolicy.Spec policy) ->
  KnoxNetworkPolicy.meta exist_ "type" = KnoxNetworkPolicy.meta policy "type" ->
  strings.Contains (KnoxNetworkPolicy.meta exist_ "rule") "toCIDRs" = true ->
  KnoxNetworkPolicy.meta exist_ "status" = "latest" ->
  Spec.Egress (KnoxNetworkPolicy.Spec policy) = Some (egress0 :: egresses) ->
  Egress.ToCIDRs egress0 = Some (SpecCIDR.mk (Some [cidr]) :: toCIDRs) ->
  core.GetLatestCIDRs (exist_ :: rest) policy = Ret (exist_, true).
Proof.
  intros Hsel Htype Hrule Hstatus Hegress Hcidrs. cbn [core.GetLatestCIDRs].
  rewrite bool_decide_eq_true_2 by done.
  rewrite Htype, String.eqb_refl, Hrule, Hstatus. cbn [andb String.eqb Ascii.eqb].
  rewrite Hegress. cbn. rewrite Hcidrs. cbn.
  unfold core.selfIncluded. cbn. by rewrite String.eqb_refl.
Qed.

(** No existing policy is returned for a discovered policy whose first
    CIDR list has two different entries. *)
Lemma GetLatestCIDRs_two_CIDRs (existingPolicies : list KnoxNetworkPolicy.t)
    (policy : KnoxNetworkPolicy.t) (egress0 : Egress.t) (egresses : list Egress.t)
    (toCIDR0 : SpecCIDR.t) (toCIDRs : list SpecCIDR.t) (x y : string) :
  Spec.Egress (KnoxNetworkPolicy.Spec policy) = Some (egress0 :: egresses) ->
  Egress.ToCIDRs egress0 = Some (toCIDR0 :: toCIDRs) ->
  x ∈ elems (SpecCIDR.CIDRs toCIDR0) ->
  y ∈ elems (SpecCIDR.CIDRs toCIDR0) ->
  x <> y ->
  core.GetLatestCIDRs existingPolicies policy = Ret (KnoxNetworkPolicy.zero, false).
Proof.
  intros Hegress Hcidrs Hx Hy Hxy.
  assert (Hself : core.selfIncluded (elems (SpecCIDR.CIDRs toCIDR0)) = false).
  { apply not_true_is_false. intros H. by apply Hxy, (proj1 (selfIncluded_spec _) H). }
  induction existingPolicies as [|exist_ rest IH]; [reflexivity|].
  cbn [core.GetLatestCIDRs]. destruct (_ && _); [|exact IH].
  rewrite Hegress. cbn. rewrite Hcidrs. cbn. rewrite Hself. exact IH.
Qed.

(** C1. The existing policy allows [10.0.0.1/32], the discovered policy
    [10.0.0.2/32]; they agree on selector and type, and the existing policy
    is a "latest" CIDR policy.  [GetLatestCIDRs] returns the existing policy
    as a match although the two CIDR sets differ. *)
Theorem C1_match_with_different_CIDRs :
  core.GetLatestCIDRs
    [Samples.cidrPolicy "autopol-egress-old" "latest" ["10.0.0.1/32"] (Some [Samples.tcp80])]
    (Samples.cidrPolicy "autopol-egress-new" "latest" ["10.0.0.2/32"] (Some [Samples.tcp443]))
  = Ret (Samples.cidrPolicy "autopol-egress-old" "latest" ["10.0.0.1/32"]
           (Some [Samples.tcp80]), true).
Proof. vm_compute. reflexivity. Qed.

(** *** Merging and discarding *)

Lemma elems_append {A} (s : slice A) (x : A) : elems (append s x) = elems s ++ [x].
Proof. reflexivity. Qed.

(** The merged list holds the ports of both lists. *)
Lemma mergePorts_elem (toPorts latest : slice SpecPort.t) (port : SpecPort.t) :
  port ∈ elems (core.mergePorts toPorts latest)
  <-> port ∈ elems toPorts \/ port ∈ elems latest.
Proof.
  unfold core.mergePorts. generalize (elems latest) as l. intros l. revert toPorts.
  induction l as [|x l IH]; intros toPorts; cbn [fold_left].
  - rewrite elem_of_nil. tauto.
  - rewrite IH, elem_of_cons. unfold libs.ContainsElement.
    case_bool_decide as Hx; cbn [negb].
    + split; [tauto|]. intros [H|[->|H]]; tauto.
    + rewrite elems_append, elem_of_app, list_elem_of_singleton. tauto.
Qed.

(** A port that the list already holds is not appended again. *)
Lemma mergePorts_NoDup (toPorts latest : slice SpecPort.t) :
  NoDup (elems toPorts) -> NoDup (elems (core.mergePorts toPorts latest)).
Proof.
  unfold core.mergePorts. generalize (elems latest) as l. intros l. revert toPorts.
  induction l as [|x l IH]; intros toPorts Hnd; cbn [fold_left]; [done|].
  apply IH. unfold libs.ContainsElement. case_bool_decide as Hx; cbn [negb]; [done|].
  rewrite elems_append. apply NoDup_app. repeat split; [done| |apply NoDup_singleton].
  intros y Hy ->%list_elem_of_singleton. done.
Qed.

(** Case 2 of [UpdateCIDR]: the lookup has returned a policy with ports and
    the discovered policy has none; the discovered policy is refused, and
    nothing is marked. *)
Lemma UpdateCIDR_discards (policy latest : KnoxNetworkPolicy.t)
    (existingPolicies : list KnoxNetworkPolicy.t) (policyEgress0 latestEgress0 : Egress.t)
    (policyEgresses latestEgresses : list Egress.t) (w : libs.World) :
  KnoxNetworkPolicy.meta policy "type" = "egress" ->
  core.GetLatestCIDRs existingPolicies policy = Ret (latest, true) ->
  Spec.Egress (KnoxNetworkPolicy.Spec policy) = Some (policyEgress0 :: policyEgresses) ->
  Spec.Egress (KnoxNetworkPolicy.Spec latest) = Some (latestEgress0 :: latestEgresses) ->
  len (Egress.ToPorts policyEgress0) = 0%nat ->
  (0 < len (Egress.ToPorts latestEgress0))%nat ->
  core.UpdateCIDR policy existingPolicies w = Ret ((policy, false), w).
Proof.
  intros Htype Hfound Hpe Hle Hnone Hsome.
  unfold core.UpdateCIDR, core.updateWith, libs.bind, libs.lift.
  rewrite Htype, Hfound, Hpe, Hle. cbn [String.eqb Ascii.eqb Bool.eqb negb index0].
  rewrite Hnone. apply Nat.ltb_lt in Hsome. rewrite Hsome. reflexivity.
Qed.

(** Case 3 of [UpdateCIDR]: the ports of the policy that the lookup has
    returned are merged into the discovered policy, and that policy is
    marked outdated in favour of the discovered one. *)
Lemma UpdateCIDR_merges (policy latest : KnoxNetworkPolicy.t)
    (existingPolicies : list KnoxNetworkPolicy.t) (policyEgress0 latestEgress0 : Egress.t)
    (policyEgresses latestEgresses : list Egress.t) (w : libs.World) :
  KnoxNetworkPolicy.meta policy "type" = "egress" ->
  core.GetLatestCIDRs existingPolicies policy = Ret (latest, true) ->
  Spec.Egress (KnoxNetworkPolicy.Spec policy) = Some (policyEgress0 :: policyEgresses) ->
  Spec.Egress (KnoxNetworkPolicy.Spec latest) = Some (latestEgress0 :: latestEgresses) ->
  (0 < len (Egress.ToPorts policyEgress0))%nat \/ len (Egress.ToPorts latestEgress0) = 0%nat ->
  core.UpdateCIDR policy existingPolicies w
  = Ret ((KnoxNetworkPolicy.mk (KnoxNetworkPolicy.Metadata policy)
            (Spec.mk (Spec.Selector (KnoxNetworkPolicy.Spec policy))
               (Some (Egress.setToPorts policyEgress0
                        (core.mergePorts (Egress.ToPorts policyEgress0)
                                         (Egress.ToPorts latestEgress0))
                      :: policyEgresses))
               (Spec.Ingress (KnoxNetworkPolicy.Spec policy))), true),
         libs.mkWorld (libs.rand w) (libs.next w)
           (libs.outdated w ++ [(KnoxNetworkPolicy.meta latest "name",
                                 KnoxNetworkPolicy.meta policy "name")])).
Proof.
  intros Htype Hfound Hpe Hle Hports.
  unfold core.UpdateCIDR, core.updateWith, libs.bind, libs.lift.
  rewrite Htype, Hfound, Hpe, Hle. cbn [String.eqb Ascii.eqb Bool.eqb negb index0].
  assert (Hcase : Nat.eqb (len (Egress.ToPorts policyEgress0)) 0
                  && Nat.ltb 0 (len (Egress.ToPorts latestEgress0)) = false).
  { destruct Hports as [H|H].
    - destruct (len (Egress.ToPorts policyEgress0)); [lia|reflexivity].
    - rewrite H. cbn. apply andb_false_r. }
  rewrite Hcase. unfold libs.UpdateOutdatedLabel, core.setEgress0ToPorts.
  rewrite Hpe. reflexivity.
Qed.

(** The name that marks the existing policy is the name proposed for the
    discovered policy: when that name collides and the policy is renamed,
    the mark still refers to the proposed name. *)
Example Deduplicate_marks_before_renaming :
  let run :=
    core.DeduplicatePolicies 1
      [Samples.cidrPolicy "autopol-egress-x" "latest" ["10.0.0.5/32"] (Some [Samples.tcp80])]
      [Samples.cidrPolicy "autopol-egress-x" "latest" ["10.0.0.5/32"] (Some [Samples.tcp443])]
      [] Samples.world0 in
  Samples.namesOf run = Some ["autopol-egress0"]
  /\ Samples.portsOf run = Some [[Samples.tcp443; Samples.tcp80]]
  /\ Samples.outdatedOf run = Some [("autopol-egress-x", "autopol-egress-x")].
Proof. vm_compute. done. Qed.

(** With one CIDR the ports are merged and the existing policy is marked. *)
Example Deduplicate_merges_one_CIDR :
  let run :=
    core.DeduplicatePolicies 0
      [Samples.cidrPolicy "autopol-egress-old" "latest" ["10.0.0.5/32"] (Some [Samples.tcp80])]
      [Samples.cidrPolicy "autopol-egress-new" "latest" ["10.0.0.5/32"] (Some [Samples.tcp443])]
      [] Samples.world0 in
  Samples.namesOf run = Some ["autopol-egress-new"]
  /\ Samples.portsOf run = Some [[Samples.tcp443; Samples.tcp80]]
  /\ Samples.outdatedOf run = Some [("autopol-egress-old", "autopol-egress-new")].
Proof. vm_compute. done. Qed.

(** C4. The existing "latest" policy allows two CIDRs on port 80/TCP, the
    discovered policy the same two CIDRs on port 443/TCP, with the same
    selector.  The output policy has port 443/TCP only, and no policy is
    marked outdated: no merge takes place. *)
Theorem C4_two_CIDRs_not_merged :
  let run :=
    core.DeduplicatePolicies 0
      [Samples.cidrPolicy "autopol-egress-old" "latest" ["10.0.0.5/32"; "10.0.0.6/32"]
         (Some [Samples.tcp80])]
      [Samples.cidrPolicy "autopol-egress-new" "latest" ["10.0.0.5/32"; "10.0.0.6/32"]
         (Some [Samples.tcp443])]
      [] Samples.world0 in
  Samples.namesOf run = Some ["autopol-egress-new"]
  /\ Samples.portsOf run = Some [[Samples.tcp443]]
  /\ Samples.outdatedOf run = Some [].
Proof. vm_compute. done. Qed.

(** With one CIDR a discovered policy without ports is discarded. *)
Example Deduplicate_discards_one_CIDR :
  Samples.namesOf
    (core.DeduplicatePolicies 0
       [Samples.cidrPolicy "autopol-egress-old" "latest" ["10.0.0.5/32"] (Some [Samples.tcp80])]
       [Samples.cidrPolicy "autopol-egress-new" "latest" ["10.0.0.5/32"] None]
       [] Samples.world0)
  = Some [].
Proof. vm_compute. reflexivity. Qed.

(** C5. The existing "latest" policy allows two CIDRs on port 80/TCP, the
    discovered policy the same two CIDRs and has no ports, with the same
    selector.  The discovered policy is in the output. *)
Theorem C5_two_CIDRs_not_discarded :
  core.DeduplicatePolicies 0
    [Samples.cidrPolicy "autopol-egress-old" "latest" ["10.0.0.5/32"; "10.0.0.6/32"]
       (Some [Samples.tcp80])]
    [Samples.cidrPolicy "autopol-egress-new" "latest" ["10.0.0.5/32"; "10.0.0.6/32"] None]
    [] Samples.world0
  = Ret ([Samples.cidrPolicy "autopol-egress-new" "latest" ["10.0.0.5/32"; "10.0.0.6/32"] None],
         Samples.world0).
Proof. vm_compute. reflexivity. Qed.

(** * Further properties of the code *)

(** ** The flow convertor, continued *)

Section ConvertorFurther.

Variable url_Parse : string -> option string.

(** The L7 part touches the L7 fields of the log only. *)
Lemma convertL7_erase (ciliumFlow : Flow.t) (base log : KnoxNetworkLog.t) (ok : bool) :
  plugin.convertL7 url_Parse ciliumFlow base = Ret (log, ok) ->
  eraseL7 log = eraseL7 base.
Proof.
  unfold plugin.convertL7.
  destruct (Flow.L7 ciliumFlow ≫= Layer7.GetHttp) as [http|].
  - destruct (plugin.getHTTP url_Parse ciliumFlow) as [[method path]| |];
      cbn [mbind outcome_bind obind]; [|discriminate..].
    destruct (negb (negb _)); [by intros [= <- _]|].
    destruct (Flow.L7 ciliumFlow) as [l7|]; [|by intros [= <- _]].
    destruct (Layer7.GetDns l7) as [dns|]; [|by intros [= <- _]].
    destruct (_ && _); [|by intros [= <- _]].
    destruct (strings.HasSuffix _ _); by intros [= <- _].
  - cbn [mbind outcome_bind obind negb].
    destruct (Flow.L7 ciliumFlow) as [l7|]; [|by intros [= <- _]].
    destruct (Layer7.GetDns l7) as [dns|]; [|by intros [= <- _]].
    destruct (_ && _); [|by intros [= <- _]].
    destruct (strings.HasSuffix _ _); by intros [= <- _].
Qed.

(** A flow is accepted only through the L7 part, on the log built from
    records that are all present. *)
Lemma Convert_ok_inv (ciliumFlow : Flow.t) (log : KnoxNetworkLog.t) :
  plugin.ConvertCiliumFlowToKnoxNetworkLog url_Parse ciliumFlow = Ret (log, true) ->
  exists source destination ip l4,
    Flow.Source ciliumFlow = Some source
    /\ Flow.Destination ciliumFlow = Some destination
    /\ Flow.IP ciliumFlow = Some ip
    /\ Flow.L4 ciliumFlow = Some l4
    /\ deniedByPolicy ciliumFlow = false
    /\ plugin.convertL7 url_Parse ciliumFlow (l34Log ciliumFlow source destination ip l4)
       = Ret (log, true).
Proof.
  unfold plugin.ConvertCiliumFlowToKnoxNetworkLog. fold (deniedByPolicy ciliumFlow).
  destruct (deniedByPolicy ciliumFlow) eqn:Hden; [discriminate|].
  destruct (Flow.Source ciliumFlow) as [source|]; [|discriminate].
  destruct (Flow.Destination ciliumFlow) as [destination|]; [|discriminate].
  cbn [deref mbind outcome_bind obind].
  destruct (Flow.IP ciliumFlow) as [ip|].
  - destruct (Flow.L4 ciliumFlow) as [l4|].
    + intros H. exists source, destination, ip, l4. repeat split; try done.
      rewrite <- H. clear H. unfold l34Log.
      destruct (String.eqb (Endpoint.PodName source) "");
        destruct (String.eqb (Endpoint.PodName destination) "");
        cbn [deref mbind outcome_bind obind];
        destruct l4 as [tcp|udp|icmp| |]; reflexivity.
    + destruct (String.eqb (Endpoint.PodName source) "");
        destruct (String.eqb (Endpoint.PodName destination) ""); discriminate.
  - destruct (String.eqb (Endpoint.PodName source) "");
      destruct (String.eqb (Endpoint.PodName destination) ""); discriminate.
Qed.

(** X1. The convertor accepts a flow only when its IP record and its L4
    record are present; the addresses, the protocol number and the ports of
    the log are those of the two records. *)
Theorem X1_accepted_flow_has_L3_L4 (ciliumFlow : Flow.t) (log : KnoxNetworkLog.t) :
  plugin.ConvertCiliumFlowToKnoxNetworkLog url_Parse ciliumFlow = Ret (log, true) ->
  exists ip l4,
    Flow.IP ciliumFlow = Some ip /\ Flow.L4 ciliumFlow = Some l4
    /\ KnoxNetworkLog.SrcIP log = IP.Source ip
    /\ KnoxNetworkLog.DstIP log = IP.Destination ip
    /\ KnoxNetworkLog.Protocol log = plugin.getProtocol l4
    /\ (KnoxNetworkLog.SrcPort log, KnoxNetworkLog.DstPort log) = plugin.getL4Ports l4.
Proof.
  intros (source & destination & ip & l4 & _ & _ & Hip & Hl4 & _ & Hl7)%Convert_ok_inv.
  apply convertL7_erase in Hl7. exists ip, l4. repeat split; try done.
  - apply (f_equal KnoxNetworkLog.SrcIP) in Hl7. exact Hl7.
  - apply (f_equal KnoxNetworkLog.DstIP) in Hl7. exact Hl7.
  - apply (f_equal KnoxNetworkLog.Protocol) in Hl7. exact Hl7.
  - apply (f_equal (fun l => (KnoxNetworkLog.SrcPort l, KnoxNetworkLog.DstPort l))) in Hl7.
    cbn in Hl7. rewrite Hl7. by destruct (plugin.getL4Ports l4).
Qed.

(** X2. The action of an accepted flow is ["deny"] when its verdict is
    DROPPED (2) and ["allow"] for every other verdict, its direction is the
    name of the traffic direction, and a dropped flow that is accepted was
    not dropped for reason 181. *)
Theorem X2_action_and_direction (ciliumFlow : Flow.t) (log : KnoxNetworkLog.t) :
  plugin.ConvertCiliumFlowToKnoxNetworkLog url_Parse ciliumFlow = Ret (log, true) ->
  KnoxNetworkLog.Action log = (if Flow.Verdict ciliumFlow =? 2 then "deny" else "allow")
  /\ KnoxNetworkLog.Direction log
     = TrafficDirection_String (Flow.GetTrafficDirection ciliumFlow)
  /\ (Flow.Verdict ciliumFlow = 2 -> Flow.DropReason ciliumFlow <> 181).
Proof.
  intros (source & destination & ip & l4 & _ & _ & _ & _ & Hden & Hl7)%Convert_ok_inv.
  apply convertL7_erase in Hl7. repeat split.
  - apply (f_equal KnoxNetworkLog.Action) in Hl7. exact Hl7.
  - apply (f_equal KnoxNetworkLog.Direction) in Hl7. exact Hl7.
  - intros Hv Hd. unfold deniedByPolicy in Hden. by rewrite Hv, Hd in Hden.
Qed.

(** X3. The SYN flag of an accepted flow is set exactly when the L4 record
    is TCP with flags in which SYN is set and ACK is not; it is unset when
    the TCP record has no flags and for every other protocol. *)
Theorem X3_syn_flag (ciliumFlow : Flow.t) (log : KnoxNetworkLog.t) (l4 : Layer4) :
  plugin.ConvertCiliumFlowToKnoxNetworkLog url_Parse ciliumFlow = Ret (log, true) ->
  Flow.L4 ciliumFlow = Some l4 ->
  KnoxNetworkLog.SynFlag log = true
  <-> exists tcp flags,
        l4 = L4TCP tcp /\ TCP.Flags tcp = Some flags
        /\ TCPFlags.SYN flags = true /\ TCPFlags.ACK flags = false.
Proof.
  intros (source & destination & ip & l4' & _ & _ & _ & Hl4' & _ & Hl7)%Convert_ok_inv Hl4.
  rewrite Hl4 in Hl4'. injection Hl4' as <-.
  apply convertL7_erase, (f_equal KnoxNetworkLog.SynFlag) in Hl7. cbn in Hl7. rewrite Hl7.
  unfold plugin.isSynFlagOnly. split.
  - destruct l4 as [tcp|udp|icmp| |]; cbn; try discriminate.
    destruct (TCP.Flags tcp) as [flags|] eqn:Hf; [|discriminate].
    intros [Hsyn Hack%negb_true_iff]%andb_true_iff. by exists tcp, flags.
  - intros (tcp & flags & -> & Hf & Hsyn & Hack). cbn. by rewrite Hf, Hsyn, Hack.
Qed.

(** X4. An accepted flow names each side by the pod name of its identity
    and, when that is empty, by its IP address; the namespace of a side is
    that of its identity and, when that is empty, the first label of the
    identity that starts with ["reserved:"] (or the empty string). *)
Theorem X4_pod_and_namespace_fallback (ciliumFlow : Flow.t) (log : KnoxNetworkLog.t) :
  plugin.ConvertCiliumFlowToKnoxNetworkLog url_Parse ciliumFlow = Ret (log, true) ->
  exists source destination ip,
    Flow.Source ciliumFlow = Some source
    /\ Flow.Destination ciliumFlow = Some destination
    /\ Flow.IP ciliumFlow = Some ip
    /\ KnoxNetworkLog.SrcPodName log
       = (if String.eqb (Endpoint.PodName source) ""
          then IP.Source ip else Endpoint.PodName source)
    /\ KnoxNetworkLog.DstPodName log
       = (if String.eqb (Endpoint.PodName destination) ""
          then IP.Destination ip else Endpoint.PodName destination)
    /\ KnoxNetworkLog.SrcNamespace log
       = (if String.eqb (Endpoint.Namespace source) ""
          then plugin.getReservedLabelIfExist (Endpoint.Labels source)
          else Endpoint.Namespace source)
    /\ KnoxNetworkLog.DstNamespace log
       = (if String.eqb (Endpoint.Namespace destination) ""
          then plugin.getReservedLabelIfExist (Endpoint.Labels destination)
          else Endpoint.Namespace destination).
Proof.
  intros (source & destination & ip & l4 & Hs & Hd & Hip & _ & _ & Hl7)%Convert_ok_inv.
  apply convertL7_erase in Hl7. exists source, destination, ip. repeat split; try done.
  - apply (f_equal KnoxNetworkLog.SrcPodName) in Hl7. exact Hl7.
  - apply (f_equal KnoxNetworkLog.DstPodName) in Hl7. exact Hl7.
  - apply (f_equal KnoxNetworkLog.SrcNamespace) in Hl7. exact Hl7.
  - apply (f_equal KnoxNetworkLog.DstNamespace) in Hl7. exact Hl7.
Qed.

(** X5. A flow whose L7 record is an HTTP record of a type other than
    REQUEST (1) is never accepted. *)
Theorem X5_http_response_refused (ciliumFlow : Flow.t) (l7 : Layer7.t) (http : HTTP.t)
    (log : KnoxNetworkLog.t) :
  Flow.L7 ciliumFlow = Some l7 ->
  Layer7.GetHttp l7 = Some http ->
  Layer7.Type_ l7 <> 1 ->
  plugin.ConvertCiliumFlowToKnoxNetworkLog url_Parse ciliumFlow <> Ret (log, true).
Proof.
  intros Hl7 Hhttp Htype (source & destination & ip & l4 & _ & _ & _ & _ & _ & H)%Convert_ok_inv.
  revert H. unfold plugin.convertL7, plugin.getHTTP. rewrite Hl7. cbn [mbind option_bind].
  rewrite Hhttp. apply Z.eqb_neq in Htype. rewrite Htype. cbn. discriminate.
Qed.

(** X6. A flow whose L7 record is a DNS response (type 2) with resolved
    addresses for a name that ends in ["svc.cluster.local."] is never
    accepted. *)
Theorem X6_internal_dns_refused (ciliumFlow : Flow.t) (l7 : Layer7.t) (dns : DNS.t)
    (log : KnoxNetworkLog.t) :
  Flow.L7 ciliumFlow = Some l7 ->
  Layer7.GetDns l7 = Some dns ->
  Layer7.Type_ l7 = 2 ->
  DNS.Ips dns <> [] ->
  strings.HasSuffix (DNS.Query dns) "svc.cluster.local." = true ->
  plugin.ConvertCiliumFlowToKnoxNetworkLog url_Parse ciliumFlow <> Ret (log, true).
Proof.
  intros Hl7 Hdns Htype Hips Hsuffix
    (source & destination & ip & l4 & _ & _ & _ & _ & _ & H)%Convert_ok_inv.
  revert H. unfold plugin.convertL7. rewrite Hl7. cbn [mbind option_bind].
  assert (Hhttp : Layer7.GetHttp l7 = None).
  { unfold Layer7.GetHttp, Layer7.GetDns in *. by destruct (Layer7.Record_ l7). }
  rewrite Hhttp, Hdns, Htype, Hsuffix. cbn [mbind outcome_bind obind negb].
  destruct (DNS.Ips dns); [done|]. cbn. discriminate.
Qed.

(** X7. An accepted flow carries DNS data exactly when its L7 record is a
    DNS response (type 2) with resolved addresses: the query without its
    trailing dot, and the addresses in their order.  Otherwise the DNS name
    is empty and the address list is nil. *)
Theorem X7_dns_extraction (ciliumFlow : Flow.t) (log : KnoxNetworkLog.t) :
  plugin.ConvertCiliumFlowToKnoxNetworkLog url_Parse ciliumFlow = Ret (log, true) ->
  (forall l7 dns,
     Flow.L7 ciliumFlow = Some l7 -> Layer7.GetDns l7 = Some dns ->
     Layer7.Type_ l7 = 2 -> DNS.Ips dns <> [] ->
     KnoxNetworkLog.DNSRes log = strings.TrimSuffix (DNS.Query dns) "."
     /\ KnoxNetworkLog.DNSResIPs log = Some (DNS.Ips dns))
  /\ (KnoxNetworkLog.DNSResIPs log <> None ->
      exists l7 dns,
        Flow.L7 ciliumFlow = Some l7 /\ Layer7.GetDns l7 = Some dns
        /\ Layer7.Type_ l7 = 2 /\ DNS.Ips dns <> []).
Proof.
  intros (source & destination & ip & l4 & _ & _ & _ & _ & _ & H)%Convert_ok_inv.
  revert H. unfold plugin.convertL7.
  set (base := l34Log ciliumFlow source destination ip l4).
  assert (Hfold : forall (ips acc : list string),
             fold_left append ips (Some acc) = Some (acc ++ ips)).
  { induction ips as [|x ips IH]; intros acc; [by rewrite app_nil_r|].
    change (fold_left append ips (Some (acc ++ [x])) = Some (acc ++ x :: ips)).
    rewrite IH. by rewrite <- app_assoc. }
  destruct (Flow.L7 ciliumFlow) as [l7|] eqn:Hl7; cbn [mbind option_bind];
    [|cbn; intros [= <-]; split; [done|by intros []]].
  destruct (Layer7.GetDns l7) as [dns|] eqn:Hdns.
  - assert (Hhttp : Layer7.GetHttp l7 = None).
    { unfold Layer7.GetHttp, Layer7.GetDns in *. by destruct (Layer7.Record_ l7). }
    rewrite Hhttp. cbn [mbind outcome_bind obind negb].
    destruct (Layer7.Type_ l7 =? 2) eqn:Htype; cbn [andb].
    + destruct (DNS.Ips dns) as [|x ips] eqn:Hips; cbn [length Nat.eqb negb].
      * intros [= <-]. split; [|by intros []].
        intros l7' dns' ? ? _ Hne. by simplify_eq.
      * destruct (strings.HasSuffix _ _); [discriminate|]. intros [= <-]. split.
        -- intros l7' dns' ? ? _ _. simplify_eq.
           unfold KnoxNetworkLog.setDNS.
           cbn [KnoxNetworkLog.DNSRes KnoxNetworkLog.DNSResIPs].
           split; [done|]. rewrite Hips.
           change (append (Some []) x) with (Some [x]). apply (Hfold ips [x]).
        -- intros _. exists l7, dns. rewrite Hips. apply Z.eqb_eq in Htype. done.
    + intros [= <-]. split; [|by intros []].
      intros l7' dns' ? ? Ht. simplify_eq. by apply Z.eqb_neq in Htype.
  - destruct (Layer7.GetHttp l7) as [http|].
    + destruct (plugin.getHTTP url_Parse ciliumFlow) as [[method path]| |];
        cbn [mbind outcome_bind obind]; [|discriminate..].
      destruct (negb (negb _)); [discriminate|].
      intros [= <-]. split; [|by intros []]. intros l7' dns' ? ?. simplify_eq.
    + cbn. intros [= <-]. split; [|by intros []]. intros l7' dns' ? ?. simplify_eq.
Qed.

Lemma ReplaceFirst_leading_slashes (path : string) :
  strings.HasPrefix path "//" = true ->
  strings.ReplaceFirst path "//" "/" = strings.drop 1 path.
Proof.
  intros Hp. destruct path as [|c [|c' rest]]; try discriminate;
    cbn [strings.HasPrefix] in Hp; apply andb_true_iff in Hp as [Hc Hc']; [discriminate|].
  apply andb_true_iff in Hc' as [Hc' _]. apply Ascii.eqb_eq in Hc, Hc'. subst. reflexivity.
Qed.

(** X8. For an accepted flow whose L7 record is an HTTP request (type 1),
    the log holds the method of the request and the path of its URL, where a
    path that starts with two slashes has lost the first; method and path
    are not both empty. *)
Theorem X8_http_request_extraction (ciliumFlow : Flow.t) (l7 : Layer7.t) (http : HTTP.t)
    (path : string) (log : KnoxNetworkLog.t) :
  Flow.L7 ciliumFlow = Some l7 ->
  Layer7.GetHttp l7 = Some http ->
  Layer7.Type_ l7 = 1 ->
  url_Parse (HTTP.Url http) = Some path ->
  plugin.ConvertCiliumFlowToKnoxNetworkLog url_Parse ciliumFlow = Ret (log, true) ->
  KnoxNetworkLog.HTTPMethod log = HTTP.Method http
  /\ KnoxNetworkLog.HTTPPath log
     = (if strings.HasPrefix path "//" then strings.drop 1 path else path)
  /\ ~ (KnoxNetworkLog.HTTPMethod log = "" /\ KnoxNetworkLog.HTTPPath log = "").
Proof.
  intros Hl7 Hhttp Htype Hparse
    (source & destination & ip & l4 & _ & _ & _ & _ & _ & H)%Convert_ok_inv.
  revert H. unfold plugin.convertL7, plugin.getHTTP. rewrite Hl7. cbn [mbind option_bind].
  assert (Hdns : Layer7.GetDns l7 = None).
  { unfold Layer7.GetHttp, Layer7.GetDns in *. by destruct (Layer7.Record_ l7). }
  rewrite Hhttp, Hdns, Htype, Hparse. cbn [Z.eqb Pos.eqb deref mbind outcome_bind obind].
  assert (Hnorm : (if strings.HasPrefix path "//"
                   then strings.ReplaceFirst path "//" "/" else path)
                  = (if strings.HasPrefix path "//" then strings.drop 1 path else path)).
  { destruct (strings.HasPrefix path "//") eqn:Hp; [|done].
    by apply ReplaceFirst_leading_slashes. }
  rewrite Hnorm.
  destruct (negb (negb _)) eqn:Hboth; [discriminate|].
  intros [= <-].
  cbn [KnoxNetworkLog.HTTPMethod KnoxNetworkLog.HTTPPath KnoxNetworkLog.setHTTP].
  repeat split.
  rewrite negb_involutive in Hboth.
  apply andb_false_iff in Hboth as [H|H]; apply String.eqb_neq in H;
    intros [Hm Hp]; apply H; [exact Hm|exact Hp].
Qed.

(** X9. When the URL of an HTTP request does not parse, the convertor
    reads the path through the nil URL and panics, for a flow that it would
    otherwise have taken as far as the L7 part. *)
Theorem X9_unparsable_url_panics (ciliumFlow : Flow.t) (source destination : Endpoint.t)
    (ip : IP.t) (l4 : Layer4) (l7 : Layer7.t) (http : HTTP.t) :
  deniedByPolicy ciliumFlow = false ->
  Flow.Source ciliumFlow = Some source ->
  Flow.Destination ciliumFlow = Some destination ->
  Flow.IP ciliumFlow = Some ip ->
  Flow.L4 ciliumFlow = Some l4 ->
  Flow.L7 ciliumFlow = Some l7 ->
  Layer7.GetHttp l7 = Some http ->
  Layer7.Type_ l7 = 1 ->
  url_Parse (HTTP.Url http) = None ->
  plugin.ConvertCiliumFlowToKnoxNetworkLog url_Parse ciliumFlow = Panic.
Proof.
  intros Hden Hs Hd Hip Hl4 Hl7 Hhttp Htype Hparse.
  unfold plugin.ConvertCiliumFlowToKnoxNetworkLog. fold (deniedByPolicy ciliumFlow).
  rewrite Hden, Hs, Hd, Hip, Hl4. cbn [deref mbind outcome_bind obind].
  assert (HL7 : forall base, plugin.convertL7 url_Parse ciliumFlow base = Panic).
  { intros base. unfold plugin.convertL7, plugin.getHTTP. rewrite Hl7.
    cbn [mbind option_bind]. rewrite Hhttp, Htype, Hparse. reflexivity. }
  destruct (String.eqb (Endpoint.PodName source) "");
    destruct (String.eqb (Endpoint.PodName destination) "");
    cbn [deref mbind outcome_bind obind];
    destruct (plugin.getL4Ports l4); apply HL7.
Qed.

End ConvertorFurther.

(** X10. [getReservedLabelIfExist] returns the first label that starts
    with ["reserved:"], and the empty string when no label does. *)
Theorem X10_reserved_label (labels : list string) :
  (plugin.getReservedLabelIfExist labels = ""
   /\ Forall (fun label => strings.HasPrefix label "reserved:" = false) labels)
  \/ (exists before after,
        labels = before ++ plugin.getReservedLabelIfExist labels :: after
        /\ Forall (fun label => strings.HasPrefix label "reserved:" = false) before
        /\ strings.HasPrefix (plugin.getReservedLabelIfExist labels) "reserved:" = true).
Proof.
  induction labels as [|label rest IH]; [left; by split|].
  cbn [plugin.getReservedLabelIfExist].
  destruct (strings.HasPrefix label "reserved:") eqn:Hp.
  - right. exists [], rest. by repeat split.
  - destruct IH as [[Hnone Hall]|(before & after & Heq & Hbefore & Hres)].
    + left. split; [done|]. by apply Forall_cons.
    + right. exists (label :: before), after. repeat split; [|by apply Forall_cons|done].
      cbn. by rewrite <- Heq.
Qed.

Lemma X1_accepted_flow_has_L3_L4_witness :
  exists ip l4,
    Flow.IP Samples.tcpFlow = Some ip /\ Flow.L4 Samples.tcpFlow = Some l4
    /\ KnoxNetworkLog.SrcIP Samples.tcpLog = IP.Source ip
    /\ KnoxNetworkLog.DstIP Samples.tcpLog = IP.Destination ip
    /\ KnoxNetworkLog.Protocol Samples.tcpLog = plugin.getProtocol l4
    /\ (KnoxNetworkLog.SrcPort Samples.tcpLog, KnoxNetworkLog.DstPort Samples.tcpLog)
       = plugin.getL4Ports l4.
Proof.
  apply (X1_accepted_flow_has_L3_L4 Samples.pathOnly Samples.tcpFlow Samples.tcpLog).
  reflexivity.
Defined.

Lemma X2_action_and_direction_witness :
  KnoxNetworkLog.Action Samples.hostLog
  = (if Flow.Verdict Samples.hostFlow =? 2 then "deny" else "allow")
  /\ KnoxNetworkLog.Direction Samples.hostLog
     = TrafficDirection_String (Flow.GetTrafficDirection Samples.hostFlow)
  /\ (Flow.Verdict Samples.hostFlow = 2 -> Flow.DropReason Samples.hostFlow <> 181).
Proof.
  apply (X2_action_and_direction Samples.pathOnly Samples.hostFlow Samples.hostLog).
  reflexivity.
Defined.

Lemma X3_syn_flag_witness :
  KnoxNetworkLog.SynFlag Samples.tcpLog = true
  <-> exists tcp flags,
        L4TCP (TCP.mk 40000 443 (Some (TCPFlags.mk true false))) = L4TCP tcp
        /\ TCP.Flags tcp = Some flags
        /\ TCPFlags.SYN flags = true /\ TCPFlags.ACK flags = false.
Proof.
  apply (X3_syn_flag Samples.pathOnly Samples.tcpFlow Samples.tcpLog); reflexivity.
Defined.

Lemma X4_pod_and_namespace_fallback_witness :
  exists source destination ip,
    Flow.Source Samples.hostFlow = Some source
    /\ Flow.Destination Samples.hostFlow = Some destination
    /\ Flow.IP Samples.hostFlow = Some ip
    /\ KnoxNetworkLog.SrcPodName Samples.hostLog
       = (if String.eqb (Endpoint.PodName source) ""
          then IP.Source ip else Endpoint.PodName source)
    /\ KnoxNetworkLog.DstPodName Samples.hostLog
       = (if String.eqb (Endpoint.PodName destination) ""
          then IP.Destination ip else Endpoint.PodName destination)
    /\ KnoxNetworkLog.SrcNamespace Samples.hostLog
       = (if String.eqb (Endpoint.Namespace source) ""
          then plugin.getReservedLabelIfExist (Endpoint.Labels source)
          else Endpoint.Namespace source)
    /\ KnoxNetworkLog.DstNamespace Samples.hostLog
       = (if String.eqb (Endpoint.Namespace destination) ""
          then plugin.getReservedLabelIfExist (Endpoint.Labels destination)
          else Endpoint.Namespace destination).
Proof.
  apply (X4_pod_and_namespace_fallback Samples.pathOnly Samples.hostFlow Samples.hostLog).
  reflexivity.
Defined.

Lemma X5_http_response_refused_witness :
  plugin.ConvertCiliumFlowToKnoxNetworkLog Samples.pathOnly
    (Samples.withL7 Samples.httpResponse)
  <> Ret (Samples.tcpLog, true).
Proof.
  apply (X5_http_response_refused Samples.pathOnly (Samples.withL7 Samples.httpResponse)
           Samples.httpResponse (HTTP.mk "GET" "/api/v1")); [reflexivity..|discriminate].
Defined.

Lemma X6_internal_dns_refused_witness :
  plugin.ConvertCiliumFlowToKnoxNetworkLog Samples.pathOnly
    (Samples.withL7 Samples.dnsInternal)
  <> Ret (Samples.tcpLog, true).
Proof.
  apply (X6_internal_dns_refused Samples.pathOnly (Samples.withL7 Samples.dnsInternal)
           Samples.dnsInternal (DNS.mk "web.default.svc.cluster.local." ["10.96.0.12"]));
    [reflexivity..|discriminate|reflexivity].
Defined.

Lemma X7_dns_extraction_witness :
  (forall l7 dns,
     Flow.L7 (Samples.withL7 Samples.dnsExternal) = Some l7 -> Layer7.GetDns l7 = Some dns ->
     Layer7.Type_ l7 = 2 -> DNS.Ips dns <> [] ->
     KnoxNetworkLog.DNSRes Samples.dnsLog = strings.TrimSuffix (DNS.Query dns) "."
     /\ KnoxNetworkLog.DNSResIPs Samples.dnsLog = Some (DNS.Ips dns))
  /\ (KnoxNetworkLog.DNSResIPs Samples.dnsLog <> None ->
      exists l7 dns,
        Flow.L7 (Samples.withL7 Samples.dnsExternal) = Some l7
        /\ Layer7.GetDns l7 = Some dns
        /\ Layer7.Type_ l7 = 2 /\ DNS.Ips dns <> []).
Proof.
  apply (X7_dns_extraction Samples.pathOnly (Samples.withL7 Samples.dnsExternal)
           Samples.dnsLog).
  reflexivity.
Defined.

Lemma X8_http_request_extraction_witness :
  KnoxNetworkLog.HTTPMethod Samples.httpLog = "GET"
  /\ KnoxNetworkLog.HTTPPath Samples.httpLog
     = (if strings.HasPrefix "//api/v1" "//" then strings.drop 1 "//api/v1" else "//api/v1")
  /\ ~ (KnoxNetworkLog.HTTPMethod Samples.httpLog = ""
        /\ KnoxNetworkLog.HTTPPath Samples.httpLog = "").
Proof.
  apply (X8_http_request_extraction Samples.pathOnly (Samples.withL7 Samples.httpRequest)
           Samples.httpRequest (HTTP.mk "GET" "//api/v1") "//api/v1" Samples.httpLog);
    reflexivity.
Defined.

Lemma X9_unparsable_url_panics_witness :
  plugin.ConvertCiliumFlowToKnoxNetworkLog Samples.rejectAll
    (Samples.withL7 Samples.httpRequest)
  = Panic.
Proof.
  apply (X9_unparsable_url_panics Samples.rejectAll (Samples.withL7 Samples.httpRequest)
           (Samples.pod "a") (Samples.pod "") (IP.mk "10.0.0.4" "10.0.0.5")
           (L4TCP (TCP.mk 40000 443 (Some (TCPFlags.mk true false))))
           Samples.httpRequest (HTTP.mk "GET" "//api/v1")); reflexivity.
Defined.

Example Convert_http_and_dns_logs :
  KnoxNetworkLog.HTTPPath Samples.httpLog = "/api/v1"
  /\ KnoxNetworkLog.DNSRes Samples.dnsLog = "example.com"
  /\ KnoxNetworkLog.DNSResIPs Samples.dnsLog = Some ["93.184.216.34"]
  /\ KnoxNetworkLog.SrcNamespace Samples.hostLog = "reserved:host"
  /\ KnoxNetworkLog.SrcPodName Samples.hostLog = "10.0.0.4"
  /\ KnoxNetworkLog.Action Samples.hostLog = "deny".
Proof. repeat split. Qed.

(** ** The flow buffer, continued *)

(** X11. A call of [GetCiliumFlowsFromHubble] on a buffer that is empty or
    shorter than the threshold returns the empty list and leaves the buffer
    as it is; this holds for every threshold, negative ones included, and
    whatever the flows hold. *)
Theorem X11_drain_consumes_nothing_below_threshold (trigger : Z)
    (CiliumFlows : list Flow.t) :
  CiliumFlows = [] \/ Z.of_nat (length CiliumFlows) < trigger ->
  plugin.GetCiliumFlowsFromHubble trigger CiliumFlows = (CiliumFlows, Ret []).
Proof.
  intros [-> | Hlt]; [reflexivity|].
  unfold plugin.GetCiliumFlowsFromHubble.
  destruct (Nat.eqb (length CiliumFlows) 0); [reflexivity|].
  apply Z.ltb_lt in Hlt. by rewrite Hlt.
Qed.

Lemma X11_drain_consumes_nothing_below_threshold_witness :
  plugin.GetCiliumFlowsFromHubble 2 [Samples.noTimeFlow] = ([Samples.noTimeFlow], Ret []).
Proof.
  apply (X11_drain_consumes_nothing_below_threshold 2 [Samples.noTimeFlow]).
  right. reflexivity.
Defined.

(** X12. A call that returns never hands out a part of the buffer: either
    it returns nothing and the buffer is unchanged, or it returns the whole
    buffer, the buffer is empty afterwards and its length had reached the
    threshold. *)
Theorem X12_drain_all_or_nothing (trigger : Z) (CiliumFlows after results : list Flow.t) :
  plugin.GetCiliumFlowsFromHubble trigger CiliumFlows = (after, Ret results) ->
  (results = [] /\ after = CiliumFlows)
  \/ (results = CiliumFlows /\ after = [] /\ CiliumFlows <> []
      /\ trigger <= Z.of_nat (length CiliumFlows)).
Proof.
  unfold plugin.GetCiliumFlowsFromHubble.
  destruct CiliumFlows as [|flow rest]; [intros [= <- <-]; by left|].
  cbn [length Nat.eqb].
  destruct (Z.of_nat (S (length rest)) <? trigger) eqn:Hlt; [intros [= <- <-]; by left|].
  apply Z.ltb_ge in Hlt. intros [= <- H]. right. revert H.
  change (head (flow :: rest)) with (Some flow). cbn [deref mbind outcome_bind obind].
  destruct (last (flow :: rest)) as [lastDoc|]; cbn [deref mbind outcome_bind obind];
    [|discriminate].
  destruct (Flow.Time flow); cbn [deref mbind outcome_bind obind]; [|discriminate].
  destruct (Flow.Time lastDoc); cbn [deref mbind outcome_bind obind]; [|discriminate].
  intros [= <-]. by repeat split.
Qed.

Lemma X12_drain_all_or_nothing_witness :
  ([Samples.tcpFlow; Samples.deniedFlow] = [] /\ [] = [Samples.tcpFlow; Samples.deniedFlow])
  \/ ([Samples.tcpFlow; Samples.deniedFlow] = [Samples.tcpFlow; Samples.deniedFlow]
      /\ @nil Flow.t = []
      /\ [Samples.tcpFlow; Samples.deniedFlow] <> []
      /\ 2 <= Z.of_nat (length [Samples.tcpFlow; Samples.deniedFlow])).
Proof.
  apply (X12_drain_all_or_nothing 2 [Samples.tcpFlow; Samples.deniedFlow] []
           [Samples.tcpFlow; Samples.deniedFlow]).
  reflexivity.
Defined.

Lemma ingest_all (flows buffer : list Flow.t) :
  fold_left (fun buffer flow => plugin.ingest flow buffer) flows buffer = buffer ++ flows.
Proof.
  revert buffer. induction flows as [|flow rest IH]; intros buffer; cbn [fold_left].
  - by rewrite app_nil_r.
  - rewrite IH. unfold plugin.ingest. by rewrite <- app_assoc.
Qed.

(** X13. Flows that carry a timestamp and are appended one by one to an
    empty buffer are returned by the next call in the order of their
    arrival, once their number has reached the threshold; the call after
    that returns nothing, so that no flow is handed out twice. *)
Theorem X13_ingest_then_drain (trigger : Z) (flows : list Flow.t) :
  flows <> [] ->
  Forall (fun flow => is_Some (Flow.Time flow)) flows ->
  trigger <= Z.of_nat (length flows) ->
  let CiliumFlows := fold_left (fun buffer flow => plugin.ingest flow buffer) flows [] in
  plugin.GetCiliumFlowsFromHubble trigger CiliumFlows = ([], Ret flows)
  /\ plugin.GetCiliumFlowsFromHubble trigger
       (plugin.GetCiliumFlowsFromHubble trigger CiliumFlows).1 = ([], Ret []).
Proof.
  intros Hne Hall Hge CiliumFlows.
  assert (Hbuf : CiliumFlows = flows) by apply (ingest_all flows []).
  rewrite Hbuf.
  assert (Hdrain : plugin.GetCiliumFlowsFromHubble trigger flows = ([], Ret flows)).
  { apply drain_at_threshold; [done| |].
    - intros flow Hf. apply (proj1 (Forall_forall _ _) Hall).
      destruct flows; [done|]. injection Hf as ->. by left.
    - intros flow Hf. apply (proj1 (Forall_forall _ _) Hall).
      apply last_Some in Hf as [l' ->]. apply elem_of_app. right. by left. }
  rewrite Hdrain. split; reflexivity.
Qed.

Lemma X13_ingest_then_drain_witness :
  let CiliumFlows :=
    fold_left (fun buffer flow => plugin.ingest flow buffer)
              [Samples.tcpFlow; Samples.hostFlow; Samples.deniedFlow] [] in
  plugin.GetCiliumFlowsFromHubble 2 CiliumFlows
  = ([], Ret [Samples.tcpFlow; Samples.hostFlow; Samples.deniedFlow])
  /\ plugin.GetCiliumFlowsFromHubble 2
       (plugin.GetCiliumFlowsFromHubble 2 CiliumFlows).1 = ([], Ret []).
Proof.
  apply (X13_ingest_then_drain 2 [Samples.tcpFlow; Samples.hostFlow; Samples.deniedFlow]).
  - discriminate.
  - repeat constructor; by eexists.
  - cbn. lia.
Defined.

(** ** The policy convertor, continued *)

Lemma fold_append {A} (l acc : list A) : fold_left append l (Some acc) = Some (acc ++ l).
Proof.
  revert acc. induction l as [|x l IH]; intros acc; [by rewrite app_nil_r|].
  change (fold_left append l (Some (acc ++ [x])) = Some (acc ++ x :: l)).
  rewrite IH. by rewrite <- app_assoc.
Qed.

Lemma fold_append_map {A B} (f : A -> B) (l : list A) (acc : list B) :
  fold_left (fun s x => append s (f x)) l (Some acc) = Some (acc ++ map f l).
Proof.
  revert acc. induction l as [|x l IH]; intros acc; [by rewrite app_nil_r|].
  change (fold_left (fun s x => append s (f x)) l (Some (acc ++ [f x]))
          = Some (acc ++ f x :: map f l)).
  rewrite IH. by rewrite <- app_assoc.
Qed.

Lemma httpRules_map (https : slice SpecHTTP.t) :
  plugin.httpRules https
  = Some (map (fun http => <["method" := SpecHTTP.Method http]>
                             (<["path" := SpecHTTP.Path http]> ∅)) (elems https)).
Proof. unfold plugin.httpRules. apply (fold_append_map _ _ []). Qed.

Lemma allocWithHTTP_spec (https : slice SpecHTTP.t) :
  plugin.allocWithHTTP https = Ret (Some [CiliumPortList.mk (Some []) (httpRulesOf https)]).
Proof.
  unfold plugin.allocWithHTTP, httpRulesOf.
  destruct (Nat.ltb 0 (len https)); [|reflexivity].
  cbn. unfold plugin.setRules. cbn. by rewrite httpRules_map.
Qed.

(** The port loops: [keep] tells the entries that a loop attaches. *)
Section PortLoops.

Variable step : slice CiliumPortList.t -> SpecPort.t -> outcome (slice CiliumPortList.t).
Variable keep : SpecPort.t -> bool.
Variable rules : option (gmap string (slice (gmap string string))).

Hypothesis step_nil : forall toPort,
  step None toPort
  = if keep toPort
    then Ret (Some [CiliumPortList.mk (Some [plugin.toCiliumPort toPort]) rules])
    else Ret None.

Hypothesis step_allocated : forall ports others toPort,
  step (Some (CiliumPortList.mk (Some ports) rules :: others)) toPort
  = Ret (Some (CiliumPortList.mk
                 (Some (if keep toPort then ports ++ [plugin.toCiliumPort toPort]
                        else ports)) rules :: others)).

Lemma addPorts_allocated (toPorts : list SpecPort.t) (ports : list CiliumPort.t) :
  foldM step toPorts (Some [CiliumPortList.mk (Some ports) rules])
  = Ret (Some [CiliumPortList.mk
                 (Some (ports ++ map plugin.toCiliumPort (List.filter keep toPorts)))
                 rules]).
Proof.
  revert ports. induction toPorts as [|toPort rest IH]; intros ports.
  - cbn. by rewrite app_nil_r.
  - cbn [foldM List.filter]. rewrite step_allocated. cbn [obind]. rewrite IH.
    destruct (keep toPort); [|done]. cbn. by rewrite <- app_assoc.
Qed.

Lemma addPorts_from_portList (toPorts attached : list SpecPort.t) :
  foldM step toPorts (portList rules attached)
  = Ret (portList rules (attached ++ List.filter keep toPorts)).
Proof.
  destruct attached as [|p attached].
  - cbn [portList app]. induction toPorts as [|toPort rest IH]; [reflexivity|].
    cbn [foldM List.filter]. rewrite step_nil. destruct (keep toPort); cbn [obind]; [|exact IH].
    by rewrite addPorts_allocated.
  - cbn [portList app]. rewrite addPorts_allocated. by rewrite <- map_app.
Qed.

Lemma addPorts_from_nil (toPorts : list SpecPort.t) :
  foldM step toPorts None = Ret (portList rules (List.filter keep toPorts)).
Proof. apply (addPorts_from_portList toPorts []). Qed.

End PortLoops.

Lemma filter_all {A} (l : list A) : List.filter (fun _ => true) l = l.
Proof. induction l as [|x l IH]; cbn; [done|by rewrite IH]. Qed.

Lemma egressLabel_ports (knoxEgress : Egress.t) (toPorts : list SpecPort.t) :
  foldM (plugin.egressLabelPort knoxEgress) toPorts None
  = Ret (portList (httpRulesOf (Egress.ToHTTPs knoxEgress))
                  (List.filter hasPortNumber toPorts)).
Proof.
  apply addPorts_from_nil.
  - intros toPort. unfold plugin.egressLabelPort, hasPortNumber.
    destruct (String.eqb (SpecPort.Port toPort) ""); [reflexivity|].
    by rewrite allocWithHTTP_spec.
  - intros ports others toPort. unfold plugin.egressLabelPort, hasPortNumber.
    destruct (String.eqb (SpecPort.Port toPort) ""); reflexivity.
Qed.

Lemma egressCIDR_ports (toPorts attached : list SpecPort.t) :
  foldM plugin.egressCIDRPort toPorts (portList None attached)
  = Ret (portList None (attached ++ List.filter hasPortNumber toPorts)).
Proof.
  apply addPorts_from_portList.
  - intros toPort. unfold plugin.egressCIDRPort, hasPortNumber.
    destruct (String.eqb (SpecPort.Port toPort) ""); reflexivity.
  - intros ports others toPort. unfold plugin.egressCIDRPort, hasPortNumber.
    destruct (String.eqb (SpecPort.Port toPort) ""); reflexivity.
Qed.

Lemma egressFQDN_ports (toPorts : list SpecPort.t) :
  foldM plugin.egressFQDNPort toPorts None = Ret (portList None toPorts).
Proof.
  rewrite <- (filter_all toPorts) at 2. apply addPorts_from_nil; reflexivity.
Qed.

Lemma ingressLabel_ports (knoxIngress : Ingress.t) (toPorts : list SpecPort.t) :
  foldM (plugin.ingressLabelPort knoxIngress) toPorts None
  = Ret (portList (httpRulesOf (Ingress.ToHTTPs knoxIngress)) toPorts).
Proof.
  rewrite <- (filter_all toPorts) at 2. apply addPorts_from_nil.
  - intros toPort. unfold plugin.ingressLabelPort. by rewrite allocWithHTTP_spec.
  - reflexivity.
Qed.


(** The loop over the CIDR groups of an egress rule, lines 487-510. *)
Lemma egressCIDR_groups (toPorts : list SpecPort.t) (groups : list SpecCIDR.t)
    (toCIDRs : slice string) (attached : list SpecPort.t) :
  foldM (fun '(_, ports) toCIDR =>
           let cidrs := fold_left append (elems (SpecCIDR.CIDRs toCIDR)) (Some []) in
           ports ← foldM plugin.egressCIDRPort toPorts ports;
           Ret (cidrs, ports))
        groups (toCIDRs, portList None attached)
  = Ret (match last groups with
         | Some group => Some (elems (SpecCIDR.CIDRs group))
         | None => toCIDRs
         end,
         portList None
           (attached ++ concat (repeat (List.filter hasPortNumber toPorts) (length groups)))).
Proof.
  revert toCIDRs attached. induction groups as [|group rest IH]; intros toCIDRs attached.
  - cbn. by rewrite app_nil_r.
  - cbn [foldM]. rewrite egressCIDR_ports. cbn [mbind outcome_bind obind].
    rewrite IH, (fold_append _ []). cbn [app length repeat concat].
    rewrite <- app_assoc. destruct rest as [|group' rest]; [reflexivity|].
    change (last (group :: group' :: rest)) with (last (group' :: rest)).
    destruct (last (group' :: rest)) eqn:Hlast; [reflexivity|].
    by apply last_None in Hlast.
Qed.


(** A loop that appends one entry per round and sets a value that does
    not depend on the round. *)
Lemma foldM_collect {A B C} (body : C * slice B -> A -> outcome (C * slice B))
    (entry : A -> B) (c' : C) (l : list A) (c : C) (acc : list B) :
  (forall c acc x, body (c, acc) x = Ret (c', Some (elems acc ++ [entry x]))) ->
  foldM body l (c, Some acc)
  = Ret (match l with [] => c | _ => c' end, Some (acc ++ map entry l)).
Proof.
  intros Hbody. revert c acc. induction l as [|x l IH]; intros c acc.
  - cbn. by rewrite app_nil_r.
  - cbn [foldM]. rewrite Hbody. cbn [obind elems default from_option id].
    rewrite IH. cbn [map]. rewrite <- app_assoc. by destruct l.
Qed.

Lemma foldM_collect_slice {A B C} (body : C * slice B -> A -> outcome (C * slice B))
    (entry : A -> B) (c' : C) (l : list A) (c : C) (acc : slice B) :
  (forall c acc x, body (c, acc) x = Ret (c', Some (elems acc ++ [entry x]))) ->
  l <> [] ->
  foldM body l (c, acc) = Ret (c', Some (elems acc ++ map entry l)).
Proof.
  intros Hbody Hne. destruct l as [|x l]; [done|].
  cbn [foldM]. rewrite Hbody. cbn [obind]. rewrite (foldM_collect body entry c') by done.
  cbn [map]. rewrite <- app_assoc. by destruct l.
Qed.





(** The ports of the three sample rules, as the platform policy lists them. *)
Example egress_rule_ports :
  (exists e, plugin.convertEgress [] (Some []) Samples.labelEgress = Ret (Some [e])
             /\ CiliumPortList.Ports <$> elems (CiliumEgress.ToPorts e)
                = [Some [CiliumPort.mk "80" "TCP"; CiliumPort.mk "443" "TCP"]]
             /\ CiliumEgress.ToCIDRs e = None)
  /\ (exists e, plugin.convertEgress [] (Some []) Samples.cidrEgress = Ret (Some [e])
                /\ CiliumPortList.Ports <$> elems (CiliumEgress.ToPorts e)
                   = [Some [CiliumPort.mk "53" "UDP"; CiliumPort.mk "53" "UDP"]]
                /\ CiliumEgress.ToCIDRs e = Some ["192.168.0.0/16"]).
Proof. split; eexists; repeat split. Qed.



Example core_dns_ports :
  (CiliumPortList.Ports <$> elems (plugin.getCoreDNSEndpoint []).2
   = [Some [CiliumPort.mk "53" "UDP"]])
  /\ (CiliumPortList.Ports <$> elems (plugin.getCoreDNSEndpoint Samples.withKubeDNS).2
      = [Some [CiliumPort.mk "53" "UDP"]])
  /\ (CiliumPortList.Ports <$> elems (plugin.getCoreDNSEndpoint Samples.withoutKubeDNS).2
      = [Some []]).
Proof. repeat split. Qed.





(** *** Whole policies *)

Lemma convertEgress_length (services : list Service.t) (egress : slice CiliumEgress.t)
    (knoxEgress : Egress.t) :
  exists l, plugin.convertEgress services egress knoxEgress = Ret (Some l)
            /\ length l = (length (elems egress) + egressEntries knoxEgress)%nat.
Proof.
  unfold plugin.convertEgress, egressEntries.
  destruct (Egress.MatchLabels knoxEgress) as [labels|].
  { rewrite egressLabel_ports. eexists. split; [reflexivity|].
    rewrite length_app. reflexivity. }
  destruct (Nat.ltb 0 (len (Egress.ToCIDRs knoxEgress))).
  { change (@None (list CiliumPortList.t)) with (portList None []) at 1.
    rewrite egressCIDR_groups. eexists. split; [reflexivity|].
    rewrite length_app. reflexivity. }
  destruct (Nat.ltb 0 (len (Egress.ToEndtities knoxEgress))).
  { eexists. split; [reflexivity|]. rewrite length_app. reflexivity. }
  destruct (Nat.ltb 0 (len (Egress.ToServices knoxEgress))).
  { eexists. split; [reflexivity|]. rewrite length_app. reflexivity. }
  destruct (Nat.ltb 0 (len (Egress.ToFQDNs knoxEgress))) eqn:Hf.
  - rewrite (foldM_collect_slice _
               (fun fqdn =>
                  CiliumEgress.mk None (portList None (elems (Egress.ToPorts knoxEgress)))
                    None None None
                    (Some (map (fun matchName =>
                                  ({["matchName" := matchName]} : gmap string string))
                               (elems (SpecFQDN.MatchNames fqdn)))))
               (CiliumEgress.mk (plugin.getCoreDNSEndpoint services).1
                                (plugin.getCoreDNSEndpoint services).2 None None None None)).
    + eexists. split; [reflexivity|].
      cbn [elems default from_option id]. rewrite !length_app, length_map.
      unfold len. cbn [length]. lia.
    + intros c acc fqdn.
      destruct (plugin.getCoreDNSEndpoint services) as [toEndpoints dnsPorts].
      rewrite egressFQDN_ports. cbn [mbind outcome_bind obind].
      by rewrite (fold_append_map _ _ []).
    + apply Nat.ltb_lt in Hf. unfold len in Hf. intros Hnil. rewrite Hnil in Hf.
      cbn in Hf. lia.
  - eexists. split; [reflexivity|]. rewrite length_app.
    apply Nat.ltb_ge in Hf. cbn [length]. lia.
Qed.

Lemma convertEgress_all (services : list Service.t) (knoxEgresses : list Egress.t)
    (egress : list CiliumEgress.t) :
  exists l, foldM (plugin.convertEgress services) knoxEgresses (Some egress) = Ret (Some l)
            /\ length l = (length egress + sum_list (map egressEntries knoxEgresses))%nat.
Proof.
  revert egress. induction knoxEgresses as [|knoxEgress rest IH]; intros egress.
  - exists egress. split; [reflexivity|]. cbn. lia.
  - cbn [foldM].
    destruct (convertEgress_length services (Some egress) knoxEgress) as (l & -> & Hl).
    cbn [obind]. destruct (IH l) as (l' & -> & Hl'). exists l'. split; [reflexivity|].
    cbn [map sum_list sum_list_with elems default from_option id] in *. lia.
Qed.

Lemma convertIngress_length (ingress : slice CiliumIngress.t) (knoxIngress : Ingress.t) :
  exists l, plugin.convertIngress ingress knoxIngress = Ret (Some l)
            /\ length l = S (length (elems ingress)).
Proof.
  unfold plugin.convertIngress.
  destruct (Ingress.MatchLabels knoxIngress) as [labels|].
  - rewrite ingressLabel_ports. eexists. split; [reflexivity|].
    rewrite length_app. cbn. lia.
  - eexists. split; [reflexivity|]. rewrite length_app. cbn. lia.
Qed.

Lemma convertIngress_all (knoxIngresses : list Ingress.t) (ingress : list CiliumIngress.t) :
  exists l, foldM plugin.convertIngress knoxIngresses (Some ingress) = Ret (Some l)
            /\ length l = (length ingress + length knoxIngresses)%nat.
Proof.
  revert ingress. induction knoxIngresses as [|knoxIngress rest IH]; intros ingress.
  - exists ingress. split; [reflexivity|]. cbn. lia.
  - cbn [foldM].
    destruct (convertIngress_length (Some ingress) knoxIngress) as (l & -> & Hl).
    cbn [obind]. destruct (IH l) as (l' & -> & Hl'). exists l'. split; [reflexivity|].
    cbn [length elems default from_option id] in *. lia.
Qed.

(** X19. The conversion of a policy never panics, whatever the policy and
    the service catalog.  The platform policy has the API version
    ["cilium.io/v2"], the kind ["CiliumNetworkPolicy"] and the match labels
    of the selector of the policy.  Its ingress list has one entry per
    ingress rule; its egress list has one entry per egress rule and, for a
    rule of the FQDN shape, one more per FQDN group; a list is nil exactly
    when the policy has no rule of that direction. *)
Theorem X19_conversion_total_and_counts (order : list (string * string))
    (services : list Service.t) (inPolicy : KnoxNetworkPolicy.t) :
  exists out,
    plugin.ConvertKnoxNetworkPolicyToCiliumPolicy order services inPolicy = Ret out
    /\ CiliumNetworkPolicy.APIVersion out = "cilium.io/v2"
    /\ CiliumNetworkPolicy.Kind out = "CiliumNetworkPolicy"
    /\ Selector.MatchLabels (CiliumSpec.Selector (CiliumNetworkPolicy.Spec out))
       = Selector.MatchLabels (Spec.Selector (KnoxNetworkPolicy.Spec inPolicy))
    /\ length (elems (CiliumSpec.Ingress (CiliumNetworkPolicy.Spec out)))
       = len (Spec.Ingress (KnoxNetworkPolicy.Spec inPolicy))
    /\ length (elems (CiliumSpec.Egress (CiliumNetworkPolicy.Spec out)))
       = sum_list (map egressEntries (elems (Spec.Egress (KnoxNetworkPolicy.Spec inPolicy))))
    /\ (CiliumSpec.Ingress (CiliumNetworkPolicy.Spec out) = None
        <-> len (Spec.Ingress (KnoxNetworkPolicy.Spec inPolicy)) = 0%nat)
    /\ (CiliumSpec.Egress (CiliumNetworkPolicy.Spec out) = None
        <-> len (Spec.Egress (KnoxNetworkPolicy.Spec inPolicy)) = 0%nat).
Proof.
  unfold plugin.ConvertKnoxNetworkPolicyToCiliumPolicy, plugin.buildNewCiliumNetworkPolicy.
  cbn [CiliumNetworkPolicy.APIVersion CiliumNetworkPolicy.Kind CiliumNetworkPolicy.Metadata
       CiliumNetworkPolicy.Spec CiliumSpec.Selector].
  set (spec := KnoxNetworkPolicy.Spec inPolicy). unfold len.
  destruct (convertEgress_all services (elems (Spec.Egress spec)) []) as (eg & Heg & Hleg).
  destruct (convertIngress_all (elems (Spec.Ingress spec)) []) as (ig & Hig & Hlig).
  destruct (elems (Spec.Egress spec)) as [|e es] eqn:He;
    destruct (elems (Spec.Ingress spec)) as [|i is_] eqn:Hi;
    cbn [length Nat.ltb Nat.leb mbind outcome_bind obind];
    try rewrite Heg; try rewrite Hig; cbn [mbind outcome_bind obind];
    eexists; (split; [reflexivity|]);
    cbn [CiliumNetworkPolicy.APIVersion CiliumNetworkPolicy.Kind CiliumNetworkPolicy.Spec
         CiliumSpec.Selector CiliumSpec.Egress CiliumSpec.Ingress Selector.MatchLabels
         elems default from_option id];
    cbn [length] in Hleg, Hlig; repeat split; try done; try lia.
Qed.

Lemma convertFrom_spec (orders : nat -> list (string * string)) (services : list Service.t)
    (policies : list KnoxNetworkPolicy.t) (i : nat) (done_ : list CiliumNetworkPolicy.t) :
  exists outs,
    plugin.convertFrom orders services i policies done_ = Ret (done_ ++ outs)
    /\ length outs = length policies
    /\ forall k policy,
         policies !! k = Some policy ->
         exists out,
           outs !! k = Some out
           /\ plugin.ConvertKnoxNetworkPolicyToCiliumPolicy (orders (i + k)%nat) services policy
              = Ret out.
Proof.
  revert i done_. induction policies as [|policy rest IH]; intros i done_.
  - exists []. repeat split; [cbn; by rewrite app_nil_r|]. intros k p Hk. done.
  - cbn [plugin.convertFrom].
    destruct (Convert_total (orders i) services policy) as (egress & ingress & Hout & _).
    rewrite Hout. cbn [mbind outcome_bind obind].
    destruct (IH (S i) (done_ ++ [CiliumNetworkPolicy.mk "cilium.io/v2" "CiliumNetworkPolicy"
                                    (Some (fold_left plugin.copyMeta (orders i) ∅))
                                    (CiliumSpec.mk
                                       (Selector.mk (Selector.MatchLabels
                                          (Spec.Selector (KnoxNetworkPolicy.Spec policy))))
                                       egress ingress)]))
      as (outs & Hrest & Hlen & Hnth).
    eexists (_ :: outs). rewrite Hrest, <- app_assoc. repeat split; [cbn; lia|].
    intros [|k] p Hk.
    + injection Hk as <-. eexists. split; [reflexivity|]. by rewrite Nat.add_0_r.
    + destruct (Hnth k p Hk) as (out & Hout' & Hconv). exists out. split; [done|].
      by rewrite Nat.add_succ_r.
Qed.

(** X20. [ConvertKnoxPoliciesToCiliumPolicies] never panics and returns one
    platform policy per canonical policy, in the same order: the policy at
    position [k] is the conversion of the canonical policy at position
    [k]. *)
Theorem X20_batch_conversion (orders : nat -> list (string * string))
    (services : list Service.t) (policies : list KnoxNetworkPolicy.t) :
  exists outs,
    plugin.ConvertKnoxPoliciesToCiliumPolicies orders services policies = Ret outs
    /\ length outs = length policies
    /\ forall k policy,
         policies !! k = Some policy ->
         exists out,
           outs !! k = Some out
           /\ plugin.ConvertKnoxNetworkPolicyToCiliumPolicy (orders k) services policy = Ret out.
Proof.
  destruct (convertFrom_spec orders services policies 0 []) as (outs & Hrun & Hlen & Hnth).
  exists outs. repeat split; done.
Qed.

(** *** The enumeration tables *)



(** ** The deduplicator, continued *)

(** The four tests of lines 19-22 and 50-53, on the rule tag [tag]. *)
Lemma lookup_found_tests (tag : string) (exist_ policy : KnoxNetworkPolicy.t) :
  bool_decide (Spec.Selector (KnoxNetworkPolicy.Spec exist_)
               = Spec.Selector (KnoxNetworkPolicy.Spec policy))
  && String.eqb (KnoxNetworkPolicy.meta exist_ "type") (KnoxNetworkPolicy.meta policy "type")
  && strings.Contains (KnoxNetworkPolicy.meta exist_ "rule") tag
  && String.eqb (KnoxNetworkPolicy.meta exist_ "status") "latest" = true ->
  Spec.Selector (KnoxNetworkPolicy.Spec exist_) = Spec.Selector (KnoxNetworkPolicy.Spec policy)
  /\ KnoxNetworkPolicy.meta exist_ "type" = KnoxNetworkPolicy.meta policy "type"
  /\ strings.Contains (KnoxNetworkPolicy.meta exist_ "rule") tag = true
  /\ KnoxNetworkPolicy.meta exist_ "status" = "latest".
Proof.
  rewrite !andb_true_iff, bool_decide_eq_true, !String.eqb_eq. tauto.
Qed.

Lemma GetLatestCIDRs_found (existingPolicies : list KnoxNetworkPolicy.t)
    (policy latest : KnoxNetworkPolicy.t) :
  core.GetLatestCIDRs existingPolicies policy = Ret (latest, true) ->
  latest ∈ existingPolicies
  /\ Spec.Selector (KnoxNetworkPolicy.Spec latest) = Spec.Selector (KnoxNetworkPolicy.Spec policy)
  /\ KnoxNetworkPolicy.meta latest "type" = KnoxNetworkPolicy.meta policy "type"
  /\ strings.Contains (KnoxNetworkPolicy.meta latest "rule") "toCIDRs" = true
  /\ KnoxNetworkPolicy.meta latest "status" = "latest".
Proof.
  induction existingPolicies as [|exist_ rest IH]; [discriminate|].
  cbn [core.GetLatestCIDRs].
  destruct (_ && _) eqn:Htests.
  - destruct (index0 _) as [egress0| |]; [|discriminate..]. cbn [mbind outcome_bind obind].
    destruct (index0 _) as [toCIDRs0| |]; [|discriminate..]. cbn [mbind outcome_bind obind].
    destruct (core.selfIncluded _).
    + intros [= <-]. split; [by left|]. by apply lookup_found_tests.
    + intros H. destruct (IH H) as [Hin Hrest]. split; [by right|done].
  - intros H. destruct (IH H) as [Hin Hrest]. split; [by right|done].
Qed.

Lemma GetLastedFQDNs_found (existingPolicies : list KnoxNetworkPolicy.t)
    (policy latest : KnoxNetworkPolicy.t) :
  core.GetLastedFQDNs existingPolicies policy = Ret (latest, true) ->
  latest ∈ existingPolicies
  /\ Spec.Selector (KnoxNetworkPolicy.Spec latest) = Spec.Selector (KnoxNetworkPolicy.Spec policy)
  /\ KnoxNetworkPolicy.meta latest "type" = KnoxNetworkPolicy.meta policy "type"
  /\ strings.Contains (KnoxNetworkPolicy.meta latest "rule") "toFQDNs" = true
  /\ KnoxNetworkPolicy.meta latest "status" = "latest".
Proof.
  induction existingPolicies as [|exist_ rest IH]; [discriminate|].
  cbn [core.GetLastedFQDNs].
  destruct (_ && _) eqn:Htests.
  - destruct (index0 _) as [egress0| |]; [|discriminate..]. cbn [mbind outcome_bind obind].
    destruct (index0 _) as [toFQDNs0| |]; [|discriminate..]. cbn [mbind outcome_bind obind].
    destruct (core.selfIncluded _).
    + intros [= <-]. split; [by left|]. by apply lookup_found_tests.
    + intros H. destruct (IH H) as [Hin Hrest]. split; [by right|done].
  - intros H. destruct (IH H) as [Hin Hrest]. split; [by right|done].
Qed.

(** X22. A policy that [GetLatestCIDRs] (or [GetLastedFQDNs]) returns as
    found is one of the existing policies; it has the selector and the type
    of the discovered policy, a rule tag that contains ["toCIDRs"] (or
    ["toFQDNs"]) and the status ["latest"]. *)
Theorem X22_lookup_found (lookup : list KnoxNetworkPolicy.t -> KnoxNetworkPolicy.t ->
                                   outcome (KnoxNetworkPolicy.t * bool))
    (tag : string) (existingPolicies : list KnoxNetworkPolicy.t)
    (policy latest : KnoxNetworkPolicy.t) :
  (lookup = core.GetLatestCIDRs /\ tag = "toCIDRs")
  \/ (lookup = core.GetLastedFQDNs /\ tag = "toFQDNs") ->
  lookup existingPolicies policy = Ret (latest, true) ->
  latest ∈ existingPolicies
  /\ Spec.Selector (KnoxNetworkPolicy.Spec latest) = Spec.Selector (KnoxNetworkPolicy.Spec policy)
  /\ KnoxNetworkPolicy.meta latest "type" = KnoxNetworkPolicy.meta policy "type"
  /\ strings.Contains (KnoxNetworkPolicy.meta latest "rule") tag = true
  /\ KnoxNetworkPolicy.meta latest "status" = "latest".
Proof.
  intros [[-> ->] | [-> ->]]; [apply GetLatestCIDRs_found|apply GetLastedFQDNs_found].
Qed.

(** X24. The merge of lines 89-94 keeps the ports of the discovered policy
    as they are and in their order, and appends those ports of the existing
    policy that the list does not hold yet, each once. *)
Theorem X24_merge_ports (toPorts latest : slice SpecPort.t) :
  exists added,
    elems (core.mergePorts toPorts latest) = elems toPorts ++ added
    /\ NoDup added
    /\ forall port, port ∈ added <-> port ∈ elems latest /\ port ∉ elems toPorts.
Proof.
  unfold core.mergePorts, libs.ContainsElement.
  generalize (elems latest) as l. intros l. revert toPorts.
  induction l as [|x l IH]; intros toPorts.
  - exists []. cbn. rewrite app_nil_r. split; [done|]. split; [constructor|].
    intros port. rewrite !elem_of_nil. tauto.
  - cbn [fold_left]. case_bool_decide as Hx; cbn [negb].
    + destruct (IH toPorts) as (added & Heq & Hnd & Hadded). exists added.
      split; [done|]. split; [done|]. intros port. rewrite Hadded, elem_of_cons.
      split; [tauto|]. intros [[-> | Hin] Hout]; [done|tauto].
    + destruct (IH (append toPorts x)) as (added & Heq & Hnd & Hadded).
      rewrite elems_append in Heq, Hadded. exists (x :: added).
      rewrite Heq, <- app_assoc. split; [done|]. split.
      * apply NoDup_cons. split; [|done]. intros [_ Hout]%Hadded.
        apply Hout, elem_of_app. right. by left.
      * intros port. rewrite !elem_of_cons, Hadded, elem_of_app, list_elem_of_singleton.
        destruct (decide (port = x)) as [->|Hne]; tauto.
Qed.

Lemma X22_lookup_found_witness :
  Samples.cidrPolicy "autopol-egress-old" "latest" ["10.0.0.1/32"] (Some [Samples.tcp80])
  ∈ [Samples.cidrPolicy "autopol-egress-old" "latest" ["10.0.0.1/32"] (Some [Samples.tcp80])]
  /\ Spec.Selector (KnoxNetworkPolicy.Spec
       (Samples.cidrPolicy "autopol-egress-old" "latest" ["10.0.0.1/32"] (Some [Samples.tcp80])))
     = Spec.Selector (KnoxNetworkPolicy.Spec
         (Samples.cidrPolicy "autopol-egress-new" "latest" ["10.0.0.2/32"] (Some [Samples.tcp443])))
  /\ KnoxNetworkPolicy.meta
       (Samples.cidrPolicy "autopol-egress-old" "latest" ["10.0.0.1/32"] (Some [Samples.tcp80]))
       "type"
     = KnoxNetworkPolicy.meta
         (Samples.cidrPolicy "autopol-egress-new" "latest" ["10.0.0.2/32"] (Some [Samples.tcp443]))
         "type"
  /\ strings.Contains
       (KnoxNetworkPolicy.meta
          (Samples.cidrPolicy "autopol-egress-old" "latest" ["10.0.0.1/32"] (Some [Samples.tcp80]))
          "rule") "toCIDRs" = true
  /\ KnoxNetworkPolicy.meta
       (Samples.cidrPolicy "autopol-egress-old" "latest" ["10.0.0.1/32"] (Some [Samples.tcp80]))
       "status" = "latest".
Proof.
  apply (X22_lookup_found core.GetLatestCIDRs "toCIDRs"
           [Samples.cidrPolicy "autopol-egress-old" "latest" ["10.0.0.1/32"]
              (Some [Samples.tcp80])]
           (Samples.cidrPolicy "autopol-egress-new" "latest" ["10.0.0.2/32"]
              (Some [Samples.tcp443]))).
  - left. split; reflexivity.
  - vm_compute. reflexivity.
Defined.

(** *** What [UpdateCIDR] and [UpdateFQDN] change *)

Lemma updateWith_frame (lookup : list KnoxNetworkPolicy.t -> KnoxNetworkPolicy.t ->
                                   outcome (KnoxNetworkPolicy.t * bool))
    (policy policy' : KnoxNetworkPolicy.t) (existingPolicies : list KnoxNetworkPolicy.t)
    (valid : bool) (w w' : libs.World) :
  (forall latest, lookup existingPolicies policy = Ret (latest, true) ->
                  latest ∈ existingPolicies) ->
  core.updateWith lookup policy existingPolicies w = Ret ((policy', valid), w') ->
  KnoxNetworkPolicy.Metadata policy' = KnoxNetworkPolicy.Metadata policy
  /\ Spec.Selector (KnoxNetworkPolicy.Spec policy') = Spec.Selector (KnoxNetworkPolicy.Spec policy)
  /\ Spec.Ingress (KnoxNetworkPolicy.Spec policy') = Spec.Ingress (KnoxNetworkPolicy.Spec policy)
  /\ (policy' = policy
      \/ exists egress0 egresses toPorts,
           Spec.Egress (KnoxNetworkPolicy.Spec policy) = Some (egress0 :: egresses)
           /\ Spec.Egress (KnoxNetworkPolicy.Spec policy')
              = Some (Egress.setToPorts egress0 toPorts :: egresses)
           /\ forall port, port ∈ elems (Egress.ToPorts egress0) -> port ∈ elems toPorts)
  /\ libs.rand w' = libs.rand w /\ libs.next w' = libs.next w
  /\ (libs.outdated w' = libs.outdated w
      \/ valid = true
         /\ exists latest,
              latest ∈ existingPolicies
              /\ libs.outdated w'
                 = libs.outdated w ++ [(KnoxNetworkPolicy.meta latest "name",
                                         KnoxNetworkPolicy.meta policy "name")])
  /\ (valid = false -> policy' = policy /\ w' = w).
Proof.
  intros Hlookup. unfold core.updateWith.
  destruct (String.eqb (KnoxNetworkPolicy.meta policy "type") "egress");
    [|intros [[= -> ->] ->]%ret_Ret; repeat split; try done; by left].
  intros ([latest found] & w1 & [Hfound ->]%lift_Ret & Hrun)%bind_Ret.
  destruct found; cbn [negb] in Hrun;
    [|apply ret_Ret in Hrun as [[= -> ->] ->]; repeat split; try done; by left].
  apply bind_Ret in Hrun as (policyEgress0 & w2 & [Hpe ->]%lift_Ret & Hrun).
  apply bind_Ret in Hrun as (latestEgress0 & w3 & [Hle ->]%lift_Ret & Hrun).
  destruct (_ && _);
    [apply ret_Ret in Hrun as [[= -> ->] ->]; repeat split; try done; by left|].
  apply bind_Ret in Hrun as ([] & w4 & Hmark & Hrun).
  apply bind_Ret in Hrun as (merged & w5 & [Hset ->]%lift_Ret & [[= -> ->] ->]%ret_Ret).
  injection Hmark as <-.
  unfold core.setEgress0ToPorts in Hset.
  destruct (Spec.Egress (KnoxNetworkPolicy.Spec policy)) as [[|egress0 egresses]|] eqn:He;
    try discriminate.
  injection Hpe as <-. cbn in Hset. injection Hset as <-.
  cbn. repeat split; try done.
  - right. exists egress0, egresses, (core.mergePorts (Egress.ToPorts egress0)
                                                      (Egress.ToPorts latestEgress0)).
    repeat split. intros port Hin. apply mergePorts_elem. by left.
  - right. split; [done|]. exists latest. split; [by apply Hlookup|done].
Qed.

(** X25. [UpdateCIDR] and [UpdateFQDN] leave the metadata, the selector,
    the ingress rules and all egress rules but the first as they are; in
    the first egress rule they change the port list only, and every port
    of the discovered policy stays in it.  They mark at most one policy
    outdated, an existing one, in favour of the name of the discovered
    policy, and only when they accept the discovered policy; a policy that
    they refuse is returned unchanged, with nothing marked. *)
Theorem X25_update_frame (update : KnoxNetworkPolicy.t -> list KnoxNetworkPolicy.t ->
                                   libs.M (KnoxNetworkPolicy.t * bool))
    (policy policy' : KnoxNetworkPolicy.t) (existingPolicies : list KnoxNetworkPolicy.t)
    (valid : bool) (w w' : libs.World) :
  update = core.UpdateCIDR \/ update = core.UpdateFQDN ->
  update policy existingPolicies w = Ret ((policy', valid), w') ->
  KnoxNetworkPolicy.Metadata policy' = KnoxNetworkPolicy.Metadata policy
  /\ Spec.Selector (KnoxNetworkPolicy.Spec policy') = Spec.Selector (KnoxNetworkPolicy.Spec policy)
  /\ Spec.Ingress (KnoxNetworkPolicy.Spec policy') = Spec.Ingress (KnoxNetworkPolicy.Spec policy)
  /\ (policy' = policy
      \/ exists egress0 egresses toPorts,
           Spec.Egress (KnoxNetworkPolicy.Spec policy) = Some (egress0 :: egresses)
           /\ Spec.Egress (KnoxNetworkPolicy.Spec policy')
              = Some (Egress.setToPorts egress0 toPorts :: egresses)
           /\ forall port, port ∈ elems (Egress.ToPorts egress0) -> port ∈ elems toPorts)
  /\ libs.rand w' = libs.rand w /\ libs.next w' = libs.next w
  /\ (libs.outdated w' = libs.outdated w
      \/ valid = true
         /\ exists latest,
              latest ∈ existingPolicies
              /\ libs.outdated w'
                 = libs.outdated w ++ [(KnoxNetworkPolicy.meta latest "name",
                                         KnoxNetworkPolicy.meta policy "name")])
  /\ (valid = false -> policy' = policy /\ w' = w).
Proof.
  intros [-> | ->]; apply updateWith_frame; intros latest H.
  - by apply GetLatestCIDRs_found in H as [? _].
  - by apply GetLastedFQDNs_found in H as [? _].
Qed.

Lemma X25_update_frame_witness :
  KnoxNetworkPolicy.Metadata Samples.mergedPolicy
  = KnoxNetworkPolicy.Metadata
      (Samples.cidrPolicy "autopol-egress-new" "latest" ["10.0.0.5/32"] (Some [Samples.tcp443]))
  /\ Spec.Selector (KnoxNetworkPolicy.Spec Samples.mergedPolicy)
     = Spec.Selector (KnoxNetworkPolicy.Spec
         (Samples.cidrPolicy "autopol-egress-new" "latest" ["10.0.0.5/32"] (Some [Samples.tcp443])))
  /\ Spec.Ingress (KnoxNetworkPolicy.Spec Samples.mergedPolicy)
     = Spec.Ingress (KnoxNetworkPolicy.Spec
         (Samples.cidrPolicy "autopol-egress-new" "latest" ["10.0.0.5/32"] (Some [Samples.tcp443])))
  /\ (Samples.mergedPolicy
      = Samples.cidrPolicy "autopol-egress-new" "latest" ["10.0.0.5/32"] (Some [Samples.tcp443])
      \/ exists egress0 egresses toPorts,
           Spec.Egress (KnoxNetworkPolicy.Spec
             (Samples.cidrPolicy "autopol-egress-new" "latest" ["10.0.0.5/32"]
                (Some [Samples.tcp443])))
           = Some (egress0 :: egresses)
           /\ Spec.Egress (KnoxNetworkPolicy.Spec Samples.mergedPolicy)
              = Some (Egress.setToPorts egress0 toPorts :: egresses)
           /\ forall port, port ∈ elems (Egress.ToPorts egress0) -> port ∈ elems toPorts)
  /\ libs.rand Samples.markedWorld = libs.rand Samples.world0
  /\ libs.next Samples.markedWorld = libs.next Samples.world0
  /\ (libs.outdated Samples.markedWorld = libs.outdated Samples.world0
      \/ true = true
         /\ exists latest,
              latest ∈ [Samples.cidrPolicy "autopol-egress-old" "latest" ["10.0.0.5/32"]
                          (Some [Samples.tcp80])]
              /\ libs.outdated Samples.markedWorld
                 = libs.outdated Samples.world0
                   ++ [(KnoxNetworkPolicy.meta latest "name",
                        KnoxNetworkPolicy.meta
                          (Samples.cidrPolicy "autopol-egress-new" "latest" ["10.0.0.5/32"]
                             (Some [Samples.tcp443])) "name")])
  /\ (true = false ->
      Samples.mergedPolicy
      = Samples.cidrPolicy "autopol-egress-new" "latest" ["10.0.0.5/32"] (Some [Samples.tcp443])
      /\ Samples.markedWorld = Samples.world0).
Proof.
  apply (X25_update_frame core.UpdateCIDR
           (Samples.cidrPolicy "autopol-egress-new" "latest" ["10.0.0.5/32"]
              (Some [Samples.tcp443]))
           Samples.mergedPolicy
           [Samples.cidrPolicy "autopol-egress-old" "latest" ["10.0.0.5/32"]
              (Some [Samples.tcp80])]
           true Samples.world0 Samples.markedWorld).
  - by left.
  - vm_compute. reflexivity.
Defined.

(** *** Renaming *)

Lemma freshName_result (fuel : nat) (existNames : list string) (name n : string)
    (w w' : libs.World) :
  core.freshName fuel existNames name w = Ret (n, w') ->
  libs.outdated w' = libs.outdated w
  /\ libs.rand w' = libs.rand w
  /\ (n = name /\ w' = w
      \/ name ∈ existNames /\ exists suffix, n = String.append (prefixOf name) suffix).
Proof.
  revert name w. induction fuel as [|fuel IH]; intros name w;
    destruct (decide (name ∈ existNames)) as [Hin|Hout];
    try (rewrite freshName_keeps by done; intros [= -> ->]; repeat split; by left).
  - cbn. unfold libs.ContainsElement. by rewrite bool_decide_eq_true_2.
  - rewrite freshName_round by done. intros (Ho & Hr & Hn)%IH.
    cbn [libs.outdated libs.rand] in Ho, Hr. repeat split; [done..|]. right.
    split; [done|]. destruct Hn as [[-> _] | [_ [suffix ->]]]; [by eexists|].
    rewrite prefixOf_append. by eexists.
Qed.

(** X26. When [ReplaceDuplcatedName] returns, the policy had a metadata
    map; the returned policy has the same spec and the same metadata but
    for the entry ["name"].  A name that no existing policy bears is kept,
    and no random suffix is drawn.  A name that collides is replaced by
    ["autopol-egress"] followed by a suffix when it starts with
    ["autopol-egress"], and by ["autopol-ingress"] followed by a suffix
    otherwise, whatever the type of the policy.  No policy is marked
    outdated. *)
Theorem X26_rename_frame (fuel : nat) (existingPolicies : list KnoxNetworkPolicy.t)
    (policy policy' : KnoxNetworkPolicy.t) (w w' : libs.World) :
  core.ReplaceDuplcatedName fuel existingPolicies policy w = Ret (policy', w') ->
  KnoxNetworkPolicy.Spec policy' = KnoxNetworkPolicy.Spec policy
  /\ (exists md,
        KnoxNetworkPolicy.Metadata policy = Some md
        /\ KnoxNetworkPolicy.Metadata policy'
           = Some (<["name" := KnoxNetworkPolicy.meta policy' "name"]> md))
  /\ (KnoxNetworkPolicy.meta policy "name" ∉ names existingPolicies ->
      KnoxNetworkPolicy.meta policy' "name" = KnoxNetworkPolicy.meta policy "name" /\ w' = w)
  /\ (KnoxNetworkPolicy.meta policy "name" ∈ names existingPolicies ->
      exists suffix,
        KnoxNetworkPolicy.meta policy' "name"
        = String.append (prefixOf (KnoxNetworkPolicy.meta policy "name")) suffix)
  /\ libs.outdated w' = libs.outdated w.
Proof.
  unfold core.ReplaceDuplcatedName.
  intros (n & w1 & Hfresh & [Hset ->]%lift_Ret)%bind_Ret.
  pose proof (setName_meta _ _ _ Hset) as Hname.
  unfold core.setName in Hset.
  destruct (KnoxNetworkPolicy.Metadata policy) as [md|] eqn:Hmd; [|discriminate].
  injection Hset as <-. cbn [KnoxNetworkPolicy.Spec KnoxNetworkPolicy.Metadata].
  fold (names existingPolicies) in Hfresh.
  pose proof (freshName_result _ _ _ _ _ _ Hfresh) as (Ho & _ & Hn).
  split; [done|]. split; [exists md; by rewrite Hname|]. rewrite Hname. repeat split.
  - destruct Hn as [[-> _] | [Hin _]]; done.
  - destruct Hn as [[_ ->] | [Hin _]]; done.
  - intros Hin. destruct Hn as [[-> _] | [_ Hs]]; [|done].
    by apply freshName_fresh in Hfresh.
  - done.
Qed.

(** X27. [ReplaceDuplcatedName] returns for every policy that has a
    metadata map, within one round of its loop more than there are existing
    policies, when the source of randomness never gives the same suffix
    twice. *)
Theorem X27_rename_returns (existingPolicies : list KnoxNetworkPolicy.t)
    (policy : KnoxNetworkPolicy.t) (md : gmap string string) (w : libs.World) :
  (forall i j, libs.rand w i = libs.rand w j -> i = j) ->
  KnoxNetworkPolicy.Metadata policy = Some md ->
  exists policy' w',
    core.ReplaceDuplcatedName (S (length existingPolicies)) existingPolicies policy w
    = Ret (policy', w').
Proof.
  intros Hinj Hmd. unfold core.ReplaceDuplcatedName, libs.bind.
  destruct (freshName_returns (map (fun p => KnoxNetworkPolicy.meta p "name") existingPolicies)
              (KnoxNetworkPolicy.meta policy "name") w Hinj) as (n & w' & Hn).
  rewrite length_map in Hn. rewrite Hn. unfold core.setName. rewrite Hmd. cbn. eauto.
Qed.

Lemma world0_never_repeats (i j : nat) :
  libs.rand Samples.world0 i = libs.rand Samples.world0 j -> i = j.
Proof. cbn. apply (inj pretty). Qed.

Lemma X27_rename_returns_witness :
  exists policy' w',
    core.ReplaceDuplcatedName 2
      [Samples.cidrPolicy "autopol-egress-x" "latest" ["10.0.0.5/32"] None]
      (Samples.cidrPolicy "autopol-egress-x" "latest" ["10.0.0.9/32"] None) Samples.world0
    = Ret (policy', w').
Proof.
  apply (X27_rename_returns
           [Samples.cidrPolicy "autopol-egress-x" "latest" ["10.0.0.5/32"] None]
           (Samples.cidrPolicy "autopol-egress-x" "latest" ["10.0.0.9/32"] None)
           (default ∅ (KnoxNetworkPolicy.Metadata
              (Samples.cidrPolicy "autopol-egress-x" "latest" ["10.0.0.9/32"] None)))
           Samples.world0).
  - exact world0_never_repeats.
  - reflexivity.
Defined.

Lemma X26_rename_frame_witness :
  KnoxNetworkPolicy.Spec Samples.renamedPolicy = KnoxNetworkPolicy.Spec Samples.collidingPolicy
  /\ (exists md,
        KnoxNetworkPolicy.Metadata Samples.collidingPolicy = Some md
        /\ KnoxNetworkPolicy.Metadata Samples.renamedPolicy
           = Some (<["name" := KnoxNetworkPolicy.meta Samples.renamedPolicy "name"]> md))
  /\ (KnoxNetworkPolicy.meta Samples.collidingPolicy "name"
      ∉ names [Samples.cidrPolicy "autopol-egress-x" "latest" ["10.0.0.5/32"] None] ->
      KnoxNetworkPolicy.meta Samples.renamedPolicy "name"
      = KnoxNetworkPolicy.meta Samples.collidingPolicy "name"
      /\ Samples.renamedWorld = Samples.world0)
  /\ (KnoxNetworkPolicy.meta Samples.collidingPolicy "name"
      ∈ names [Samples.cidrPolicy "autopol-egress-x" "latest" ["10.0.0.5/32"] None] ->
      exists suffix,
        KnoxNetworkPolicy.meta Samples.renamedPolicy "name"
        = String.append (prefixOf (KnoxNetworkPolicy.meta Samples.collidingPolicy "name")) suffix)
  /\ libs.outdated Samples.renamedWorld = libs.outdated Samples.world0.
Proof.
  apply (X26_rename_frame 1
           [Samples.cidrPolicy "autopol-egress-x" "latest" ["10.0.0.5/32"] None]
           Samples.collidingPolicy Samples.renamedPolicy Samples.world0 Samples.renamedWorld).
  vm_compute. reflexivity.
Defined.

(** *** The promotion pass *)

(** X28. [getDomainNameFromMap] returns the first domain name, in the order
    of the iteration, whose address list holds the address; when no list
    holds it, it returns the empty string. *)
Theorem X28_domain_of_address (inIP : string) (dnsToIPs : list (string * list string)) :
  (exists before ips after,
     dnsToIPs = before ++ (core.getDomainNameFromMap inIP dnsToIPs, ips) :: after
     /\ inIP ∈ ips
     /\ Forall (fun entry => inIP ∉ entry.2) before)
  \/ (core.getDomainNameFromMap inIP dnsToIPs = ""
      /\ Forall (fun entry => inIP ∉ entry.2) dnsToIPs).
Proof.
  induction dnsToIPs as [|[domain ips] rest IH]; [right; by split|].
  cbn [core.getDomainNameFromMap].
  destruct (existsb (String.eqb inIP) ips) eqn:Hex.
  - left. exists [], ips, rest. repeat split; [|constructor].
    apply existsb_exists in Hex as (ip & Hin & ->%String.eqb_eq). by apply list_elem_of_In.
  - assert (Hout : inIP ∉ ips).
    { intros Hin%list_elem_of_In. apply not_true_iff_false in Hex. apply Hex.
      apply existsb_exists. exists inIP. split; [done|apply String.eqb_refl]. }
    destruct IH as [(before & ips' & after & Heq & Hin & Hbefore) | [Hnone Hall]].
    + left. exists ((domain, ips) :: before), ips', after. repeat split; [|done|].
      * cbn. by rewrite <- Heq.
      * by apply Forall_cons.
    + right. split; [done|]. by apply Forall_cons.
Qed.


(** A round that does not return keeps the loop from returning. *)
Lemma forM_no_return {A B} (f : B -> A -> libs.M B) (l : list A) (x : A) :
  x ∈ l ->
  (forall b w r, f b x w <> Ret r) ->
  forall b w r, forM f l b w <> Ret r.
Proof.
  intros Hin Hx. induction l as [|y l IH]; [by apply elem_of_nil in Hin|].
  intros b w r (b1 & w1 & Hstep & Hrest)%bind_Ret.
  apply elem_of_cons in Hin as [<- | Hin]; [by apply Hx in Hstep|].
  by apply (IH Hin) in Hrest.
Qed.

(** X30. When one of the existing policies is tagged as an egress policy
    with a ["toCIDRs"] rule and has no egress rule, [DeduplicatePolicies]
    does not return, whatever has been discovered: the promotion pass reads
    the first egress rule of every such policy. *)
Theorem X30_existing_policy_without_egress (fuel : nat)
    (existingPolicies discoveredPolicies out : list KnoxNetworkPolicy.t)
    (dnsToIPs : list (string * list string)) (w w' : libs.World)
    (existCIDR : KnoxNetworkPolicy.t) :
  existCIDR ∈ existingPolicies ->
  KnoxNetworkPolicy.meta existCIDR "type" = "egress" ->
  strings.Contains (KnoxNetworkPolicy.meta existCIDR "rule") "toCIDRs" = true ->
  elems (Spec.Egress (KnoxNetworkPolicy.Spec existCIDR)) = [] ->
  core.DeduplicatePolicies fuel existingPolicies discoveredPolicies dnsToIPs w
  <> Ret (out, w').
Proof.
  intros Hin Htype Hrule Hegress. unfold core.DeduplicatePolicies.
  intros (newPolicies & w1 & _ & Hpass)%bind_Ret. revert Hpass.
  apply (forM_no_return _ _ existCIDR Hin). intros b w0 r. cbv beta zeta.
  rewrite Htype, Hrule. cbn [String.eqb Ascii.eqb Bool.eqb andb].
  intros (e0 & w2 & [He0 _]%lift_Ret & _)%bind_Ret.
  destruct (Spec.Egress (KnoxNetworkPolicy.Spec existCIDR)) as [[|e es]|]; discriminate.
Qed.


Lemma X30_existing_policy_without_egress_witness :
  core.DeduplicatePolicies 0 [Samples.noEgressPolicy] [] [] Samples.world0
  <> Ret ([], Samples.world0).
Proof.
  apply (X30_existing_policy_without_egress 0 [Samples.noEgressPolicy] [] [] []
           Samples.world0 Samples.world0 Samples.noEgressPolicy);
    [by left|reflexivity..].
Defined.

(** *** The whole reconciliation *)

Lemma reconcileOne_step (fuel : nat) (existingPolicies newPolicies newPolicies' : list KnoxNetworkPolicy.t)
    (policy : KnoxNetworkPolicy.t) (w w' : libs.World) :
  core.reconcileOne fuel existingPolicies newPolicies policy w = Ret (newPolicies', w') ->
  (newPolicies' = newPolicies \/ exists named, newPolicies' = newPolicies ++ [named])
  /\ (core.IsExistedPolicy existingPolicies policy = true ->
      newPolicies' = newPolicies /\ w' = w).
Proof.
  unfold core.reconcileOne.
  destruct (core.IsExistedPolicy existingPolicies policy).
  { intros [-> ->]%ret_Ret. split; [by left|done]. }
  intros ([policy1 valid1] & w1 & _ & Hrun)%bind_Ret. split; [|done].
  destruct valid1; cbn [negb] in Hrun; [|apply ret_Ret in Hrun as [-> _]; by left].
  apply bind_Ret in Hrun as ([policy2 valid2] & w2 & _ & Hrun).
  destruct valid2; cbn [negb] in Hrun; [|apply ret_Ret in Hrun as [-> _]; by left].
  apply bind_Ret in Hrun as (named & w3 & _ & [-> _]%ret_Ret). right. by exists named.
Qed.

Lemma reconcile_loop (fuel : nat) (existingPolicies discoveredPolicies : list KnoxNetworkPolicy.t)
    (newPolicies newPolicies' : list KnoxNetworkPolicy.t) (w w' : libs.World) :
  forM (core.reconcileOne fuel existingPolicies) discoveredPolicies newPolicies w
  = Ret (newPolicies', w') ->
  (length newPolicies' <= length newPolicies + length discoveredPolicies)%nat
  /\ (Forall (fun policy => core.IsExistedPolicy existingPolicies policy = true)
             discoveredPolicies ->
      newPolicies' = newPolicies /\ w' = w).
Proof.
  revert newPolicies w. induction discoveredPolicies as [|policy rest IH]; intros newPolicies w.
  - intros [-> ->]%ret_Ret. split; [cbn; lia|done].
  - cbn [forM]. intros (l1 & w1 & [Hstep Hdup]%reconcileOne_step & [Hlen Hall]%IH)%bind_Ret.
    split.
    + destruct Hstep as [-> | [named ->]]; [cbn; lia|].
      rewrite length_app in Hlen. cbn in *. lia.
    + intros [Hp Hrest]%Forall_cons. destruct (Hdup Hp) as [-> ->]. by apply Hall.
Qed.

(** A loop whose rounds leave the empty list and the world as they are. *)
Lemma forM_nil_fixed {A B} (f : list B -> A -> libs.M (list B)) (l : list A) :
  (forall x w r, f [] x w = Ret r -> r = ([], w)) ->
  forall w r, forM f l [] w = Ret r -> r = ([], w).
Proof.
  intros Hf. induction l as [|x l IH]; intros w r.
  - by intros [= <-].
  - cbn [forM]. intros (b1 & w1 & Hstep%Hf & Hrest)%bind_Ret.
    injection Hstep as -> ->. by apply IH.
Qed.

(** The promotion pass does nothing to an empty list. *)
Lemma promotion_of_nothing (existingPolicies out : list KnoxNetworkPolicy.t)
    (dnsToIPs : list (string * list string)) (w w' : libs.World) :
  core.updateExistCIDRtoNewFQDN existingPolicies [] dnsToIPs w = Ret (out, w') ->
  out = [] /\ w' = w.
Proof.
  unfold core.updateExistCIDRtoNewFQDN.
  intros H%forM_nil_fixed; [by injection H as -> ->|]. clear. intros existCIDR w r.
  destruct (_ && _); [|by intros [= <-]].
  intros (e0 & w1 & [_ ->]%lift_Ret & H)%bind_Ret. revert H. apply forM_nil_fixed.
  intros toCidr w0 r0. apply forM_nil_fixed. intros cidr w2 r2.
  unfold core.promoteCIDR. cbn. by intros [= <-].
Qed.

(** X23. When [DeduplicatePolicies] returns, its output has at most as many
    policies as were discovered.  When every discovered policy has the spec
    of some existing policy, the output is empty, no policy is marked
    outdated and no random suffix is drawn. *)
Theorem X23_reconciliation_adds_nothing_twice (fuel : nat)
    (existingPolicies discoveredPolicies out : list KnoxNetworkPolicy.t)
    (dnsToIPs : list (string * list string)) (w w' : libs.World) :
  core.DeduplicatePolicies fuel existingPolicies discoveredPolicies dnsToIPs w
  = Ret (out, w') ->
  (length out <= length discoveredPolicies)%nat
  /\ (Forall (fun policy => core.IsExistedPolicy existingPolicies policy = true)
             discoveredPolicies ->
      out = [] /\ w' = w).
Proof.
  unfold core.DeduplicatePolicies.
  intros (newPolicies & w1 & [Hlen Hdup]%reconcile_loop & Hpass)%bind_Ret. split.
  - apply updateExistCIDRtoNewFQDN_names, (f_equal length) in Hpass.
    unfold names in Hpass. rewrite !length_map in Hpass. cbn in Hlen. lia.
  - intros Hall. destruct (Hdup Hall) as [-> ->]. by apply promotion_of_nothing in Hpass.
Qed.

Lemma X23_reconciliation_adds_nothing_twice_witness :
  (length (@nil KnoxNetworkPolicy.t)
   <= length [Samples.cidrPolicy "autopol-egress-copy" "latest" ["10.0.0.5/32"]
                (Some [Samples.tcp80])])%nat
  /\ (Forall (fun policy =>
                core.IsExistedPolicy
                  [Samples.cidrPolicy "autopol-egress-old" "latest" ["10.0.0.5/32"]
                     (Some [Samples.tcp80])] policy = true)
             [Samples.cidrPolicy "autopol-egress-copy" "latest" ["10.0.0.5/32"]
                (Some [Samples.tcp80])] ->
      @nil KnoxNetworkPolicy.t = [] /\ Samples.world0 = Samples.world0).
Proof.
  apply (X23_reconciliation_adds_nothing_twice 0
           [Samples.cidrPolicy "autopol-egress-old" "latest" ["10.0.0.5/32"]
              (Some [Samples.tcp80])]
           [Samples.cidrPolicy "autopol-egress-copy" "latest" ["10.0.0.5/32"]
              (Some [Samples.tcp80])]
           [] Samples.dnsMap Samples.world0 Samples.world0).
  vm_compute. reflexivity.
Defined.

(** [GetSpecs] returns the existing policies that have the selector of the
    policy, in their order; the type of a policy makes no difference. *)
Lemma GetSpecs_filter (existingPolicies : list KnoxNetworkPolicy.t)
    (policy : KnoxNetworkPolicy.t) :
  core.GetSpecs existingPolicies policy
  = List.filter (fun exist_ =>
                   bool_decide (Spec.Selector (KnoxNetworkPolicy.Spec exist_)
                                = Spec.Selector (KnoxNetworkPolicy.Spec policy)))
                existingPolicies.
Proof.
  unfold core.GetSpecs.
  assert (H : forall acc,
             fold_left (fun policies exist_ =>
                          if bool_decide (Spec.Selector (KnoxNetworkPolicy.Spec exist_)
                                          = Spec.Selector (KnoxNetworkPolicy.Spec policy))
                          then if String.eqb (KnoxNetworkPolicy.meta exist_ "type") "egress"
                               then policies ++ [exist_] else policies ++ [exist_]
                          else policies) existingPolicies acc
             = acc ++ List.filter (fun exist_ =>
                                     bool_decide (Spec.Selector (KnoxNetworkPolicy.Spec exist_)
                                                  = Spec.Selector (KnoxNetworkPolicy.Spec policy)))
                                  existingPolicies).
  { induction existingPolicies as [|exist_ rest IH]; intros acc; cbn [fold_left List.filter].
    - by rewrite app_nil_r.
    - rewrite IH. destruct (bool_decide _); [|done].
      destruct (String.eqb _ _); by rewrite <- app_assoc. }
  apply (H []).
Qed.
